(** * occtx: the context storage and state engine

    A shallow embedding of the Go packages [internal/config] (path
    resolution) and [internal/context] (formats, state store, context
    manager) and, of package [cmd], of the command dispatch and the import,
    export and show commands, over a small model of the [os], [strings],
    [path/filepath], [time] and [encoding/json] packages they call.

    Go strings are byte sequences; they are Rocq [string]s (one [ascii] per
    byte).  The filesystem is a finite map from absolute, clean paths to
    nodes.  Every operation of the manager runs in a state-and-error monad
    whose state is the filesystem and which also records, in order, every
    filesystem call made. *)

From Stdlib Require Import String Ascii List ZArith NArith Lia Bool.
From stdpp Require Import base option gmap strings list sorting.

Import ListNotations.
Local Open Scope stdpp_scope.

(** ** Package [strings] *)

Module strings.

Definition nl : ascii := "010"%char.
Definition LF : string := String nl EmptyString.

(** [strings.HasPrefix(s, prefix)] *)
Definition HasPrefix (s pre : string) : bool := String.prefix pre s.

(** [strings.Contains(s, substr)] *)
Fixpoint Contains (s sub : string) : bool :=
  String.prefix sub s ||
  match s with
  | EmptyString => false
  | String _ s' => Contains s' sub
  end.

(** [strings.HasSuffix(s, suffix)] *)
Fixpoint HasSuffix (s suf : string) : bool :=
  String.eqb s suf ||
  match s with
  | EmptyString => false
  | String _ s' => HasSuffix s' suf
  end.

(** [strings.TrimSuffix(s, suffix)]: [s] without the trailing [suffix],
    or [s] itself when it does not end with it. *)
Fixpoint TrimSuffix (s suf : string) : string :=
  if String.eqb s suf then EmptyString
  else match s with
       | EmptyString => EmptyString
       | String c s' => String c (TrimSuffix s' suf)
       end.

(** [strings.Split(s, sep)] for a one-byte separator. *)
Fixpoint Split (s : string) (sep : ascii) : list string :=
  match s with
  | EmptyString => [EmptyString]
  | String c s' =>
      if Ascii.eqb c sep then EmptyString :: Split s' sep
      else match Split s' sep with
           | l :: ls => String c l :: ls
           | [] => [String c EmptyString]
           end
  end.

(** [strings.Join(elems, sep)] *)
Definition Join (elems : list string) (sep : string) : string :=
  String.concat sep elems.

(** White space as [unicode.IsSpace] defines it, on the UTF-8 encoding:
    one-byte runes, then U+0085 and U+00A0, then the three-byte ones. *)
Definition ascii_space (c : ascii) : bool :=
  match N_of_ascii c with
  | 9 | 10 | 11 | 12 | 13 | 32 => true
  | _ => false
  end%N.

Definition latin1_space (c1 c2 : ascii) : bool :=
  match N_of_ascii c1, N_of_ascii c2 with
  | 194, 133 | 194, 160 => true
  | _, _ => false
  end%N.

Definition wide_space (c1 c2 c3 : ascii) : bool :=
  match N_of_ascii c1, N_of_ascii c2, N_of_ascii c3 with
  | 225, 154, 128 => true
  | 226, 128, n => (128 <=? n)%N && (n <=? 138)%N
                   || (n =? 168)%N || (n =? 169)%N || (n =? 175)%N
  | 226, 129, 159 => true
  | 227, 128, 128 => true
  | _, _, _ => false
  end%N.

Fixpoint TrimLeftSpace (s : string) : string :=
  match s with
  | EmptyString => s
  | String c1 s1 =>
      if ascii_space c1 then TrimLeftSpace s1
      else match s1 with
           | EmptyString => s
           | String c2 s2 =>
               if latin1_space c1 c2 then TrimLeftSpace s2
               else match s2 with
                    | EmptyString => s
                    | String c3 s3 =>
                        if wide_space c1 c2 c3 then TrimLeftSpace s3 else s
                    end
           end
  end.

Definition all_space (s : string) : bool :=
  String.eqb (TrimLeftSpace s) EmptyString.

Fixpoint TrimRightSpace (s : string) : string :=
  if all_space s then EmptyString
  else match s with
       | EmptyString => EmptyString
       | String c s' => String c (TrimRightSpace s')
       end.

(** [strings.TrimSpace(s)] *)
Definition TrimSpace (s : string) : string :=
  TrimRightSpace (TrimLeftSpace s).

End strings.

(** ** Package [path/filepath], on clean slash-separated paths *)

Module filepath.

Definition sep : ascii := "/"%char.

(** [filepath.Join(dir, elem)] for a clean non-root [dir] and an [elem]
    that is one path element: the two joined by one separator. *)
Definition Join (dir elem : string) : string := dir +:+ "/" +:+ elem.

(** The prefixes of [s] that end just before a separator, shortest first;
    [pre] is what was read so far. *)
Fixpoint cuts (pre s : string) : list string :=
  match s with
  | EmptyString => []
  | String c s' =>
      if Ascii.eqb c sep
      then match pre with
           | EmptyString => cuts (String c EmptyString) s'
           | _ => pre :: cuts (pre +:+ String c EmptyString) s'
           end
      else cuts (pre +:+ String c EmptyString) s'
  end.

(** The chain of parents of a clean path, nearest first:
    [parents "/a/b/c" = ["/a/b"; "/a"]]. *)
Definition parents (p : string) : list string :=
  reverse (cuts EmptyString p).

(** [filepath.Dir(path)] on a clean path. *)
Definition Dir (p : string) : string :=
  match parents p with
  | d :: _ => d
  | [] => if strings.HasPrefix p "/" then "/" else "."
  end.

End filepath.

(** ** Package [time]: the wall clock and the layout used by the manager *)

Module time.

Record Time := mkTime
  { year : nat; month : nat; day : nat;
    hour : nat; minute : nat; second : nat }.

Definition digit (n : nat) : ascii :=
  ascii_of_nat (48 + n mod 10).

Definition pad2 (n : nat) : string :=
  String (digit (n / 10)) (String (digit n) EmptyString).

Definition pad4 (n : nat) : string :=
  String (digit (n / 1000)) (String (digit (n / 100)) (pad2 n)).

(** [t.Format("2006-01-02 15:04:05")] *)
Definition Format (t : Time) : string :=
  pad4 (year t) +:+ "-" +:+ pad2 (month t) +:+ "-" +:+ pad2 (day t)
  +:+ " " +:+ pad2 (hour t) +:+ ":" +:+ pad2 (minute t)
  +:+ ":" +:+ pad2 (second t).

End time.

(** ** Package [os]: a filesystem of files and directories *)

Module os.

Inductive node :=
| File (data : string)
| Directory.

Inductive errno := ENOENT | EISDIR | ENOTDIR | ENOTEMPTY | EINVAL.

(** The filesystem calls the engine makes, as they are recorded. *)
Inductive call :=
| SysStat (path : string)
| SysReadFile (path : string)
| SysWriteFile (path data : string)
| SysRename (oldpath newpath : string)
| SysRemove (path : string)
| SysMkdirAll (path : string)
| SysReadDir (path : string).

Record DirEntry := mkDirEntry { Name : string; IsDir : bool }.

Definition is_directory (n : node) : bool :=
  match n with Directory => true | File _ => false end.

(** [p] names a directory; the root always does. *)
Definition dir_exists (fs : gmap string node) (p : string) : bool :=
  String.eqb p "/" ||
  match fs !! p with Some Directory => true | _ => false end.

Fixpoint strip_prefix (pre s : string) : option string :=
  match pre, s with
  | EmptyString, _ => Some s
  | String a pre', String b s' =>
      if Ascii.eqb a b then strip_prefix pre' s' else None
  | String _ _, EmptyString => None
  end.

(** One path element, as a directory holds them. *)
Definition is_element (n : string) : bool :=
  negb (String.eqb n EmptyString) && negb (strings.Contains n "/")
  && negb (String.eqb n ".") && negb (String.eqb n "..").

Definition entry_of (d : string) (kn : string * node) : option DirEntry :=
  match strip_prefix (d +:+ "/") kn.1 with
  | Some n => if is_element n
              then Some (mkDirEntry n (is_directory kn.2)) else None
  | None => None
  end.

Definition entry_le (a b : DirEntry) : Prop := String.le (Name a) (Name b).

#[global] Instance entry_le_dec : RelDecision entry_le.
Proof. intros a b. unfold entry_le. apply _. Defined.

(** The entries of directory [d], sorted by file name. *)
Definition entries (fs : gmap string node) (d : string) : list DirEntry :=
  merge_sort entry_le (omap (entry_of d) (map_to_list fs)).

(** What [os.MkdirAll] does along the chain [p :: parents p]: stop at the
    first path that exists (a directory is fine, a file is an error),
    create what is above it, then the path itself. *)
Fixpoint mkdir_chain (ps : list string) (fs : gmap string node)
  : errno + gmap string node :=
  match ps with
  | [] => inr fs
  | p :: above =>
      match fs !! p with
      | Some Directory => inr fs
      | Some (File _) => inl ENOTDIR
      | None =>
          match mkdir_chain above fs with
          | inr fs' => inr (<[p := Directory]> fs')
          | inl e => inl e
          end
      end
  end.

(** Something on the way to [p] is a regular file: a path above [p] holds
    a file, so that nothing can be looked up below it.  (A map may hold
    something below a regular file; no filesystem does, and the calls then
    answer for the path itself.) *)
Definition is_file (n : option node) : bool :=
  match n with Some (File _) => true | _ => false end.

Definition blocked (fs : gmap string node) (p : string) : bool :=
  existsb (fun a => is_file (fs !! a)) (filepath.parents p).

(** The error of a call on a path with nothing at it: [ENOTDIR] when the
    way to it goes through a regular file, [ENOENT] otherwise. *)
Definition missing (fs : gmap string node) (p : string) : errno :=
  if blocked fs p then ENOTDIR else ENOENT.

Definition stat (fs : gmap string node) (p : string) : errno + DirEntry :=
  match fs !! p with
  | Some n => inr (mkDirEntry p (is_directory n))
  | None => inl (missing fs p)
  end.

Definition read_file (fs : gmap string node) (p : string) : errno + string :=
  match fs !! p with
  | Some (File d) => inr d
  | Some Directory => inl EISDIR
  | None => inl (missing fs p)
  end.

Definition write_file (fs : gmap string node) (p data : string)
  : errno + gmap string node :=
  match fs !! p with
  | Some Directory => inl EISDIR
  | _ => if dir_exists fs (filepath.Dir p)
         then inr (<[p := File data]> fs) else inl (missing fs p)
  end.

(** Renaming a file replaces a file at the new path; it fails over a
    directory.  The engine renames files only: moving a directory is not
    modelled and reported as [EINVAL]. *)
Definition rename (fs : gmap string node) (o n : string)
  : errno + gmap string node :=
  match fs !! o with
  | None => inl (missing fs o)
  | Some Directory => inl EINVAL
  | Some (File d) =>
      match fs !! n with
      | Some Directory => inl EISDIR
      | _ => if dir_exists fs (filepath.Dir n)
             then inr (<[n := File d]> (delete o fs))
             else inl (missing fs n)
      end
  end.

Definition remove (fs : gmap string node) (p : string)
  : errno + gmap string node :=
  match fs !! p with
  | None => inl (missing fs p)
  | Some (File _) => inr (delete p fs)
  | Some Directory =>
      match entries fs p with
      | [] => inr (delete p fs)
      | _ :: _ => inl ENOTEMPTY
      end
  end.

Definition mkdir_all (fs : gmap string node) (p : string)
  : errno + gmap string node :=
  mkdir_chain (p :: filepath.parents p) fs.

Definition read_dir (fs : gmap string node) (p : string)
  : errno + list DirEntry :=
  if dir_exists fs p then inr (entries fs p)
  else match fs !! p with
       | Some _ => inl ENOTDIR
       | None => inl (missing fs p)
       end.

End os.

(** ** Errors of the engine

    One constructor per error the source builds, named after the kind the
    specification gives it; [EOS] is an error of a filesystem call passed
    on as it is, [EMarshal] one of [json.MarshalIndent]. *)

Inductive name_error :=
| NameEmpty         (* "context name cannot be empty" *)
| NameSeparator     (* "context name cannot contain path separators" *)
| NameDots          (* "context name cannot be '.' or '..'" *)
| NameHidden.       (* "context name cannot start with '.'" *)

Inductive error :=
| EOS (e : os.errno)
| EMarshal
| InvalidName (why : name_error)
| InvalidOldName (why : name_error)   (* "invalid old name: ..." *)
| InvalidNewName (why : name_error)   (* "invalid new name: ..." *)
| NotFound (name : string)            (* "context '%s' not found" *)
| InvalidContent (name : string)      (* "invalid JSON in context '%s': ..." *)
| AlreadyExists (name : string) (format : Z)
                                      (* "context '%s' already exists (%s format)" *)
| RenameTargetExists (name : string)  (* "context '%s' already exists" *)
| SourceMissing (path : string)       (* "no active opencode.json found at %s" *)
| SourceInvalidJSON                   (* "current opencode.json is not valid JSON: ..." *)
| UnsupportedFormat (format : Z)      (* "unsupported format: %s" *)
| CurrentContextProtected (name : string)
                                      (* "cannot delete current context '%s'. ..." *)
| NoPreviousContext                   (* "no previous context available" *)
| StalePrevious (name : string).      (* "previous context '%s' no longer exists" *)

(** The kinds of the specification's taxonomy. *)
Inductive kind :=
| KInvalidName | KNotFound | KAlreadyExists | KInvalidContent | KSourceInvalid
| KCurrentContextProtected | KNoPreviousContext | KStalePrevious | KOther.

Definition kind_of (e : error) : kind :=
  match e with
  | InvalidName _ | InvalidOldName _ | InvalidNewName _ => KInvalidName
  | NotFound _ => KNotFound
  | AlreadyExists _ _ | RenameTargetExists _ => KAlreadyExists
  | InvalidContent _ => KInvalidContent
  | SourceMissing _ | SourceInvalidJSON => KSourceInvalid
  | CurrentContextProtected _ => KCurrentContextProtected
  | NoPreviousContext => KNoPreviousContext
  | StalePrevious _ => KStalePrevious
  | EOS _ | EMarshal | UnsupportedFormat _ => KOther
  end.

Inductive result (A : Type) :=
| Ok (a : A)
| Err (e : error).
Arguments Ok {A} a.
Arguments Err {A} e.

(** ** The monad of the engine

    The state is the world: the filesystem and the wall clock.  A
    computation returns its result, the world it leaves, and the filesystem
    calls it made.  An error stops the computation; what was written before
    it stays written. *)

Record World := mkWorld
  { files : gmap string os.node;
    clock : time.Time }.

Definition with_files (w : World) (fs : gmap string os.node) : World :=
  mkWorld fs (clock w).

Record Out (A : Type) := out
  { res : result A;
    world : World;
    calls : list os.call }.
Arguments out {A} res world calls.
Arguments res {A} o.
Arguments world {A} o.
Arguments calls {A} o.

Definition M (A : Type) : Type := World -> Out A.

Definition ret {A} (a : A) : M A := fun w => out (Ok a) w [].

Definition fail {A} (e : error) : M A := fun w => out (Err e) w [].

(** [o] with the calls [c1] made before it. *)
Definition after {B} (c1 : list os.call) (o : Out B) : Out B :=
  match o with
  | out r w2 c2 => out r w2 (c1 ++ c2)
  end.
Arguments after {B} c1 !o /.

Definition bind {A B} (m : M A) (k : A -> M B) : M B :=
  fun w =>
    match m w with
    | out (Ok a) w1 c1 => after c1 (k a w1)
    | out (Err e) w1 c1 => out (Err e) w1 c1
    end.
Arguments bind {A B} m k w /.

Notation "'let!' x ':=' m 'in' k" := (bind m (fun x => k))
  (at level 10, x name, m at level 100, k at level 200).

(** A pure fallible step. *)
Definition lift {A} (r : result A) : M unit :=
  match r with Ok _ => ret tt | Err e => fail e end.

(** A filesystem call that reads: the outcome is handed to the caller, which
    decides what an error means. *)
Definition sys_read {A} (c : os.call)
    (f : gmap string os.node -> os.errno + A) : M (os.errno + A) :=
  fun w => out (Ok (f (files w))) w [c].

(** A filesystem call that writes: on an error the filesystem is as it was. *)
Definition sys_write (c : os.call)
    (f : gmap string os.node -> os.errno + gmap string os.node)
  : M (os.errno + unit) :=
  fun w =>
    let r := f (files w) in
    out (Ok match r with inr _ => inr tt | inl e => inl e end)
        match r with inr fs' => with_files w fs' | inl _ => w end
        [c].

(** [if err != nil { return err }] *)
Definition check {A} (r : os.errno + A) : M A :=
  match r with inr a => ret a | inl e => fail (EOS e) end.

Definition is_nil {A} (r : os.errno + A) : bool :=
  match r with inr _ => true | inl _ => false end.

(** [os.IsNotExist(err)] *)
Definition IsNotExist {A} (r : os.errno + A) : bool :=
  match r with inl os.ENOENT => true | _ => false end.

Definition Stat (p : string) := sys_read (os.SysStat p) (fun fs => os.stat fs p).
Definition ReadFile (p : string) :=
  sys_read (os.SysReadFile p) (fun fs => os.read_file fs p).
Definition ReadDir (p : string) :=
  sys_read (os.SysReadDir p) (fun fs => os.read_dir fs p).
Definition WriteFile (p data : string) :=
  sys_write (os.SysWriteFile p data) (fun fs => os.write_file fs p data).
Definition Rename (o n : string) :=
  sys_write (os.SysRename o n) (fun fs => os.rename fs o n).
Definition Remove (p : string) :=
  sys_write (os.SysRemove p) (fun fs => os.remove fs p).
Definition MkdirAll (p : string) :=
  sys_write (os.SysMkdirAll p) (fun fs => os.mkdir_all fs p).

(** [if _, err := m; err != nil { return e }]: any error of [m] becomes
    [e]. *)
Definition or_fail {A} (m : M A) (e : error) : M A :=
  fun w =>
    match m w with
    | out (Ok a) w1 c1 => out (Ok a) w1 c1
    | out (Err _) w1 c1 => out (Err e) w1 c1
    end.

(** [time.Now()] *)
Definition Now : M time.Time := fun w => out (Ok (clock w)) w [].

(** ** Package [config]: path resolution *)

Module config.

Definition OpenCodeConfigDir : string := ".config/opencode".
Definition SettingsSubDir : string := "settings".
Definition StateFileName : string := ".occtx-state.json".
Definition ActiveConfigFileName : string := "opencode.json".
Definition ProjectConfigFileName : string := "opencode.json".
Definition ProjectConfigDir : string := "opencode".

Record Paths := mkPaths
  { GlobalConfigDir : string;
    GlobalSettingsDir : string;
    GlobalActiveConfig : string;
    GlobalStateFile : string;
    ProjectConfigDir_ : string;
    ProjectSettingsDir : string;
    ProjectActiveConfig : string;
    ProjectStateFile : string }.

(** [NewPaths], from what [os.UserHomeDir] and [os.Getwd] returned. *)
Definition NewPaths (homeDir currentDir : string) : Paths :=
  let globalConfigDir := filepath.Join homeDir OpenCodeConfigDir in
  let globalSettingsDir := filepath.Join globalConfigDir SettingsSubDir in
  let projectConfigDir := filepath.Join currentDir ProjectConfigDir in
  let projectSettingsDir := filepath.Join projectConfigDir SettingsSubDir in
  {| GlobalConfigDir := globalConfigDir;
     GlobalSettingsDir := globalSettingsDir;
     GlobalActiveConfig := filepath.Join globalConfigDir ActiveConfigFileName;
     GlobalStateFile := filepath.Join globalSettingsDir StateFileName;
     ProjectConfigDir_ := projectConfigDir;
     ProjectSettingsDir := projectSettingsDir;
     ProjectActiveConfig := filepath.Join currentDir ProjectConfigFileName;
     ProjectStateFile := filepath.Join projectSettingsDir StateFileName |}.

Definition GetContextsDir (p : Paths) (useProject : bool) : string :=
  if useProject then ProjectSettingsDir p else GlobalSettingsDir p.

Definition GetActiveConfigPath (p : Paths) (useProject : bool) : string :=
  if useProject then ProjectActiveConfig p else GlobalActiveConfig p.

Definition GetStateFilePath (p : Paths) (useProject : bool) : string :=
  if useProject then ProjectStateFile p else GlobalStateFile p.

Fixpoint mkdir_each (dirs : list string) : M unit :=
  match dirs with
  | [] => ret tt
  | dir :: rest =>
      let! r := MkdirAll dir in
      let! _ := check r in
      mkdir_each rest
  end.

Definition EnsureDirectories (p : Paths) (useProject : bool) : M unit :=
  let dirs := if useProject
              then [ProjectConfigDir_ p; ProjectSettingsDir p]
              else [GlobalConfigDir p; GlobalSettingsDir p] in
  mkdir_each dirs.

End config.

(** ** Package [context]: formats *)

(** [type ContextFormat int] *)
Definition ContextFormat := Z.
Definition FormatJSON : ContextFormat := 0%Z.
Definition FormatJSONC : ContextFormat := 1%Z.

Definition FileExtension (f : ContextFormat) : string :=
  match f with
  | 0%Z => ".json"
  | 1%Z => ".jsonc"
  | _ => ".json"
  end.

Definition DisplayName (f : ContextFormat) : string :=
  match f with
  | 0%Z => "JSON"
  | 1%Z => "JSONC"
  | _ => "Unknown"
  end.

Definition GetAllFormats : list ContextFormat := [FormatJSON; FormatJSONC].

(** ** Package [context]: the state record *)

Record State := mkState { Current : string; Previous : string }.

Definition emptyState : State := mkState EmptyString EmptyString.

(** [func (s *State) SetCurrent(contextName string)] *)
Definition State_SetCurrent (s : State) (contextName : string) : State :=
  mkState contextName (Current s).

(** [func (s *State) Unset()] *)
Definition State_Unset (s : State) : State :=
  mkState EmptyString (Current s).

(** [func (s *State) SwitchToPrevious() bool]: the returned flag and the
    receiver as the call leaves it. *)
Definition State_SwitchToPrevious (s : State) : bool * State :=
  if String.eqb (Previous s) EmptyString then (false, s)
  else (true, mkState (Previous s) (Current s)).

(** ** Package [encoding/json], as the engine uses it

    [Doc] is the Go type [map[string]interface{}], [nilDoc] its nil map.
    Decoding returns [None] where [json.Unmarshal] returns an error, encoding
    where [json.MarshalIndent(v, "", "  ")] does. *)

Class JSON := mkJSON
  { Doc : Type;
    nilDoc : Doc;
    unmarshalDoc : string -> option Doc;
    marshalIndentDoc : Doc -> option string;
    unmarshalState : string -> option State;
    marshalIndentState : State -> option string }.

(** [validateContextName] *)
Definition validateContextName (name : string) : result unit :=
  if String.eqb name EmptyString then Err (InvalidName NameEmpty)
  else if strings.Contains name "/" || strings.Contains name "\"
  then Err (InvalidName NameSeparator)
  else if String.eqb name "." || String.eqb name ".."
  then Err (InvalidName NameDots)
  else if strings.HasPrefix name "."
  then Err (InvalidName NameHidden)
  else Ok tt.

Section Engine.

Context `{JSON}.

(** *** The state store *)

(** [LoadState] *)
Definition LoadState (stateFilePath : string) : M State :=
  let! st := Stat stateFilePath in
  if IsNotExist st then ret emptyState
  else
    let! r := ReadFile stateFilePath in
    let! data := check r in
    match unmarshalState data with
    | None => ret emptyState
    | Some state => ret state
    end.

(** [func (s *State) SaveState(stateFilePath string) error] *)
Definition State_SaveState (s : State) (stateFilePath : string) : M unit :=
  let! r := MkdirAll (filepath.Dir stateFilePath) in
  let! _ := check r in
  match marshalIndentState s with
  | None => fail EMarshal
  | Some data =>
      let tempFile := stateFilePath +:+ ".tmp" in
      let! r := WriteFile tempFile data in
      let! _ := check r in
      let! r := Rename tempFile stateFilePath in
      check r
  end.

(** *** The context manager *)

Record Context := mkContext
  { Name : string;
    Data : Doc;
    FilePath : string }.

Record Manager := mkManager
  { paths : config.Paths;
    useProject : bool }.

(** [NewManager], from the home and working directories. *)
Definition NewManager (homeDir currentDir : string) (useProject : bool)
  : Manager :=
  mkManager (config.NewPaths homeDir currentDir) useProject.

(** The loop of [ListContexts] over the directory entries. *)
Fixpoint list_entries (contextsDir : string) (entries : list os.DirEntry)
  : list Context :=
  match entries with
  | [] => []
  | entry :: rest =>
      if os.IsDir entry then list_entries contextsDir rest
      else if String.eqb (os.Name entry) config.StateFileName
      then list_entries contextsDir rest
      else
        let keep name :=
          mkContext name nilDoc (filepath.Join contextsDir (os.Name entry))
          :: list_entries contextsDir rest in
        if strings.HasSuffix (os.Name entry) ".json"
        then keep (strings.TrimSuffix (os.Name entry) ".json")
        else if strings.HasSuffix (os.Name entry) ".jsonc"
        then keep (strings.TrimSuffix (os.Name entry) ".jsonc")
        else list_entries contextsDir rest
  end.

(** [func (m *Manager) ListContexts()], returning the contexts or an
    error. *)
Definition ListContexts (m : Manager) : M (list Context) :=
  let contextsDir := config.GetContextsDir (paths m) (useProject m) in
  let! st := Stat contextsDir in
  if IsNotExist st then ret []
  else
    let! r := ReadDir contextsDir in
    let! entries := check r in
    ret (list_entries contextsDir entries).

(** The comment removal of [GetContext]: drop the lines that start with
    [//] once trimmed. *)
Definition strip_comments (data : string) : string :=
  let lines := strings.Split data strings.nl in
  let cleanLines :=
    List.filter
      (fun line => negb (strings.HasPrefix (strings.TrimSpace line) "//"))
      lines in
  strings.Join cleanLines strings.LF.

(** [func (m *Manager) GetContext(name string)], returning the context
    or an error. *)
Definition GetContext (m : Manager) (name : string) : M Context :=
  let! _ := lift (validateContextName name) in
  let contextsDir := config.GetContextsDir (paths m) (useProject m) in
  let jsonPath := filepath.Join contextsDir (name +:+ ".json") in
  let jsoncPath := filepath.Join contextsDir (name +:+ ".jsonc") in
  let! st := Stat jsonPath in
  let! contextPath :=
    (if is_nil st then ret jsonPath
     else
       let! st := Stat jsoncPath in
       if is_nil st then ret jsoncPath
       else fail (NotFound name)) in
  let! r := ReadFile contextPath in
  let! data := check r in
  let! contextData :=
    (if strings.HasSuffix contextPath ".jsonc"
     then match unmarshalDoc (strip_comments data) with
          | Some d => ret d
          | None => fail (InvalidContent name)
          end
     else match unmarshalDoc data with
          | Some d => ret d
          | None => fail (InvalidContent name)
          end) in
  ret (mkContext name contextData contextPath).

(** The loop of [CreateContextWithFormat] over [GetAllFormats()]. *)
Fixpoint check_free (contextsDir name : string) (fs : list ContextFormat)
  : M unit :=
  match fs with
  | [] => ret tt
  | f :: rest =>
      let existingPath :=
        filepath.Join contextsDir (name +:+ FileExtension f) in
      let! st := Stat existingPath in
      if is_nil st then fail (AlreadyExists name f)
      else check_free contextsDir name rest
  end.

(** The comment header of a JSONC context. *)
Definition header (name : string) (format : ContextFormat) (t : time.Time)
  : string :=
  "// opencode context: " +:+ name +:+ strings.LF
  +:+ "// Format: " +:+ DisplayName format +:+ strings.LF
  +:+ "// Created: " +:+ time.Format t +:+ strings.LF.

(** [func (m *Manager) CreateContextWithFormat(name, format) error] *)
Definition CreateContextWithFormat (m : Manager) (name : string)
    (format : ContextFormat) : M unit :=
  let! _ := lift (validateContextName name) in
  let! _ := config.EnsureDirectories (paths m) (useProject m) in
  let fileExt := FileExtension format in
  let contextsDir := config.GetContextsDir (paths m) (useProject m) in
  let contextPath := filepath.Join contextsDir (name +:+ fileExt) in
  let! _ := check_free contextsDir name GetAllFormats in
  let activeConfigPath :=
    config.GetActiveConfigPath (paths m) (useProject m) in
  let! st := Stat activeConfigPath in
  if IsNotExist st then fail (SourceMissing activeConfigPath)
  else
    let! r := ReadFile activeConfigPath in
    let! data := check r in
    match unmarshalDoc data with
    | None => fail SourceInvalidJSON
    | Some jsonData =>
        let! formattedData :=
          (match format with
           | 1%Z =>
               match marshalIndentDoc jsonData with
               | None => fail EMarshal
               | Some formattedJSON =>
                   let! now := Now in
                   ret (header name format now +:+ formattedJSON)
               end
           | 0%Z =>
               match marshalIndentDoc jsonData with
               | None => fail EMarshal
               | Some formattedJSON => ret formattedJSON
               end
           | _ => fail (UnsupportedFormat format)
           end) in
        let tempPath := contextPath +:+ ".tmp" in
        let! r := WriteFile tempPath formattedData in
        let! _ := check r in
        let! r := Rename tempPath contextPath in
        check r
    end.

(** [func (m *Manager) CreateContext(name string) error] *)
Definition CreateContext (m : Manager) (name : string) : M unit :=
  CreateContextWithFormat m name FormatJSON.

(** [func (m *Manager) SwitchToContext(name string) error] *)
Definition SwitchToContext (m : Manager) (name : string) : M unit :=
  let! context := GetContext m name in
  let activeConfigPath :=
    config.GetActiveConfigPath (paths m) (useProject m) in
  let! r := MkdirAll (filepath.Dir activeConfigPath) in
  let! _ := check r in
  let! r := ReadFile (FilePath context) in
  let! data := check r in
  let tempPath := activeConfigPath +:+ ".tmp" in
  let! r := WriteFile tempPath data in
  let! _ := check r in
  let! r := Rename tempPath activeConfigPath in
  let! _ := check r in
  let stateFilePath := config.GetStateFilePath (paths m) (useProject m) in
  let! state := LoadState stateFilePath in
  State_SaveState (State_SetCurrent state name) stateFilePath.

(** [func (m *Manager) DeleteContext(name string) error] *)
Definition DeleteContext (m : Manager) (name : string) : M unit :=
  let! _ := lift (validateContextName name) in
  let! context := GetContext m name in
  let stateFilePath := config.GetStateFilePath (paths m) (useProject m) in
  let! state := LoadState stateFilePath in
  if String.eqb (Current state) name
  then fail (CurrentContextProtected name)
  else
    let! r := Remove (FilePath context) in
    check r.

(** The wrapping of a validation error by [RenameContext]. *)
Definition wrap_name (wrap : name_error -> error) (r : result unit)
  : result unit :=
  match r with
  | Err (InvalidName why) => Err (wrap why)
  | _ => r
  end.

(** [func (m *Manager) RenameContext(oldName, newName string) error] *)
Definition RenameContext (m : Manager) (oldName newName : string)
  : M unit :=
  let! _ := lift (wrap_name InvalidOldName (validateContextName oldName)) in
  let! _ := lift (wrap_name InvalidNewName (validateContextName newName)) in
  let! oldContext := GetContext m oldName in
  let contextsDir := config.GetContextsDir (paths m) (useProject m) in
  let newContextPath := filepath.Join contextsDir (newName +:+ ".json") in
  let! st := Stat newContextPath in
  if is_nil st then fail (RenameTargetExists newName)
  else
    let! r := Rename (FilePath oldContext) newContextPath in
    let! _ := check r in
    let stateFilePath :=
      config.GetStateFilePath (paths m) (useProject m) in
    let! state := LoadState stateFilePath in
    let renamed (n : string) :=
      if String.eqb n oldName then newName else n in
    let updated := String.eqb (Current state) oldName
                   || String.eqb (Previous state) oldName in
    if updated
    then State_SaveState
           (mkState (renamed (Current state)) (renamed (Previous state)))
           stateFilePath
    else ret tt.

(** [func (m *Manager) GetCurrentContext() (string, error)] *)
Definition GetCurrentContext (m : Manager) : M string :=
  let stateFilePath := config.GetStateFilePath (paths m) (useProject m) in
  let! state := LoadState stateFilePath in
  ret (Current state).

(** [func (m *Manager) SwitchToPrevious() error] *)
Definition SwitchToPrevious (m : Manager) : M unit :=
  let stateFilePath := config.GetStateFilePath (paths m) (useProject m) in
  let! state := LoadState stateFilePath in
  let (switched, state) := State_SwitchToPrevious state in
  if negb switched then fail NoPreviousContext
  else
    let! _ := or_fail (GetContext m (Current state))
                      (StalePrevious (Current state)) in
    SwitchToContext m (Current state).

(** [func (m *Manager) UnsetCurrentContext() error] *)
Definition UnsetCurrentContext (m : Manager) : M unit :=
  let activeConfigPath :=
    config.GetActiveConfigPath (paths m) (useProject m) in
  let! st := Stat activeConfigPath in
  let! _ := (if is_nil st
             then let! r := Remove activeConfigPath in check r
             else ret tt) in
  let stateFilePath := config.GetStateFilePath (paths m) (useProject m) in
  let! state := LoadState stateFilePath in
  State_SaveState (State_Unset state) stateFilePath.

End Engine.

(** ** A JSON codec to run the engine on

    An instance of [JSON] for objects whose members are strings of plain
    printable characters: it decodes what [encoding/json] decodes on such
    input and prints what [json.MarshalIndent(v, "", "  ")] prints (members
    in key order, two-space indent).  The engine's own theorems hold for any
    codec; this one evaluates them on concrete worlds. *)

Module Sample.

Definition quote : ascii := "034"%char.

(** Characters that [encoding/json] writes and reads as themselves. *)
Definition plain (c : ascii) : bool :=
  let n := N_of_ascii c in
  (32 <=? n)%N && (n <? 127)%N
  && negb ((n =? 34)%N || (n =? 92)%N || (n =? 60)%N ||
           (n =? 62)%N || (n =? 38)%N).

Fixpoint all_plain (s : string) : bool :=
  match s with
  | EmptyString => true
  | String c s' => plain c && all_plain s'
  end.

Definition quoted (s : string) : string :=
  String quote s +:+ String quote EmptyString.

Definition member (kv : string * string) : string :=
  "  " +:+ quoted kv.1 +:+ ": " +:+ quoted kv.2.

Definition print_object (kvs : list (string * string)) : option string :=
  if forallb (fun kv => all_plain kv.1 && all_plain kv.2) kvs
  then Some match kvs with
            | [] => "{}"
            | _ => "{" +:+ strings.LF
                   +:+ strings.Join (map member kvs) ("," +:+ strings.LF)
                   +:+ strings.LF +:+ "}"
            end
  else None.

Definition is_ws (c : ascii) : bool :=
  match N_of_ascii c with
  | 9 | 10 | 13 | 32 => true
  | _ => false
  end%N.

Fixpoint skip_ws (s : string) : string :=
  match s with
  | String c s' => if is_ws c then skip_ws s' else s
  | EmptyString => s
  end.

(** The rest of a string literal, after its opening quote. *)
Fixpoint parse_plain (s : string) : option (string * string) :=
  match s with
  | EmptyString => None
  | String c s' =>
      if Ascii.eqb c quote then Some (EmptyString, s')
      else if plain c
      then match parse_plain s' with
           | Some (x, r) => Some (String c x, r)
           | None => None
           end
      else None
  end.

Definition parse_str (s : string) : option (string * string) :=
  match skip_ws s with
  | String c s' => if Ascii.eqb c quote then parse_plain s' else None
  | EmptyString => None
  end.

Definition expect (c : ascii) (s : string) : option string :=
  match skip_ws s with
  | String c' s' => if Ascii.eqb c c' then Some s' else None
  | EmptyString => None
  end.

Fixpoint members (fuel : nat) (s : string)
  : option (list (string * string) * string) :=
  match fuel with
  | O => None
  | S fuel =>
      match parse_str s with
      | None => None
      | Some (k, r1) =>
          match expect ":" r1 with
          | None => None
          | Some r2 =>
              match parse_str r2 with
              | None => None
              | Some (v, r3) =>
                  match expect "," r3, expect "}" r3 with
                  | Some r4, _ =>
                      match members fuel r4 with
                      | Some (l, r5) => Some ((k, v) :: l, r5)
                      | None => None
                      end
                  | None, Some r4 => Some ([(k, v)], r4)
                  | None, None => None
                  end
              end
          end
      end
  end.

Definition parse_object (s : string) : option (list (string * string)) :=
  match expect "{" s with
  | None => None
  | Some r =>
      match expect "}" r with
      | Some r' =>
          match skip_ws r' with
          | EmptyString => Some []
          | _ => None
          end
      | None =>
          match members (String.length r) r with
          | Some (l, r') =>
              match skip_ws r' with
              | EmptyString => Some l
              | _ => None
              end
          | None => None
          end
      end
  end.

Definition key_le (a b : string * string) : Prop := String.le a.1 b.1.

#[global] Instance key_le_dec : RelDecision key_le.
Proof. intros a b. unfold key_le. apply _. Defined.

(** A later member with the same key replaces an earlier one. *)
Definition to_doc (kvs : list (string * string)) : gmap string string :=
  list_to_map (reverse kvs).

Definition of_doc (d : gmap string string) : option string :=
  print_object (merge_sort key_le (map_to_list d)).

Definition to_state (kvs : list (string * string)) : State :=
  let d := to_doc kvs in
  mkState (default EmptyString (d !! "current"))
          (default EmptyString (d !! "previous")).

(** Both fields are [omitempty]. *)
Definition of_state (s : State) : option string :=
  print_object
    ((if String.eqb (Current s) EmptyString then []
      else [("current", Current s)])
     ++ (if String.eqb (Previous s) EmptyString then []
         else [("previous", Previous s)])).

Definition json : JSON :=
  {| Doc := gmap string string;
     nilDoc := ∅;
     unmarshalDoc s := to_doc <$> parse_object s;
     marshalIndentDoc := of_doc;
     unmarshalState s := to_state <$> parse_object s;
     marshalIndentState := of_state |}.

End Sample.

(** ** Definitions used to state the properties *)

(** The byte [a] occurs in [s]. *)
Fixpoint has_byte (a : ascii) (s : string) : bool :=
  match s with
  | EmptyString => false
  | String c s' => Ascii.eqb a c || has_byte a s'
  end.

(** The commit sequence shared by [State_SaveState],
    [CreateContextWithFormat] and [SwitchToContext]: write [path.tmp], then
    rename it over [path]. *)
Definition atomic_write (path data : string) : M unit :=
  let tempPath := path +:+ ".tmp" in
  let! r := WriteFile tempPath data in
  let! _ := check r in
  let! r := Rename tempPath path in
  check r.

(** What [LoadState] returns, from what is at the state file's path and
    whether the way to it goes through a regular file. *)
Definition load_result `{JSON} (blocked : bool) (n : option os.node)
  : result State :=
  match n with
  | None => if blocked then Err (EOS os.ENOTDIR) else Ok emptyState
  | Some (os.File data) => Ok (default emptyState (unmarshalState data))
  | Some os.Directory => Err (EOS os.EISDIR)
  end.

(** The two paths [GetContext] probes for a name. *)
Definition json_path (m : Manager) (name : string) : string :=
  filepath.Join (config.GetContextsDir (paths m) (useProject m))
                (name +:+ ".json").

Definition jsonc_path (m : Manager) (name : string) : string :=
  filepath.Join (config.GetContextsDir (paths m) (useProject m))
                (name +:+ ".jsonc").

(** What [GetContext] makes of the file it resolved: [strip] is the comment
    removal, applied to a [.jsonc] file only. *)
Definition read_context `{JSON} (name path : string) (strip : bool)
    (n : os.node) : result Context :=
  match n with
  | os.Directory => Err (EOS os.EISDIR)
  | os.File data =>
      match unmarshalDoc (if strip then strip_comments data else data) with
      | Some d => Ok (mkContext name d path)
      | None => Err (InvalidContent name)
      end
  end.

(** The path [CreateContextWithFormat] writes a context to. *)
Definition context_path (m : Manager) (name : string)
    (format : ContextFormat) : string :=
  filepath.Join (config.GetContextsDir (paths m) (useProject m))
                (name +:+ FileExtension format).

(** The content [CreateContextWithFormat] gives a context: the indented
    JSON, after the comment header when the format is JSONC. *)
Definition formatted (name : string) (format : ContextFormat)
    (t : time.Time) (formattedJSON : string) : string :=
  if Z.eqb format FormatJSONC
  then header name format t +:+ formattedJSON
  else formattedJSON.

(** The names [validateContextName] is specified to reject. *)
Definition rejected_name (name : string) : bool :=
  String.eqb name EmptyString
  || String.eqb name "." || String.eqb name ".."
  || strings.Contains name "/" || strings.Contains name "\"
  || strings.HasPrefix name ".".

(** An operation that was refused for its name, before any filesystem call:
    an [InvalidName] error, the world as it was, no call made. *)
Definition refused {A} (o : Out A) (w : World) : Prop :=
  (exists e, res o = Err e /\ kind_of e = KInvalidName)
  /\ world o = w /\ calls o = [].

(** ** Worlds to run the engine on *)

Module Example.

Definition t0 : time.Time := time.mkTime 2026 10 31 4 20 0.

(** The global scope of a user whose home is [/home/u]. *)
Definition mgr : Manager := NewManager "/home/u" "/work" false.

Definition settings : string := "/home/u/.config/opencode/settings".
Definition active : string := "/home/u/.config/opencode/opencode.json".
Definition state_file : string := filepath.Join settings config.StateFileName.

Definition dark : gmap string string := {[ "theme" := "dark" ]}.
Definition light : gmap string string := {[ "theme" := "light" ]}.

Definition doc_file (d : gmap string string) : os.node :=
  os.File (default "{}" (Sample.of_doc d)).

Definition state_node (current previous : string) : os.node :=
  os.File (default "{}" (Sample.of_state (mkState current previous))).

Definition dirs : list (string * os.node) :=
  [("/home", os.Directory); ("/home/u", os.Directory);
   ("/home/u/.config", os.Directory);
   ("/home/u/.config/opencode", os.Directory);
   (settings, os.Directory)].

Definition world_of (items : list (string * os.node)) : World :=
  mkWorld (list_to_map (items ++ dirs)) t0.

(** Only the active configuration. *)
Definition fresh : World := world_of [(active, doc_file dark)].

(** Two contexts, [work] current and [home] previous. *)
Definition two : World :=
  world_of [(active, doc_file dark);
            (filepath.Join settings "work.json", doc_file dark);
            (filepath.Join settings "home.json", doc_file light);
            (state_file, state_node "work" "home")].

(** The previous context [home] was removed behind the engine's back. *)
Definition stale : World :=
  world_of [(active, doc_file dark);
            (filepath.Join settings "work.json", doc_file dark);
            (state_file, state_node "work" "home")].

(** The current context [home] was removed behind the engine's back. *)
Definition lost : World :=
  world_of [(active, doc_file light);
            (filepath.Join settings "work.json", doc_file dark);
            (state_file, state_node "home" "work")].

(** A state file that is not JSON. *)
Definition corrupt : World :=
  world_of [(state_file, os.File "invalid json")].

(** [work] saved in both formats. *)
Definition both : World :=
  world_of [(filepath.Join settings "work.json", doc_file dark);
            (filepath.Join settings "work.jsonc", doc_file light)].

(** Hidden files next to a context. *)
Definition hidden : World :=
  world_of [(filepath.Join settings "work.json", doc_file dark);
            (filepath.Join settings ".secret.json", doc_file dark);
            (filepath.Join settings ".json", doc_file dark);
            (state_file, state_node "work" EmptyString)].

(** A JSONC context as [CreateContextWithFormat] writes it. *)
Definition commented : World :=
  world_of [(filepath.Join settings "old.jsonc",
             os.File (header "old" FormatJSONC t0 +:+ "{}"))].

(** A name with a line feed in it. *)
Definition two_lines : string := "a" +:+ strings.LF +:+ "b".

End Example.

(** What the proofs need of the paths of a manager: the state file is the
    hidden file of the contexts directory, the active configuration and its
    temporary file are not in that directory, the directory of the active
    configuration is above it, and neither the active configuration nor its
    temporary file is the contexts directory or a directory above it. *)
Record separated (m : Manager) : Prop := mkSeparated
  { sep_dir_ne :
      config.GetContextsDir (paths m) (useProject m) ≠ EmptyString;
    sep_state :
      config.GetStateFilePath (paths m) (useProject m)
      = filepath.Join (config.GetContextsDir (paths m) (useProject m))
                      config.StateFileName;
    sep_active : forall n,
      filepath.Join (config.GetContextsDir (paths m) (useProject m)) n
      ≠ config.GetActiveConfigPath (paths m) (useProject m);
    sep_active_tmp : forall n,
      filepath.Join (config.GetContextsDir (paths m) (useProject m)) n
      ≠ config.GetActiveConfigPath (paths m) (useProject m) +:+ ".tmp";
    sep_active_dir :
      String.length
        (filepath.Dir (config.GetActiveConfigPath (paths m) (useProject m)))
      < String.length (config.GetContextsDir (paths m) (useProject m));
    sep_active_off : forall suffix,
      suffix = EmptyString \/ suffix = ".tmp" ->
      config.GetActiveConfigPath (paths m) (useProject m) +:+ suffix
      ∉ config.GetContextsDir (paths m) (useProject m)
        :: filepath.parents
             (config.GetContextsDir (paths m) (useProject m)) }.

(** The copy made by [SwitchToContext]: the content of a context file
    replaces the active configuration. *)
Definition install (activeConfigPath contextFilePath : string) : M unit :=
  let! r := MkdirAll (filepath.Dir activeConfigPath) in
  let! _ := check r in
  let! r := ReadFile contextFilePath in
  let! data := check r in
  atomic_write activeConfigPath data.

(** An operation leaves what is at path [k] as it was, whatever it returns. *)
Definition keeps {A} (k : string) (m : M A) : Prop :=
  forall w, files (world (m w)) !! k = files w !! k.

(** An operation leaves path [k] a regular file if it was one, and not one
    if it was not, whatever it returns. *)
Definition keeps_file {A} (k : string) (m : M A) : Prop :=
  forall w,
    os.is_file (files (world (m w)) !! k) = os.is_file (files w !! k).

(** Every error an operation can return satisfies [P]. *)
Definition fails_with {A} (P : error -> Prop) (m : M A) : Prop :=
  forall w e, res (m w) = Err e -> P e.

(** Errors that come from the filesystem or from the JSON encoder. *)
Definition low_level (e : error) : Prop :=
  e = EMarshal \/ exists x, e = EOS x.

(** A filesystem call that only reads. *)
Definition reads (c : os.call) : bool :=
  match c with
  | os.SysStat _ | os.SysReadFile _ | os.SysReadDir _ => true
  | _ => false
  end.

(** The errors of the copy and of the state store, as opposed to those the
    previous-switch raises itself. *)
Definition not_previous_error (e : error) : Prop :=
  kind_of e ≠ KStalePrevious /\ kind_of e ≠ KNoPreviousContext.

(** ** Package [context]: format names *)

(** [func (f ContextFormat) String() string] *)
Definition ContextFormat_String (f : ContextFormat) : string :=
  match f with
  | 0%Z => "json"
  | 1%Z => "jsonc"
  | _ => "unknown"
  end.

(** [GetSupportedFormats] *)
Definition GetSupportedFormats : string := "json, jsonc".

(** "invalid format '%s'. Supported formats: %s" *)
Inductive format_error :=
| InvalidFormat (s supported : string).

(** [ParseFormat]: the format and the error returned with it. *)
Definition ParseFormat (s : string) : ContextFormat * option format_error :=
  if String.eqb s "json" then (FormatJSON, None)
  else if String.eqb s "jsonc" then (FormatJSONC, None)
  else (FormatJSON, Some (InvalidFormat s GetSupportedFormats)).

(** ** Package [config]: the probe for project contexts *)

(** [filepath.Ext(path)]: the suffix from the last dot of the last path
    element, empty when that element has no dot. *)
Fixpoint filepath_Ext (path : string) : string :=
  match path with
  | EmptyString => EmptyString
  | String c rest =>
      if has_byte "/" rest then filepath_Ext rest
      else if has_byte "." rest then filepath_Ext rest
      else if Ascii.eqb c "." then path
      else EmptyString
  end.

(** The loop of [ProjectContextsExist] over the directory entries. *)
Fixpoint any_json_entry (entries : list os.DirEntry) : bool :=
  match entries with
  | [] => false
  | entry :: rest =>
      if negb (os.IsDir entry)
         && String.eqb (filepath_Ext (os.Name entry)) ".json"
         && negb (String.eqb (os.Name entry) config.StateFileName)
      then true
      else any_json_entry rest
  end.

(** [func (p *Paths) ProjectContextsExist() bool] *)
Definition ProjectContextsExist (p : config.Paths) : M bool :=
  let! st := Stat (config.ProjectSettingsDir p) in
  if IsNotExist st then ret false
  else
    let! r := ReadDir (config.ProjectSettingsDir p) in
    match r with
    | inl _ => ret false
    | inr entries => ret (any_json_entry entries)
    end.

(** ** Package [cmd]: the commands that go beyond a manager call *)

(** The errors the commands build themselves. *)
Inductive cmd_error :=
| StdinFailed                   (* "failed to read from stdin: %v" *)
| NoInputProvided               (* "no input provided" *)
| ImportInvalidJSON             (* "invalid JSON: %v" *)
| ImportExists (name : string)  (* "context '%s' already exists" *)
| TooManyArguments              (* "too many arguments" *)
| RenameArguments.              (* "rename requires exactly 2 arguments: ..." *)

(** What the [bufio.Scanner] loop of [importContext] gets from standard
    input: the lines, without their end-of-line markers, and whether
    [scanner.Err()] is an error. *)
Record Scanned := mkScanned
  { scan_lines : list string;
    scan_failed : bool }.

(** [input.WriteString(scanner.Text()); input.WriteString("\n")], for each
    line. *)
Fixpoint collect (lines : list string) : string :=
  match lines with
  | [] => EmptyString
  | line :: rest => line +:+ strings.LF +:+ collect rest
  end.

(** The flags of the root command, as [runRoot] reads them. *)
Record Flags := mkFlags
  { flag_interactive : bool;
    flag_current : bool;
    flag_unset : bool;
    flag_new : string;
    flag_format : string;
    flag_delete : string;
    flag_edit : string;
    flag_show : string;
    flag_export : string;
    flag_import : string;
    flag_rename : bool }.

(** The function [runRoot] hands over to. *)
Inductive action :=
| RunInteractiveSelection
| ShowCurrentContext
| UnsetCurrent
| CreateNewContext (name format : string)
| DeleteNamed (name : string)
| EditContext (name : string)
| ShowContext (name : string)
| ExportContext (name : string)
| ImportContext (name : string)
| RenameNamed (oldName newName : string)
| ListAll
| SwitchToPreviousContext
| SwitchToNamed (name : string)
| Refuse (e : cmd_error).

Definition nonempty (s : string) : bool := negb (String.eqb s EmptyString).

(** [runRoot]: which command the flags and arguments select. *)
Definition runRoot (flags : Flags) (args : list string) : action :=
  if flag_interactive flags then RunInteractiveSelection
  else if flag_current flags then ShowCurrentContext
  else if flag_unset flags then UnsetCurrent
  else if nonempty (flag_new flags)
  then CreateNewContext (flag_new flags) (flag_format flags)
  else if nonempty (flag_delete flags) then DeleteNamed (flag_delete flags)
  else if nonempty (flag_edit flags) then EditContext (flag_edit flags)
  else if nonempty (flag_show flags) then ShowContext (flag_show flags)
  else if nonempty (flag_export flags) then ExportContext (flag_export flags)
  else if nonempty (flag_import flags) then ImportContext (flag_import flags)
  else if flag_rename flags
  then match args with
       | [oldName; newName] => RenameNamed oldName newName
       | _ => Refuse RenameArguments
       end
  else match args with
       | [] => ListAll
       | [arg] => if String.eqb arg "-" then SwitchToPreviousContext
                  else SwitchToNamed arg
       | _ => Refuse TooManyArguments
       end.

Section Commands.

Context `{JSON}.

(** [showContext] and [exportContext]: the text printed. *)
Definition showContext (m : Manager) (name : string) : M string :=
  let! ctx := GetContext m name in
  let! r := ReadFile (FilePath ctx) in
  let! data := check r in
  ret data.

Definition exportContext (m : Manager) (name : string) : M string :=
  let! ctx := GetContext m name in
  let! r := ReadFile (FilePath ctx) in
  let! data := check r in
  ret data.

(** [importContext], from what was scanned on standard input.  An error
    the command builds itself is returned to the left; an error of a
    filesystem call or of the encoder stops the computation. *)
Definition importContext (m : Manager) (name : string) (stdin : Scanned)
  : M (cmd_error + unit) :=
  if scan_failed stdin then ret (inl StdinFailed)
  else
    let jsonData := collect (scan_lines stdin) in
    if String.eqb jsonData EmptyString then ret (inl NoInputProvided)
    else
      match unmarshalDoc jsonData with
      | None => ret (inl ImportInvalidJSON)
      | Some data =>
          let! _ := config.EnsureDirectories (paths m) (useProject m) in
          let contextsDir :=
            config.GetContextsDir (paths m) (useProject m) in
          let contextPath := filepath.Join contextsDir (name +:+ ".json") in
          let! st := Stat contextPath in
          if is_nil st then ret (inl (ImportExists name))
          else
            match marshalIndentDoc data with
            | None => fail EMarshal
            | Some formattedData =>
                let tempPath := contextPath +:+ ".tmp" in
                let! r := WriteFile tempPath formattedData in
                let! _ := check r in
                let! r := Rename tempPath contextPath in
                let! _ := check r in
                ret (inr tt)
            end
      end.

End Commands.

(** The first step of [UnsetCurrentContext]: remove the active
    configuration if it is there. *)
Definition clear_active (activeConfigPath : string) : M unit :=
  let! st := Stat activeConfigPath in
  if is_nil st
  then let! r := Remove activeConfigPath in check r
  else ret tt.

(** ** More worlds to run the engine on *)

Module Cases.

(** A directory where the state file should be. *)
Definition state_dir : World :=
  Example.world_of [(Example.state_file, os.Directory)].

(** A regular file where the settings directory should be. *)
Definition no_settings : World :=
  mkWorld (list_to_map
             [("/home", os.Directory); ("/home/u", os.Directory);
              ("/home/u/.config", os.Directory);
              ("/home/u/.config/opencode", os.Directory);
              (Example.settings, os.File "not a directory")])
          Example.t0.

(** A directory where the file of the current context [work] should
    be. *)
Definition dir_context : World :=
  Example.world_of
    [(filepath.Join Example.settings "work.json", os.Directory);
     (Example.state_file, Example.state_node "work" EmptyString)].

(** A context [old] stored as JSON next to a context [new] stored as
    JSONC. *)
Definition mixed : World :=
  Example.world_of
    [(filepath.Join Example.settings "old.json", Example.doc_file Example.dark);
     (filepath.Join Example.settings "new.jsonc",
      Example.doc_file Example.light)].

(** Nothing at all. *)
Definition empty : World := mkWorld ∅ Example.t0.

(** An empty object on one line of standard input. *)
Definition one_line : Scanned := mkScanned ["{}"] false.

End Cases.

(** * Facts about the model *)

(** ** Strings *)

Section string_facts.

Implicit Types s t p : string.

Lemma app_cons c s t : String c s +:+ t = String c (s +:+ t).
Proof. reflexivity. Qed.

Lemma app_nil_l s : EmptyString +:+ s = s.
Proof. reflexivity. Qed.

Lemma app_nil_r s : s +:+ EmptyString = s.
Proof. induction s as [|c s IH]; [done|]. by rewrite app_cons, IH. Qed.

Lemma app_assoc s t p : (s +:+ t) +:+ p = s +:+ (t +:+ p).
Proof. induction s as [|c s IH]; [done|]. by rewrite !app_cons, IH. Qed.

Lemma length_app s t :
  String.length (s +:+ t) = String.length s + String.length t.
Proof. induction s as [|c s IH]; [done|]. rewrite app_cons. simpl. lia. Qed.

Lemma app_ne_self p c s : p +:+ String c s ≠ p.
Proof.
  intros Heq. apply (f_equal String.length) in Heq.
  rewrite length_app in Heq. simpl in Heq. lia.
Qed.

Lemma eqb_false_ne s t : s ≠ t -> String.eqb s t = false.
Proof. by intros ?%String.eqb_neq. Qed.

Lemma HasSuffix_nil suf :
  strings.HasSuffix EmptyString suf = String.eqb EmptyString suf.
Proof. unfold strings.HasSuffix. apply orb_false_r. Qed.

Lemma HasSuffix_cons c s suf :
  strings.HasSuffix (String c s) suf
  = String.eqb (String c s) suf || strings.HasSuffix s suf.
Proof. reflexivity. Qed.

Lemma HasSuffix_app p suf : strings.HasSuffix (p +:+ suf) suf = true.
Proof.
  induction p as [|c p IH].
  - rewrite app_nil_l. destruct suf.
    + reflexivity.
    + rewrite HasSuffix_cons, String.eqb_refl. reflexivity.
  - rewrite app_cons, HasSuffix_cons, IH. apply orb_true_r.
Qed.

Lemma HasSuffix_inv s suf :
  strings.HasSuffix s suf = true -> exists p, s = p +:+ suf.
Proof.
  induction s as [|c s IH].
  - rewrite HasSuffix_nil. intros Hs%String.eqb_eq. subst suf.
    by exists EmptyString.
  - rewrite HasSuffix_cons. intros [Hs|Hs]%orb_true_iff.
    + apply String.eqb_eq in Hs as <-. by exists EmptyString.
    + destruct (IH Hs) as [p ->]. by exists (String c p).
Qed.

Lemma TrimSuffix_cons c s suf :
  strings.TrimSuffix (String c s) suf
  = if String.eqb (String c s) suf then EmptyString
    else String c (strings.TrimSuffix s suf).
Proof. reflexivity. Qed.

Lemma TrimSuffix_nil suf : strings.TrimSuffix EmptyString suf = EmptyString.
Proof. unfold strings.TrimSuffix. by destruct (String.eqb _ _). Qed.

Lemma TrimSuffix_app p suf : strings.TrimSuffix (p +:+ suf) suf = p.
Proof.
  induction p as [|c p IH].
  - rewrite app_nil_l. destruct suf; [apply TrimSuffix_nil|].
    by rewrite TrimSuffix_cons, String.eqb_refl.
  - rewrite app_cons, TrimSuffix_cons.
    rewrite eqb_false_ne; [by rewrite IH|].
    rewrite <- app_cons. intros Heq. apply (f_equal String.length) in Heq.
    rewrite length_app in Heq. simpl in Heq. lia.
Qed.

(** A path that ends in [.json] does not end in [.jsonc]. *)
Lemma last_char_ne p c1 c2 s1 s2 :
  c1 ≠ c2 -> p +:+ String c1 EmptyString ≠ s2 +:+ String c2 EmptyString.
Proof.
  intros Hc. revert s2. induction p as [|a p IH]; intros [|b s2];
    rewrite ?app_cons, ?app_nil_l; intros Heq; simplify_eq.
  - destruct s2; discriminate.
  - destruct p; discriminate.
  - by eapply IH.
Qed.

Lemma json_ne_jsonc p q : p +:+ ".json" ≠ q +:+ ".jsonc".
Proof.
  change (".json") with (".jso" +:+ "n").
  change (".jsonc") with (".json" +:+ "c").
  rewrite <- !app_assoc. by apply last_char_ne.
Qed.

Lemma HasSuffix_json_jsonc p :
  strings.HasSuffix (p +:+ ".json") ".jsonc" = false.
Proof.
  destruct (strings.HasSuffix _ _) eqn:Hs; [|done].
  apply HasSuffix_inv in Hs as [q Hq]. by apply json_ne_jsonc in Hq.
Qed.

Lemma prefix_nil s : String.prefix EmptyString s = true.
Proof. by destruct s. Qed.

(** [strings.Contains] for a one-byte substring is membership. *)
Lemma Contains_byte a s :
  strings.Contains s (String a EmptyString) = has_byte a s.
Proof.
  induction s as [|c s IH]; [done|].
  simpl. rewrite IH, prefix_nil. f_equal.
  destruct (ascii_dec a c) as [->|Hne].
  - by rewrite Ascii.eqb_refl.
  - symmetry. by apply Ascii.eqb_neq.
Qed.

Lemma has_byte_app a s t :
  has_byte a (s +:+ t) = has_byte a s || has_byte a t.
Proof.
  induction s as [|c s IH]; [done|].
  rewrite app_cons. simpl. by rewrite IH, orb_assoc.
Qed.

Lemma has_byte_TrimSuffix a s suf :
  has_byte a s = false -> has_byte a (strings.TrimSuffix s suf) = false.
Proof.
  induction s as [|c s IH]; intros Hs.
  - by rewrite TrimSuffix_nil.
  - rewrite TrimSuffix_cons. destruct (String.eqb _ _); [done|].
    simpl in *. apply orb_false_iff in Hs as [-> Hs]. by rewrite IH.
Qed.

End string_facts.

(** ** Paths *)

Section path_facts.

Implicit Types s t p d n : string.

Lemma cuts_cons pre c s :
  filepath.cuts pre (String c s)
  = (if Ascii.eqb c filepath.sep
     then match pre with EmptyString => [] | _ => [pre] end
     else [])
    ++ filepath.cuts (pre +:+ String c EmptyString) s.
Proof. simpl. destruct (Ascii.eqb c filepath.sep), pre; reflexivity. Qed.

Lemma cuts_app pre s t :
  filepath.cuts pre (s +:+ t)
  = filepath.cuts pre s ++ filepath.cuts (pre +:+ s) t.
Proof.
  revert pre. induction s as [|c s IH]; intros pre.
  - by rewrite app_nil_l, app_nil_r.
  - rewrite app_cons, !cuts_cons, IH, app_assoc, app_cons, app_nil_l.
    by rewrite <- List.app_assoc.
Qed.

Lemma cuts_no_sep pre n :
  has_byte filepath.sep n = false -> filepath.cuts pre n = [].
Proof.
  revert pre. induction n as [|c n IH]; intros pre Hn; [done|].
  cbn [has_byte] in Hn. apply orb_false_iff in Hn as [Hc Hn].
  rewrite cuts_cons, (IH _ Hn), Ascii.eqb_sym, Hc. reflexivity.
Qed.

Lemma cuts_length pre s x :
  x ∈ filepath.cuts pre s ->
  String.length x < String.length pre + String.length s.
Proof.
  revert pre. induction s as [|c s IH]; intros pre; [by intros ?%elem_of_nil|].
  rewrite cuts_cons. intros [Hx|Hx]%elem_of_app.
  - destruct (Ascii.eqb c filepath.sep), pre;
      try (by apply elem_of_nil in Hx).
    apply list_elem_of_singleton in Hx as ->. simpl. lia.
  - apply IH in Hx. rewrite length_app in Hx. simpl in *. lia.
Qed.

Lemma parents_length p x :
  x ∈ filepath.parents p -> String.length x < String.length p.
Proof.
  unfold filepath.parents. rewrite elem_of_reverse.
  intros Hx%cuts_length. simpl in Hx. lia.
Qed.

Lemma parents_Join d n :
  d ≠ EmptyString -> has_byte filepath.sep n = false ->
  filepath.parents (filepath.Join d n) = d :: filepath.parents d.
Proof.
  intros Hd Hn. unfold filepath.parents, filepath.Join.
  rewrite cuts_app, app_nil_l, app_cons, app_nil_l, cuts_cons.
  rewrite (cuts_no_sep _ n Hn).
  change (Ascii.eqb "/" filepath.sep) with true. cbv iota.
  destruct d as [|c d]; [done|].
  by rewrite List.app_nil_r, reverse_app.
Qed.

Lemma Dir_Join d n :
  d ≠ EmptyString -> has_byte filepath.sep n = false ->
  filepath.Dir (filepath.Join d n) = d.
Proof. intros Hd Hn. unfold filepath.Dir. by rewrite parents_Join. Qed.

Lemma Join_ne_nil d n : filepath.Join d n ≠ EmptyString.
Proof. unfold filepath.Join. by destruct d. Qed.

Lemma Join_length d n :
  String.length (filepath.Join d n)
  = String.length d + 1 + String.length n.
Proof. unfold filepath.Join. rewrite !length_app. simpl. lia. Qed.

Lemma Join_inj d n1 n2 : filepath.Join d n1 = filepath.Join d n2 -> n1 = n2.
Proof.
  unfold filepath.Join. intros Heq%String.app_inj.
  by apply (String.app_inj "/") in Heq.
Qed.

Lemma app_inv_head p a b : p +:+ a = p +:+ b -> a = b.
Proof.
  induction p as [|c p IH]; [done|]. rewrite !app_cons. intros [=]. auto.
Qed.

(** The members of [cuts pre s] are [pre] extended up to a separator
    of [s]. *)
Lemma cuts_prefix pre s x :
  x ∈ filepath.cuts pre s ->
  exists a r, s = a +:+ String filepath.sep r /\ x = pre +:+ a.
Proof.
  revert pre. induction s as [|c s IH]; intros pre; [by intros ?%elem_of_nil|].
  rewrite cuts_cons. intros [Hx|Hx]%elem_of_app.
  - destruct (Ascii.eqb_spec c filepath.sep) as [->|]; [|by inversion Hx].
    destruct pre; [by inversion Hx|]. apply list_elem_of_singleton in Hx as ->.
    exists EmptyString, s. by rewrite app_nil_l, app_nil_r.
  - apply IH in Hx as (a & r & -> & ->). exists (String c a), r.
    by rewrite app_cons, app_assoc.
Qed.

(** A parent of [p] is [p] cut at a separator. *)
Lemma parents_prefix p x :
  x ∈ filepath.parents p -> exists r, p = x +:+ String filepath.sep r.
Proof.
  unfold filepath.parents. rewrite elem_of_reverse.
  intros (a & r & -> & ->)%cuts_prefix. exists r. by rewrite app_nil_l.
Qed.

End path_facts.

(** ** The filesystem *)

Section fs_facts.

Implicit Types fs : gmap string os.node.
Implicit Types k p d : string.

Lemma mkdir_chain_frame ps fs fs' k :
  os.mkdir_chain ps fs = inr fs' -> k ∉ ps -> fs' !! k = fs !! k.
Proof.
  revert fs'. induction ps as [|p ps IH]; intros fs' Hm Hk; simpl in Hm.
  - by simplify_eq.
  - apply not_elem_of_cons in Hk as [Hkp Hk].
    destruct (fs !! p) as [[]|]; simplify_eq; [done|].
    destruct (os.mkdir_chain ps fs) as [|fs1] eqn:E; simplify_eq.
    rewrite lookup_insert_ne by done. by apply IH.
Qed.

(** [os.MkdirAll] only adds directories. *)
Lemma mkdir_chain_mono ps fs fs' k x :
  os.mkdir_chain ps fs = inr fs' -> fs !! k = Some x -> fs' !! k = Some x.
Proof.
  revert fs'. induction ps as [|p ps IH]; intros fs' Hm Hk; simpl in Hm.
  - by simplify_eq.
  - destruct (fs !! p) as [[]|] eqn:Ep; simplify_eq; [done|].
    destruct (os.mkdir_chain ps fs) as [|fs1] eqn:E; simplify_eq.
    rewrite lookup_insert_ne by congruence. by apply IH.
Qed.

Lemma mkdir_all_frame fs d fs' k :
  os.mkdir_all fs d = inr fs' ->
  String.length d < String.length k -> fs' !! k = fs !! k.
Proof.
  intros Hm Hlen. eapply mkdir_chain_frame; [done|].
  intros [->|Hk%parents_length]%elem_of_cons; lia.
Qed.

Lemma mkdir_all_mono fs d fs' k x :
  os.mkdir_all fs d = inr fs' -> fs !! k = Some x -> fs' !! k = Some x.
Proof. apply mkdir_chain_mono. Qed.

Lemma mkdir_chain_dir p ps fs fs' :
  os.mkdir_chain (p :: ps) fs = inr fs' -> fs' !! p = Some os.Directory.
Proof.
  simpl. destruct (fs !! p) as [[]|] eqn:Ep; intros; simplify_eq; [done|].
  destruct (os.mkdir_chain ps fs); simplify_eq. apply lookup_insert_eq.
Qed.

Lemma mkdir_all_dir fs d fs' :
  os.mkdir_all fs d = inr fs' -> fs' !! d = Some os.Directory.
Proof. apply mkdir_chain_dir. Qed.

(** [MkdirAll] makes directories only: what is a regular file, and what
    is not, stays so. *)
Lemma mkdir_chain_is_file ps fs fs' k :
  os.mkdir_chain ps fs = inr fs' ->
  os.is_file (fs' !! k) = os.is_file (fs !! k).
Proof.
  revert fs'. induction ps as [|p ps IH]; intros fs' Hm; simpl in Hm.
  - by simplify_eq.
  - destruct (fs !! p) as [[]|] eqn:Ep; simplify_eq; [done|].
    destruct (os.mkdir_chain ps fs) as [|fs1] eqn:E; simplify_eq.
    destruct (decide (p = k)) as [->|Hne].
    + by rewrite lookup_insert_eq, Ep.
    + rewrite lookup_insert_ne by done. by apply IH.
Qed.

(** Whether the way to [p] is blocked depends on the paths above [p]
    only. *)
Lemma blocked_ext fs fs' p :
  (forall a, a ∈ filepath.parents p ->
             os.is_file (fs' !! a) = os.is_file (fs !! a)) ->
  os.blocked fs' p = os.blocked fs p.
Proof.
  unfold os.blocked. induction (filepath.parents p) as [|a l IH]; [done|].
  intros Hl. cbn. rewrite Hl by (by left). f_equal. apply IH.
  intros b Hb. apply Hl. by right.
Qed.

End fs_facts.


(** ** Running the monad *)

(** The library functions are kept folded by [cbn] and [simpl]; the proofs
    unfold them where they reason about them. *)
#[global] Arguments os.stat : simpl never.
#[global] Arguments os.read_file : simpl never.
#[global] Arguments os.write_file : simpl never.
#[global] Arguments os.rename : simpl never.
#[global] Arguments os.remove : simpl never.
#[global] Arguments os.mkdir_all : simpl never.
#[global] Arguments os.read_dir : simpl never.
#[global] Arguments os.entries : simpl never.
#[global] Arguments filepath.Join : simpl never.
#[global] Arguments filepath.Dir : simpl never.
#[global] Arguments filepath.parents : simpl never.
#[global] Arguments strings.HasPrefix : simpl never.
#[global] Arguments strings.HasSuffix : simpl never.
#[global] Arguments strings.TrimSuffix : simpl never.
#[global] Arguments strings.Contains : simpl never.
#[global] Arguments strings.TrimSpace : simpl never.
#[global] Arguments strings.Split : simpl never.
#[global] Arguments strings.Join : simpl never.
#[global] Arguments time.Format : simpl never.
#[global] Arguments String.eqb : simpl never.
#[global] Arguments validateContextName : simpl never.
#[global] Arguments strip_comments : simpl never.
#[global] Arguments header : simpl never.
#[global] Arguments config.GetContextsDir : simpl never.
#[global] Arguments config.GetActiveConfigPath : simpl never.
#[global] Arguments config.GetStateFilePath : simpl never.
#[global] Arguments config.EnsureDirectories : simpl never.
#[global] Arguments atomic_write : simpl never.
#[global] Arguments LoadState : simpl never.
#[global] Arguments State_SaveState : simpl never.
#[global] Arguments GetContext : simpl never.
#[global] Arguments SwitchToContext : simpl never.
#[global] Arguments check_free : simpl never.

Section monad_facts.

Context {B : Type}.

Implicit Types o : Out B.

Lemma res_after c1 o : res (after c1 o) = res o.
Proof. by destruct o. Qed.

Lemma world_after c1 o : world (after c1 o) = world o.
Proof. by destruct o. Qed.

Lemma calls_after c1 o : calls (after c1 o) = c1 ++ calls o.
Proof. by destruct o. Qed.

End monad_facts.

Ltac out_simpl :=
  cbn; rewrite ?res_after, ?world_after, ?calls_after; cbn.

Section store_facts.

Context `{JSON}.

Implicit Types w : World.
Implicit Types k p : string.

Lemma atomic_write_inv p data w :
  let o := atomic_write p data w in
  calls o = [os.SysWriteFile (p +:+ ".tmp") data]
    \/ calls o = [os.SysWriteFile (p +:+ ".tmp") data;
                  os.SysRename (p +:+ ".tmp") p].
Proof.
  unfold atomic_write. cbn.
  destruct (os.write_file _ _ _); cbn; [auto|].
  destruct (os.rename _ _ _); cbn; auto.
Qed.

Lemma atomic_write_frame p data w k :
  k ≠ p -> k ≠ p +:+ ".tmp" ->
  files (world (atomic_write p data w)) !! k = files w !! k.
Proof.
  intros Hp Ht. unfold atomic_write. cbn.
  destruct (os.write_file _ _ _) as [e|fs1] eqn:Ew; cbn; [done|].
  assert (fs1 !! k = files w !! k) as Hfs1.
  { unfold os.write_file in Ew. repeat case_match; simplify_eq;
      by rewrite lookup_insert_ne. }
  destruct (os.rename _ _ _) as [e|fs2] eqn:Er; cbn; [done|].
  unfold os.rename in Er. repeat case_match; simplify_eq;
    by rewrite lookup_insert_ne, lookup_delete_ne.
Qed.

Lemma atomic_write_clock p data w :
  clock (world (atomic_write p data w)) = clock w.
Proof.
  unfold atomic_write. cbn.
  destruct (os.write_file _ _ _); cbn; [done|].
  destruct (os.rename _ _ _); cbn; done.
Qed.

(** After a successful write-then-rename the file is in place and the
    temporary file is gone. *)
Lemma atomic_write_ok p data w :
  res (atomic_write p data w) = Ok tt ->
  files (world (atomic_write p data w)) !! p = Some (os.File data)
  /\ files (world (atomic_write p data w)) !! (p +:+ ".tmp") = None
  /\ calls (atomic_write p data w)
     = [os.SysWriteFile (p +:+ ".tmp") data;
        os.SysRename (p +:+ ".tmp") p].
Proof.
  unfold atomic_write. cbn.
  destruct (os.write_file _ _ _) as [e|fs1] eqn:Ew; cbn; [done|].
  destruct (os.rename _ _ _) as [e|fs2] eqn:Er; cbn; [done|].
  intros _.
  assert (fs1 !! (p +:+ ".tmp") = Some (os.File data)) as Hfs1.
  { unfold os.write_file in Ew. repeat case_match; simplify_eq;
      by rewrite lookup_insert_eq. }
  unfold os.rename in Er. rewrite Hfs1 in Er.
  assert (p ≠ p +:+ ".tmp") as Hne by (symmetry; apply app_ne_self).
  repeat case_match; simplify_eq;
    by rewrite lookup_insert_eq, lookup_insert_ne, lookup_delete_eq.
Qed.

Lemma LoadState_world p w : world (LoadState p w) = w.
Proof.
  unfold LoadState. cbn.
  destruct (IsNotExist _); cbn; [done|].
  destruct (os.read_file _ _); cbn; [done|].
  destruct (unmarshalState _); done.
Qed.

Lemma LoadState_res p w :
  res (LoadState p w)
  = load_result (os.blocked (files w) p) (files w !! p).
Proof.
  unfold LoadState, load_result. cbn. unfold os.stat.
  destruct (files w !! p) as [[data|]|] eqn:E; cbn;
    unfold os.read_file; rewrite ?E; cbn; try done.
  - destruct (unmarshalState data); done.
  - unfold os.missing. destruct (os.blocked (files w) p) eqn:Eb; cbn; [|done].
    unfold os.read_file, os.missing. by rewrite E, Eb.
Qed.

(** [LoadState] reads the state file's path and looks at what is above
    it. *)
Lemma LoadState_ext p w1 w2 :
  files w1 !! p = files w2 !! p ->
  (forall a, a ∈ filepath.parents p ->
             os.is_file (files w1 !! a) = os.is_file (files w2 !! a)) ->
  res (LoadState p w1) = res (LoadState p w2).
Proof.
  intros Hp Ha. rewrite !LoadState_res, Hp. f_equal. by apply blocked_ext.
Qed.

Lemma SaveState_unfold s p :
  State_SaveState s p
  = (let! r := MkdirAll (filepath.Dir p) in
     let! _ := check r in
     match marshalIndentState s with
     | None => fail EMarshal
     | Some data => atomic_write p data
     end).
Proof. reflexivity. Qed.

Lemma SaveState_frame s p w k :
  k ≠ p -> k ≠ p +:+ ".tmp" ->
  String.length (filepath.Dir p) < String.length k ->
  files (world (State_SaveState s p w)) !! k = files w !! k.
Proof.
  intros Hp Ht Hlen. rewrite SaveState_unfold.
  cbn.
  destruct (os.mkdir_all _ _) as [e|fs1] eqn:Em; cbn; [done|].
  destruct (marshalIndentState s) as [data|]; cbn.
  - out_simpl. rewrite atomic_write_frame by done. cbn.
    by eapply mkdir_all_frame.
  - by eapply mkdir_all_frame.
Qed.

Lemma SaveState_clock s p w :
  clock (world (State_SaveState s p w)) = clock w.
Proof.
  rewrite SaveState_unfold.
  cbn.
  destruct (os.mkdir_all _ _) as [e|fs1] eqn:Em; cbn; [done|].
  destruct (marshalIndentState s) as [data|]; cbn; [|done].
  out_simpl. by rewrite atomic_write_clock.
Qed.

Lemma SaveState_ok s p w :
  res (State_SaveState s p w) = Ok tt ->
  exists data,
    marshalIndentState s = Some data
    /\ files (world (State_SaveState s p w)) !! p = Some (os.File data)
    /\ files (world (State_SaveState s p w)) !! (p +:+ ".tmp") = None
    /\ calls (State_SaveState s p w)
       = [os.SysMkdirAll (filepath.Dir p);
          os.SysWriteFile (p +:+ ".tmp") data;
          os.SysRename (p +:+ ".tmp") p].
Proof.
  rewrite SaveState_unfold.
  cbn.
  destruct (os.mkdir_all _ _) as [e|fs1] eqn:Em; cbn; [done|].
  destruct (marshalIndentState s) as [data|]; cbn; [|done].
  out_simpl.
  intros Hok. exists data. split; [done|].
  destruct (atomic_write_ok p data _ Hok) as (Hp & Ht & Hc).
  by rewrite Hp, Ht, Hc.
Qed.

End store_facts.

(** ** Reading a context *)

Section context_facts.

Context `{JSON}.

Implicit Types w : World.
Implicit Types m : Manager.
Implicit Types name : string.

Lemma GetContext_invalid m name e w :
  validateContextName name = Err e ->
  GetContext m name w = out (Err e) w [].
Proof. intros Hv. unfold GetContext. rewrite Hv. reflexivity. Qed.

Lemma Join_json_not_jsonc d name :
  strings.HasSuffix (filepath.Join d (name +:+ ".json")) ".jsonc" = false.
Proof.
  unfold filepath.Join. rewrite <- !app_assoc. apply HasSuffix_json_jsonc.
Qed.

Lemma Join_jsonc_is_jsonc d name :
  strings.HasSuffix (filepath.Join d (name +:+ ".jsonc")) ".jsonc" = true.
Proof.
  unfold filepath.Join. rewrite <- !app_assoc. apply HasSuffix_app.
Qed.

(** [name.json] exists: it is the file read, whatever [name.jsonc] is. *)
Lemma GetContext_json m name n w :
  validateContextName name = Ok tt ->
  files w !! json_path m name = Some n ->
  GetContext m name w
  = out (read_context name (json_path m name) false n) w
        [os.SysStat (json_path m name); os.SysReadFile (json_path m name)].
Proof.
  intros Hv Hn. unfold GetContext, json_path in *. rewrite Hv. cbn.
  unfold os.stat. rewrite Hn. cbn. unfold os.read_file. rewrite Hn.
  rewrite Join_json_not_jsonc.
  destruct n as [data|]; cbn; [|done].
  destruct (unmarshalDoc data); reflexivity.
Qed.

(** Only [name.jsonc] exists: it is read, and its comment lines dropped. *)
Lemma GetContext_jsonc m name n w :
  validateContextName name = Ok tt ->
  files w !! json_path m name = None ->
  files w !! jsonc_path m name = Some n ->
  GetContext m name w
  = out (read_context name (jsonc_path m name) true n) w
        [os.SysStat (json_path m name); os.SysStat (jsonc_path m name);
         os.SysReadFile (jsonc_path m name)].
Proof.
  intros Hv Hj Hn. unfold GetContext, json_path, jsonc_path in *.
  rewrite Hv.
  do 3 (cbn; unfold os.stat, os.read_file; rewrite ?Hj, ?Hn).
  rewrite Join_jsonc_is_jsonc.
  destruct n as [data|]; cbn; [|done].
  destruct (unmarshalDoc _); reflexivity.
Qed.

Lemma GetContext_absent m name w :
  validateContextName name = Ok tt ->
  files w !! json_path m name = None ->
  files w !! jsonc_path m name = None ->
  GetContext m name w
  = out (Err (NotFound name)) w
        [os.SysStat (json_path m name); os.SysStat (jsonc_path m name)].
Proof.
  intros Hv Hj Hn. unfold GetContext, json_path, jsonc_path in *.
  rewrite Hv.
  do 2 (cbn; unfold os.stat, os.read_file; rewrite ?Hj, ?Hn).
  reflexivity.
Qed.

Lemma validate_cases name :
  validateContextName name = Ok tt
  \/ exists why, validateContextName name = Err (InvalidName why).
Proof.
  unfold validateContextName. repeat case_match; eauto.
Qed.

(** [GetContext] writes nothing. *)
Lemma GetContext_world m name w : world (GetContext m name w) = w.
Proof.
  destruct (validate_cases name) as [Hv|[why Hv]].
  - destruct (files w !! json_path m name) as [n|] eqn:Hj.
    { by rewrite (GetContext_json _ _ _ _ Hv Hj). }
    destruct (files w !! jsonc_path m name) as [n|] eqn:Hc.
    { by rewrite (GetContext_jsonc _ _ _ _ Hv Hj Hc). }
    by rewrite (GetContext_absent _ _ _ Hv Hj Hc).
  - by rewrite (GetContext_invalid _ _ _ _ Hv).
Qed.

(** Its result depends on the two probed paths only. *)
Lemma GetContext_ext m name w1 w2 :
  files w1 !! json_path m name = files w2 !! json_path m name ->
  files w1 !! jsonc_path m name = files w2 !! jsonc_path m name ->
  res (GetContext m name w1) = res (GetContext m name w2).
Proof.
  intros Hj Hc.
  destruct (validate_cases name) as [Hv|[why Hv]].
  - destruct (files w2 !! json_path m name) as [n|] eqn:Hj2.
    { by rewrite (GetContext_json _ _ _ _ Hv Hj),
                 (GetContext_json _ _ _ _ Hv Hj2). }
    destruct (files w2 !! jsonc_path m name) as [n|] eqn:Hc2.
    { by rewrite (GetContext_jsonc _ _ _ _ Hv Hj Hc),
                 (GetContext_jsonc _ _ _ _ Hv Hj2 Hc2). }
    by rewrite (GetContext_absent _ _ _ Hv Hj Hc),
               (GetContext_absent _ _ _ Hv Hj2 Hc2).
  - by rewrite !(GetContext_invalid _ _ _ _ Hv).
Qed.

(** A context that was read names a file under one of the two paths. *)
Lemma GetContext_ok m name w ctx :
  res (GetContext m name w) = Ok ctx ->
  validateContextName name = Ok tt
  /\ Name ctx = name
  /\ (FilePath ctx = json_path m name \/ FilePath ctx = jsonc_path m name)
  /\ exists data, files w !! FilePath ctx = Some (os.File data).
Proof.
  destruct (validate_cases name) as [Hv|[why Hv]].
  - destruct (files w !! json_path m name) as [n|] eqn:Hj.
    { rewrite (GetContext_json _ _ _ _ Hv Hj). cbn.
      destruct n as [data|]; cbn; [|done].
      destruct (unmarshalDoc data); intros; simplify_eq. cbn. eauto 10. }
    destruct (files w !! jsonc_path m name) as [n|] eqn:Hc.
    { rewrite (GetContext_jsonc _ _ _ _ Hv Hj Hc). cbn.
      destruct n as [data|]; cbn; [|done].
      destruct (unmarshalDoc _); intros; simplify_eq. cbn. eauto 10. }
    by rewrite (GetContext_absent _ _ _ Hv Hj Hc).
  - by rewrite (GetContext_invalid _ _ _ _ Hv).
Qed.

End context_facts.

(** ** Creating a context *)

Section create_facts.

Context `{JSON}.

Implicit Types w : World.
Implicit Types m : Manager.
Implicit Types name : string.

Lemma mkdir_chain_file ps fs fs' k data :
  os.mkdir_chain ps fs = inr fs' ->
  fs' !! k = Some (os.File data) -> fs !! k = Some (os.File data).
Proof.
  revert fs'. induction ps as [|p ps IH]; intros fs' Hm Hk; simpl in Hm.
  - by simplify_eq.
  - destruct (fs !! p) as [[]|] eqn:Ep; simplify_eq; [done|].
    destruct (os.mkdir_chain ps fs) as [|fs1] eqn:E; simplify_eq.
    destruct (decide (p = k)) as [->|Hne].
    + by rewrite lookup_insert_eq in Hk.
    + rewrite lookup_insert_ne in Hk by done. by eapply IH.
Qed.

Lemma mkdir_each_clock dirs w :
  clock (world (config.mkdir_each dirs w)) = clock w.
Proof.
  revert w. induction dirs as [|d dirs IH]; intros w; [done|].
  cbn. destruct (os.mkdir_all _ _); cbn; [done|].
  out_simpl. by rewrite IH.
Qed.

Lemma mkdir_each_file dirs w k data :
  files (world (config.mkdir_each dirs w)) !! k = Some (os.File data) ->
  files w !! k = Some (os.File data).
Proof.
  revert w. induction dirs as [|d dirs IH]; intros w; [done|].
  cbn. destruct (os.mkdir_all _ _) eqn:Em; cbn; [done|].
  out_simpl. intros Hk%IH. by eapply mkdir_chain_file.
Qed.

Lemma mkdir_each_frame dirs w k :
  Forall (fun d => String.length d < String.length k) dirs ->
  files (world (config.mkdir_each dirs w)) !! k = files w !! k.
Proof.
  revert w. induction dirs as [|d dirs IH]; intros w Hd; [done|].
  apply Forall_cons in Hd as [Hd Hds].
  cbn. destruct (os.mkdir_all _ _) eqn:Em; cbn; [done|].
  out_simpl. rewrite IH by done. by eapply mkdir_all_frame.
Qed.

Lemma check_free_world d name fs w : world (check_free d name fs w) = w.
Proof.
  induction fs as [|f fs IH]; [done|].
  unfold check_free; fold check_free. cbn.
  destruct (os.stat _ _); cbn; [|done]. out_simpl. apply IH.
Qed.

Lemma check_free_ok d name fs w f :
  res (check_free d name fs w) = Ok tt -> f ∈ fs ->
  files w !! filepath.Join d (name +:+ FileExtension f) = None.
Proof.
  induction fs as [|f' fs IH]; intros Hok Hf; [by apply elem_of_nil in Hf|].
  unfold check_free in Hok; fold check_free in Hok. cbn in Hok.
  unfold os.stat in Hok at 1.
  destruct (files w !! filepath.Join d (name +:+ FileExtension f')) eqn:E;
    cbn in Hok; [done|].
  rewrite res_after in Hok.
  apply elem_of_cons in Hf as [->|Hf]; [done|]. by apply IH.
Qed.

Lemma mkdir_each_mono dirs w k x :
  files w !! k = Some x ->
  files (world (config.mkdir_each dirs w)) !! k = Some x.
Proof.
  revert w. induction dirs as [|d dirs IH]; intros w Hk; [done|].
  cbn. destruct (os.mkdir_all _ _) eqn:Em; cbn; [done|].
  out_simpl. apply IH. cbn. by eapply mkdir_all_mono.
Qed.

Lemma Create_unfold m name format :
  CreateContextWithFormat m name format
  = (let! _ := lift (validateContextName name) in
     let! _ := config.EnsureDirectories (paths m) (useProject m) in
     let contextsDir := config.GetContextsDir (paths m) (useProject m) in
     let! _ := check_free contextsDir name GetAllFormats in
     let activeConfigPath :=
       config.GetActiveConfigPath (paths m) (useProject m) in
     let! st := Stat activeConfigPath in
     if IsNotExist st then fail (SourceMissing activeConfigPath)
     else
       let! r := ReadFile activeConfigPath in
       let! data := check r in
       match unmarshalDoc data with
       | None => fail SourceInvalidJSON
       | Some jsonData =>
           let! formattedData :=
             (match format with
              | 1%Z =>
                  match marshalIndentDoc jsonData with
                  | None => fail EMarshal
                  | Some formattedJSON =>
                      let! now := Now in
                      ret (header name format now +:+ formattedJSON)
                  end
              | 0%Z =>
                  match marshalIndentDoc jsonData with
                  | None => fail EMarshal
                  | Some formattedJSON => ret formattedJSON
                  end
              | _ => fail (UnsupportedFormat format)
              end) in
           atomic_write (context_path m name format) formattedData
       end).
Proof. reflexivity. Qed.

Lemma context_path_json m name :
  context_path m name FormatJSON = json_path m name.
Proof. reflexivity. Qed.

Lemma context_path_jsonc m name :
  context_path m name FormatJSONC = jsonc_path m name.
Proof. reflexivity. Qed.

(** A successful create: the active configuration parsed, and the context
    file was committed with the formatted content. *)
Lemma Create_ok m name format w :
  res (CreateContextWithFormat m name format w) = Ok tt ->
  let o := CreateContextWithFormat m name format w in
  let contextPath := context_path m name format in
  exists src jsonData formattedJSON pre,
    validateContextName name = Ok tt
    /\ (format = FormatJSON \/ format = FormatJSONC)
    /\ files w !! json_path m name = None
    /\ files w !! jsonc_path m name = None
    /\ files w !! config.GetActiveConfigPath (paths m) (useProject m)
       = Some (os.File src)
    /\ unmarshalDoc src = Some jsonData
    /\ marshalIndentDoc jsonData = Some formattedJSON
    /\ let data := formatted name format (clock w) formattedJSON in
       calls o = pre ++ [os.SysWriteFile (contextPath +:+ ".tmp") data;
                         os.SysRename (contextPath +:+ ".tmp") contextPath]
       /\ files (world o) !! (contextPath +:+ ".tmp") = None
       /\ files (world o) !! contextPath = Some (os.File data).
Proof.
  intros Hok o contextPath. subst o contextPath. revert Hok.
  rewrite Create_unfold.
  destruct (validate_cases name) as [Hv|[why Hv]]; rewrite Hv; [|done].
  cbn. unfold config.EnsureDirectories.
  pose proof (mkdir_each_clock
    (if useProject m
     then [config.ProjectConfigDir_ (paths m);
           config.ProjectSettingsDir (paths m)]
     else [config.GlobalConfigDir (paths m);
           config.GlobalSettingsDir (paths m)]) w) as Hclock.
  pose proof (mkdir_each_file
    (if useProject m
     then [config.ProjectConfigDir_ (paths m);
           config.ProjectSettingsDir (paths m)]
     else [config.GlobalConfigDir (paths m);
           config.GlobalSettingsDir (paths m)]) w) as Hfile.
  pose proof (fun k x => mkdir_each_mono
    (if useProject m
     then [config.ProjectConfigDir_ (paths m);
           config.ProjectSettingsDir (paths m)]
     else [config.GlobalConfigDir (paths m);
           config.GlobalSettingsDir (paths m)]) w k x) as Hmono.
  destruct (config.mkdir_each _ w) as [[[]|e] w1 c1]; [|done].
  cbn in Hclock, Hfile, Hmono. cbn.
  pose proof (check_free_world
    (config.GetContextsDir (paths m) (useProject m)) name GetAllFormats w1)
    as Hfw.
  pose proof (check_free_ok
    (config.GetContextsDir (paths m) (useProject m)) name GetAllFormats w1)
    as Hfree.
  destruct (check_free _ _ _ w1) as [[[]|e] w2 c2]; [|done].
  cbn in Hfw, Hfree. subst w2. cbn.
  assert (forall f, f ∈ GetAllFormats ->
            files w !! context_path m name f = None) as Hfree0.
  { intros f Hf. specialize (Hfree f eq_refl Hf).
    destruct (files w !! context_path m name f) as [x|] eqn:E; [|done].
    apply Hmono in E. unfold context_path in E. congruence. }
  unfold os.stat.
  destruct (files w1 !! config.GetActiveConfigPath _ _) as [n|] eqn:Ea;
    cbn.
  2:{ unfold os.missing. destruct (os.blocked _ _); cbn; [|done].
      unfold os.read_file. rewrite Ea. done. }
  unfold os.read_file. rewrite Ea.
  destruct n as [src|]; cbn; [|done].
  destruct (unmarshalDoc src) as [jsonData|] eqn:Eu; cbn; [|done].
  destruct format as [|[p|p|]|p]; cbn; try done;
    (destruct (marshalIndentDoc jsonData) as [formattedJSON|] eqn:Em;
     cbn; [|done]);
    out_simpl; intros Hok;
    destruct (atomic_write_ok _ _ _ Hok) as (Hp & Ht & Hc);
    rewrite Hp, Ht, Hc;
    exists src, jsonData, formattedJSON,
      (c1 ++ c2 ++
       [os.SysStat (config.GetActiveConfigPath (paths m) (useProject m));
        os.SysReadFile (config.GetActiveConfigPath (paths m) (useProject m))]);
    (split; [done|]); (split; [auto|]);
    (split; [apply (Hfree0 FormatJSON); set_solver|]);
    (split; [apply (Hfree0 FormatJSONC); set_solver|]);
    (split; [by apply Hfile|]); (split; [done|]); (split; [done|]);
    unfold formatted; cbn; rewrite <- ?Hclock; split_and!; try done;
    by rewrite <- !(assoc_L (++)).
Qed.

End create_facts.

(** * The state store *)

Section state_store_claims.

Context `{JSON}.

(** C4. Loading the state recovers from a missing or unparsable file.
    When nothing is at the state file's path and no path above it holds a
    regular file, the stat reports that the file does not exist and
    [LoadState] returns the zero state.  When a file is there whose
    content [json.Unmarshal] rejects, it returns the zero state as well;
    whatever a state file contains, [LoadState] returns a state, never an
    error.  When nothing is at the path because a path above it holds a
    regular file, the stat error is not one [os.IsNotExist] accepts:
    [LoadState] goes on to read the path and returns the error of the
    read.  It writes nothing. *)
Theorem LoadState_total_recovery (stateFilePath : string) (w : World) :
  (files w !! stateFilePath = None ->
   os.blocked (files w) stateFilePath = false ->
   LoadState stateFilePath w
   = out (Ok emptyState) w [os.SysStat stateFilePath])
  /\ (forall data,
        files w !! stateFilePath = Some (os.File data) ->
        unmarshalState data = None ->
        LoadState stateFilePath w
        = out (Ok emptyState) w
              [os.SysStat stateFilePath; os.SysReadFile stateFilePath])
  /\ (forall data,
        files w !! stateFilePath = Some (os.File data) ->
        exists s, res (LoadState stateFilePath w) = Ok s)
  /\ (files w !! stateFilePath = None ->
      os.blocked (files w) stateFilePath = true ->
      LoadState stateFilePath w
      = out (Err (EOS os.ENOTDIR)) w
            [os.SysStat stateFilePath; os.SysReadFile stateFilePath])
  /\ world (LoadState stateFilePath w) = w.
Proof.
  split_and!.
  - intros Hp Hb. unfold LoadState. cbn. unfold os.stat, os.missing.
    by rewrite Hp, Hb.
  - intros data Hp Hu. unfold LoadState.
    do 2 (cbn; unfold os.stat, os.read_file; rewrite ?Hp).
    cbn. by rewrite Hu.
  - intros data Hp. rewrite LoadState_res, Hp. cbn. eauto.
  - intros Hp Hb. unfold LoadState. cbn. unfold os.stat, os.missing.
    rewrite Hp, Hb. cbn. unfold os.read_file, os.missing.
    by rewrite Hp, Hb.
  - apply LoadState_world.
Qed.

(** C3. Atomic replace.  A successful [SaveState] made exactly three
    calls: [MkdirAll] on the parent, [WriteFile] of the serialized state to
    [path.tmp], [Rename] of [path.tmp] over [path]; afterwards nothing is
    at [path.tmp] and [path] holds exactly the serialized state.  A
    successful [CreateContextWithFormat] ended with the same two calls on
    the context's path, with the formatted active configuration as
    content, and leaves the same postcondition. *)
Theorem atomic_replace_postcondition :
  (forall (s : State) (stateFilePath : string) (w : World),
     let o := State_SaveState s stateFilePath w in
     res o = Ok tt ->
     exists data,
       marshalIndentState s = Some data
       /\ calls o = [os.SysMkdirAll (filepath.Dir stateFilePath);
                     os.SysWriteFile (stateFilePath +:+ ".tmp") data;
                     os.SysRename (stateFilePath +:+ ".tmp") stateFilePath]
       /\ files (world o) !! (stateFilePath +:+ ".tmp") = None
       /\ files (world o) !! stateFilePath = Some (os.File data))
  /\ (forall (m : Manager) (name : string) (format : ContextFormat)
             (w : World),
        let o := CreateContextWithFormat m name format w in
        let contextPath := context_path m name format in
        res o = Ok tt ->
        exists src jsonData formattedJSON pre,
          files w !! config.GetActiveConfigPath (paths m) (useProject m)
          = Some (os.File src)
          /\ unmarshalDoc src = Some jsonData
          /\ marshalIndentDoc jsonData = Some formattedJSON
          /\ let data := formatted name format (clock w) formattedJSON in
             calls o
             = pre ++ [os.SysWriteFile (contextPath +:+ ".tmp") data;
                       os.SysRename (contextPath +:+ ".tmp") contextPath]
             /\ files (world o) !! (contextPath +:+ ".tmp") = None
             /\ files (world o) !! contextPath = Some (os.File data)).
Proof.
  split.
  - intros s p w o Hok. subst o.
    destruct (SaveState_ok s p w Hok) as (data & Hm & Hp & Ht & Hc).
    exists data. by rewrite Hc, Hp, Ht.
  - intros m name format w o contextPath Hok. subst o contextPath.
    destruct (Create_ok m name format w Hok)
      as (src & jsonData & formattedJSON & pre & _ & _ & _ & _
          & Ha & Hu & Hm & Hc & Ht & Hp).
    exists src, jsonData, formattedJSON, pre. by rewrite Hc, Ht, Hp.
Qed.

End state_store_claims.

Lemma LoadState_total_recovery_witness :
  LoadState (H:=Sample.json) Example.state_file Example.fresh
  = out (Ok emptyState) Example.fresh [os.SysStat Example.state_file]
  /\ LoadState (H:=Sample.json) Example.state_file Example.corrupt
     = out (Ok emptyState) Example.corrupt
           [os.SysStat Example.state_file;
            os.SysReadFile Example.state_file]
  /\ LoadState (H:=Sample.json) Example.state_file Cases.no_settings
     = out (Err (EOS os.ENOTDIR)) Cases.no_settings
           [os.SysStat Example.state_file;
            os.SysReadFile Example.state_file].
Proof.
  split; [|split].
  - apply (LoadState_total_recovery (H:=Sample.json)); reflexivity.
  - apply (LoadState_total_recovery (H:=Sample.json)) with "invalid json";
      reflexivity.
  - apply (LoadState_total_recovery (H:=Sample.json)); reflexivity.
Defined.

(** C4 as stated fails when the state file is absent because the settings
    directory is not a directory.  In [Cases.no_settings] a regular file
    is at the path of the settings directory: nothing is at the state
    file's path, yet [LoadState] returns an error, not the zero state. *)
Lemma LoadState_absent_below_file :
  files Cases.no_settings !! Example.state_file = None
  /\ LoadState (H:=Sample.json) Example.state_file Cases.no_settings
     = out (Err (EOS os.ENOTDIR)) Cases.no_settings
           [os.SysStat Example.state_file;
            os.SysReadFile Example.state_file]
  /\ res (LoadState (H:=Sample.json) Example.state_file Cases.no_settings)
     ≠ Ok emptyState.
Proof. split_and!; [reflexivity|reflexivity|discriminate]. Qed.

Lemma atomic_replace_postcondition_witness :
  (exists data,
     files (world (State_SaveState (H:=Sample.json) (mkState "work" "home")
                     Example.state_file Example.fresh))
       !! Example.state_file = Some (os.File data)
     /\ files (world (State_SaveState (H:=Sample.json)
                        (mkState "work" "home")
                        Example.state_file Example.fresh))
          !! (Example.state_file +:+ ".tmp") = None)
  /\ (let o := CreateContextWithFormat (H:=Sample.json) Example.mgr "work"
                 FormatJSON Example.fresh in
      let contextPath := json_path Example.mgr "work" in
      res o = Ok tt
      /\ files (world o) !! contextPath
         = Some (os.File (default EmptyString (Sample.of_doc Example.dark)))
      /\ files (world o) !! (contextPath +:+ ".tmp") = None
      /\ exists pre data,
           calls o
           = pre ++ [os.SysWriteFile (contextPath +:+ ".tmp") data;
                     os.SysRename (contextPath +:+ ".tmp") contextPath]
           /\ files (world o) !! contextPath = Some (os.File data))
  /\ (let o := CreateContextWithFormat (H:=Sample.json) Example.mgr "work"
                 FormatJSONC Example.fresh in
      let contextPath := jsonc_path Example.mgr "work" in
      res o = Ok tt
      /\ files (world o) !! contextPath
         = Some (os.File
                   (header "work" FormatJSONC Example.t0
                    +:+ default EmptyString (Sample.of_doc Example.dark)))
      /\ files (world o) !! (contextPath +:+ ".tmp") = None
      /\ exists pre data,
           calls o
           = pre ++ [os.SysWriteFile (contextPath +:+ ".tmp") data;
                     os.SysRename (contextPath +:+ ".tmp") contextPath]
           /\ files (world o) !! contextPath = Some (os.File data)).
Proof.
  split; [|split].
  - destruct (proj1 (atomic_replace_postcondition (H:=Sample.json))
                (mkState "work" "home") Example.state_file Example.fresh)
      as (data & _ & _ & Ht & Hp).
    + reflexivity.
    + exists data. split; assumption.
  - cbv zeta.
    destruct (proj2 (atomic_replace_postcondition (H:=Sample.json))
                Example.mgr "work" FormatJSON Example.fresh)
      as (src & jsonData & formattedJSON & pre & _ & _ & _ & Hc & Ht & Hp).
    + reflexivity.
    + split; [reflexivity|]. split; [reflexivity|]. split; [exact Ht|].
      eexists pre, _. split; [exact Hc|exact Hp].
  - cbv zeta.
    destruct (proj2 (atomic_replace_postcondition (H:=Sample.json))
                Example.mgr "work" FormatJSONC Example.fresh)
      as (src & jsonData & formattedJSON & pre & _ & _ & _ & Hc & Ht & Hp).
    + reflexivity.
    + split; [reflexivity|]. split; [reflexivity|]. split; [exact Ht|].
      eexists pre, _. split; [exact Hc|exact Hp].
Defined.

(** * The context repository *)

Section repository_claims.

Context `{JSON}.

(** C8. Resolution order of [GetContext], for a name that passes
    validation.  [name.json] is probed first: when something is there it
    is what is read, as plain JSON, whatever is at [name.jsonc], which is
    not even probed.  [name.jsonc] is probed second, only when nothing is
    at [name.json], and read with its comment lines removed.  When nothing
    is at either path the result is [NotFound] after the two probes. *)
Theorem GetContext_resolution_order (m : Manager) (name : string)
    (w : World) :
  validateContextName name = Ok tt ->
  (forall n,
     files w !! json_path m name = Some n ->
     GetContext m name w
     = out (read_context name (json_path m name) false n) w
           [os.SysStat (json_path m name);
            os.SysReadFile (json_path m name)])
  /\ (forall n,
        files w !! json_path m name = None ->
        files w !! jsonc_path m name = Some n ->
        GetContext m name w
        = out (read_context name (jsonc_path m name) true n) w
              [os.SysStat (json_path m name);
               os.SysStat (jsonc_path m name);
               os.SysReadFile (jsonc_path m name)])
  /\ (files w !! json_path m name = None ->
      files w !! jsonc_path m name = None ->
      GetContext m name w
      = out (Err (NotFound name)) w
            [os.SysStat (json_path m name);
             os.SysStat (jsonc_path m name)]).
Proof.
  intros Hv. split_and!.
  - intros n. by apply GetContext_json.
  - intros n. by apply GetContext_jsonc.
  - by apply GetContext_absent.
Qed.

Lemma rejected_name_invalid name :
  rejected_name name = true ->
  exists why, validateContextName name = Err (InvalidName why).
Proof.
  unfold rejected_name, validateContextName.
  destruct (String.eqb name EmptyString), (strings.Contains name "/"),
    (strings.Contains name "\"), (String.eqb name "."),
    (String.eqb name ".."), (strings.HasPrefix name ".");
    cbn; intros; by eauto.
Qed.

Lemma accepted_name_valid name :
  rejected_name name = false -> validateContextName name = Ok tt.
Proof.
  unfold rejected_name, validateContextName.
  destruct (String.eqb name EmptyString), (strings.Contains name "/"),
    (strings.Contains name "\"), (String.eqb name "."),
    (String.eqb name ".."), (strings.HasPrefix name ".");
    cbn; intros; done.
Qed.

(** C9. Name validation comes first.  For a name that is empty, is [.] or
    [..], contains [/] or [\], or starts with [.], each of [GetContext],
    [CreateContextWithFormat] and [DeleteContext] on it, and
    [RenameContext] with it as the old or as the new name, returns an
    error of kind [InvalidName] without having made a single filesystem
    call, and leaves the world as it was. *)
Theorem name_validation_first (m : Manager) (name other : string)
    (format : ContextFormat) (w : World) :
  rejected_name name = true ->
  refused (GetContext m name w) w
  /\ refused (CreateContextWithFormat m name format w) w
  /\ refused (DeleteContext m name w) w
  /\ refused (RenameContext m name other w) w
  /\ refused (RenameContext m other name w) w.
Proof.
  intros [why Hv]%rejected_name_invalid.
  split; [|split; [|split; [|split]]]; unfold refused.
  - rewrite (GetContext_invalid _ _ _ _ Hv). cbn. eauto.
  - unfold CreateContextWithFormat. rewrite Hv. cbn. eauto.
  - unfold DeleteContext. rewrite Hv. cbn. eauto.
  - unfold RenameContext. rewrite Hv. cbn. eauto.
  - unfold RenameContext.
    destruct (validate_cases other) as [Ho|[why' Ho]]; rewrite Ho, ?Hv;
      cbn; eauto.
Qed.

End repository_claims.

Lemma GetContext_resolution_order_witness :
  res (GetContext (H:=Sample.json) Example.mgr "work" Example.both)
  = Ok (mkContext (H:=Sample.json) "work" Example.dark
          (json_path Example.mgr "work")).
Proof.
  pose proof (GetContext_resolution_order (H:=Sample.json) Example.mgr "work"
                Example.both eq_refl) as (Hjson & _ & _).
  rewrite (Hjson (Example.doc_file Example.dark) eq_refl).
  reflexivity.
Defined.

Lemma name_validation_first_witness :
  refused (GetContext (H:=Sample.json) Example.mgr ".." Example.two)
          Example.two
  /\ refused (RenameContext (H:=Sample.json) Example.mgr "work" "a/b"
                Example.two)
             Example.two.
Proof.
  split.
  - apply (name_validation_first (H:=Sample.json) Example.mgr ".." "work"
             FormatJSON Example.two). reflexivity.
  - apply (name_validation_first (H:=Sample.json) Example.mgr "a/b" "work"
             FormatJSON Example.two). reflexivity.
Defined.

(** ** The paths of a manager *)

Section manager_paths.

Implicit Types m : Manager.
Implicit Types name : string.

Lemma Dir_Join_length d n :
  has_byte filepath.sep n = false ->
  String.length (filepath.Dir (filepath.Join d n)) <= 1 + String.length d.
Proof.
  intros Hn. destruct d as [|c d].
  - unfold filepath.Dir, filepath.parents, filepath.Join.
    rewrite app_nil_l, app_cons, app_nil_l, cuts_cons, (cuts_no_sep _ n Hn).
    cbn. destruct (strings.HasPrefix _ _); cbn; lia.
  - rewrite Dir_Join by done. lia.
Qed.

Lemma NewManager_separated homeDir currentDir useProject :
  separated (NewManager homeDir currentDir useProject).
Proof.
  destruct useProject; split; cbn;
    unfold config.GetContextsDir, config.GetStateFilePath,
      config.GetActiveConfigPath; cbn.
  - apply Join_ne_nil.
  - reflexivity.
  - intros n. unfold filepath.Join. rewrite !app_assoc.
    intros Heq%String.app_inj. discriminate.
  - intros n. unfold filepath.Join. rewrite !app_assoc.
    intros Heq%String.app_inj. discriminate.
  - pose proof (Dir_Join_length currentDir config.ProjectConfigFileName
                  eq_refl).
    rewrite !Join_length. cbn. lia.
  - intros suffix Hs. unfold filepath.Join. rewrite !app_assoc.
    intros [Heq|(r & Heq)%parents_prefix]%elem_of_cons.
    + apply app_inv_head in Heq.
      destruct Hs as [-> | ->]; vm_compute in Heq; discriminate Heq.
    + rewrite !app_assoc in Heq. apply app_inv_head in Heq.
      destruct Hs as [-> | ->]; vm_compute in Heq; discriminate Heq.
  - apply Join_ne_nil.
  - reflexivity.
  - intros n. unfold filepath.Join. rewrite !app_assoc.
    intros Heq%String.app_inj. discriminate.
  - intros n. unfold filepath.Join. rewrite !app_assoc.
    intros Heq%String.app_inj. discriminate.
  - rewrite Dir_Join by (done || apply Join_ne_nil).
    rewrite !Join_length. cbn. lia.
  - intros suffix Hs. unfold filepath.Join. rewrite !app_assoc.
    intros [Heq|(r & Heq)%parents_prefix]%elem_of_cons.
    + apply app_inv_head in Heq.
      destruct Hs as [-> | ->]; vm_compute in Heq; discriminate Heq.
    + rewrite !app_assoc in Heq. apply app_inv_head in Heq.
      destruct Hs as [-> | ->]; vm_compute in Heq; discriminate Heq.
Qed.

Lemma valid_name_cons name :
  validateContextName name = Ok tt ->
  exists c rest, name = String c rest /\ c ≠ "."%char.
Proof.
  destruct name as [|c rest]; intros Hv.
  { vm_compute in Hv. done. }
  exists c, rest. split; [done|]. intros ->.
  assert (strings.HasPrefix (String "." rest) "." = true) as Hp.
  { unfold strings.HasPrefix. cbn. apply prefix_nil. }
  unfold validateContextName in Hv. rewrite Hp in Hv.
  repeat case_match; done.
Qed.

(** A context file is neither the state file nor its temporary file. *)
Lemma context_ne_state d name ext :
  validateContextName name = Ok tt ->
  filepath.Join d (name +:+ ext) ≠ filepath.Join d config.StateFileName
  /\ filepath.Join d (name +:+ ext)
     ≠ filepath.Join d config.StateFileName +:+ ".tmp".
Proof.
  intros (c & rest & -> & Hc)%valid_name_cons.
  unfold filepath.Join, config.StateFileName. rewrite !app_assoc.
  split; intros Heq%String.app_inj;
    rewrite ?app_cons, ?app_nil_l in Heq; congruence.
Qed.

Lemma json_ne_jsonc_path m name1 name2 :
  json_path m name1 ≠ jsonc_path m name2.
Proof.
  unfold json_path, jsonc_path. intros Heq%Join_inj.
  by apply json_ne_jsonc in Heq.
Qed.

End manager_paths.

(** ** Composing operations *)

Section compose.

Context {A B : Type}.

Implicit Types m : M A.
Implicit Types f : A -> M B.

Lemma bind_assoc {C} m f (g : B -> M C) w :
  bind (bind m f) g w = bind m (fun a => bind (f a) g) w.
Proof.
  cbn. destruct (m w) as [[a|e] w1 c1]; cbn; [|done].
  destruct (f a w1) as [[b|e] w2 c2]; cbn; [|done].
  destruct (g b w2) as [r w3 c3]; cbn. by rewrite (assoc_L (++)).
Qed.

Lemma bind_ok_inv m f w b :
  res (bind m f w) = Ok b ->
  exists a, res (m w) = Ok a
    /\ res (f a (world (m w))) = Ok b
    /\ world (bind m f w) = world (f a (world (m w)))
    /\ calls (bind m f w) = calls (m w) ++ calls (f a (world (m w))).
Proof.
  cbn. destruct (m w) as [[a|e] w1 c1]; cbn; [|done].
  out_simpl. intros Hok. exists a. by rewrite Hok.
Qed.

Lemma bind_err_inv m f w e :
  res (bind m f w) = Err e ->
  (res (m w) = Err e /\ world (bind m f w) = world (m w))
  \/ exists a, res (m w) = Ok a
       /\ res (f a (world (m w))) = Err e
       /\ world (bind m f w) = world (f a (world (m w))).
Proof.
  cbn. destruct (m w) as [[a|e'] w1 c1]; cbn.
  - out_simpl. intros He. right. exists a. by rewrite He.
  - intros; simplify_eq. by left.
Qed.

Lemma keeps_bind k m f :
  keeps k m -> (forall a, keeps k (f a)) -> keeps k (bind m f).
Proof.
  intros Hm Hf w. specialize (Hm w). cbn.
  destruct (m w) as [[a|e] w1 c1]; cbn in *; [|done].
  out_simpl. by rewrite Hf.
Qed.

Lemma fails_with_bind P m f :
  fails_with P m -> (forall a, fails_with P (f a)) -> fails_with P (bind m f).
Proof.
  intros Hm Hf w e. specialize (Hm w). cbn.
  destruct (m w) as [[a|e'] w1 c1]; cbn in *.
  - out_simpl. apply Hf.
  - intros; simplify_eq. by apply Hm.
Qed.

End compose.

Section keeps_facts.

Context `{JSON}.

Implicit Types k p : string.

Lemma keeps_ret {A} k (a : A) : keeps k (ret a).
Proof. by intros w. Qed.

Lemma keeps_fail {A} k e : keeps k (@fail A e).
Proof. by intros w. Qed.

Lemma keeps_check {A} k (r : os.errno + A) : keeps k (check r).
Proof. by destruct r. Qed.

Lemma keeps_sys_read {A} k c (f : gmap string os.node -> os.errno + A) :
  keeps k (sys_read c f).
Proof. by intros w. Qed.

Lemma keeps_MkdirAll k d :
  String.length d < String.length k -> keeps k (MkdirAll d).
Proof.
  intros Hlen w. cbn. destruct (os.mkdir_all _ _) eqn:E; cbn; [done|].
  by eapply mkdir_all_frame.
Qed.

Lemma keeps_atomic_write k p data :
  k ≠ p -> k ≠ p +:+ ".tmp" -> keeps k (atomic_write p data).
Proof. intros ?? w. by apply atomic_write_frame. Qed.

Lemma keeps_LoadState k p : keeps k (LoadState p).
Proof. intros w. by rewrite LoadState_world. Qed.

Lemma keeps_SaveState k s p :
  k ≠ p -> k ≠ p +:+ ".tmp" ->
  String.length (filepath.Dir p) < String.length k ->
  keeps k (State_SaveState s p).
Proof. intros ??? w. by apply SaveState_frame. Qed.

Lemma keeps_GetContext k m name : keeps k (GetContext m name).
Proof. intros w. by rewrite GetContext_world. Qed.

End keeps_facts.

Ltac keeps_leaf :=
  first [ apply keeps_ret | apply keeps_fail | apply keeps_check
        | apply keeps_sys_read | apply keeps_LoadState
        | apply keeps_GetContext
        | apply keeps_MkdirAll; done
        | apply keeps_atomic_write; done
        | apply keeps_SaveState; done ].

Ltac keeps_walk leaf :=
  first [ leaf
        | apply keeps_bind; [keeps_walk leaf | intros ?; keeps_walk leaf]
        | idtac ].

Section install_facts.

Context `{JSON}.

Implicit Types k p : string.

Lemma keeps_install k a p :
  k ≠ a -> k ≠ a +:+ ".tmp" ->
  String.length (filepath.Dir a) < String.length k ->
  keeps k (install a p).
Proof. intros ???. unfold install. keeps_walk keeps_leaf. Qed.

Lemma keeps_keeps_file {A} k (m : M A) : keeps k m -> keeps_file k m.
Proof. intros Hk w. by rewrite Hk. Qed.

Lemma keeps_file_bind {A B} k (m : M A) (f : A -> M B) :
  keeps_file k m -> (forall a, keeps_file k (f a)) ->
  keeps_file k (bind m f).
Proof.
  intros Hm Hf w. cbn. specialize (Hm w).
  destruct (m w) as [[a|e] w1 c1]; cbn in *; [|done].
  rewrite world_after. by rewrite Hf.
Qed.

Lemma keeps_file_MkdirAll k d : keeps_file k (MkdirAll d).
Proof.
  intros w. cbn. destruct (os.mkdir_all _ _) eqn:E; cbn; [done|].
  by eapply mkdir_chain_is_file.
Qed.

Lemma keeps_file_install k a p :
  k ≠ a -> k ≠ a +:+ ".tmp" -> keeps_file k (install a p).
Proof.
  intros ??. unfold install.
  apply keeps_file_bind; [apply keeps_file_MkdirAll|intros ?].
  apply keeps_keeps_file. keeps_walk keeps_leaf.
Qed.

Lemma keeps_file_SaveState k s p :
  k ≠ p -> k ≠ p +:+ ".tmp" -> keeps_file k (State_SaveState s p).
Proof.
  intros ??. rewrite SaveState_unfold.
  apply keeps_file_bind; [apply keeps_file_MkdirAll|intros ?].
  apply keeps_keeps_file. keeps_walk keeps_leaf.
  destruct (marshalIndentState s); keeps_leaf.
Qed.

(** [LoadState] gives the same after an operation that leaves the state
    file alone and no regular file in its way, or out of it. *)
Lemma LoadState_keeps {A} p (m : M A) w :
  keeps p m ->
  (forall a, a ∈ filepath.parents p -> keeps_file a m) ->
  res (LoadState p (world (m w))) = res (LoadState p w).
Proof.
  intros Hp Ha. apply LoadState_ext; [apply Hp|]. intros a ?. by apply Ha.
Qed.

(** The paths above the state file, and what is not among them. *)
Lemma above_state m a :
  separated m ->
  a ∈ filepath.parents (config.GetStateFilePath (paths m) (useProject m)) ->
  a ∈ config.GetContextsDir (paths m) (useProject m)
      :: filepath.parents (config.GetContextsDir (paths m) (useProject m)).
Proof.
  intros Hsep. rewrite (sep_state m Hsep), parents_Join; [done|apply Hsep|done].
Qed.

Lemma above_state_ne_active m a suffix :
  separated m ->
  suffix = EmptyString \/ suffix = ".tmp" ->
  a ∈ filepath.parents (config.GetStateFilePath (paths m) (useProject m)) ->
  a ≠ config.GetActiveConfigPath (paths m) (useProject m) +:+ suffix.
Proof.
  intros Hsep Hs Ha%above_state -> ; [|done].
  by apply (sep_active_off m Hsep suffix Hs).
Qed.

Lemma above_state_ne_context m a n :
  separated m ->
  a ∈ filepath.parents (config.GetStateFilePath (paths m) (useProject m)) ->
  a ≠ filepath.Join (config.GetContextsDir (paths m) (useProject m)) n.
Proof.
  intros Hsep Ha%above_state -> ; [|done].
  apply elem_of_cons in Ha as [Ha|Ha%parents_length].
  - apply (f_equal String.length) in Ha. rewrite Join_length in Ha. lia.
  - rewrite Join_length in Ha. lia.
Qed.

Lemma fails_with_ret {A} P (a : A) : fails_with P (ret a).
Proof. by intros w e. Qed.

Lemma fails_with_fail {A} (P : error -> Prop) e :
  P e -> fails_with P (@fail A e).
Proof. intros He w e' [= <-]. done. Qed.

Lemma fails_with_check {A} (P : error -> Prop) (r : os.errno + A) :
  (forall x, P (EOS x)) -> fails_with P (check r).
Proof. intros HP w e. destruct r; cbn; intros; simplify_eq. apply HP. Qed.

Lemma fails_with_sys_read {A} P c
    (f : gmap string os.node -> os.errno + A) :
  fails_with P (sys_read c f).
Proof. by intros w e. Qed.

Lemma fails_with_sys_write P c f : fails_with P (sys_write c f).
Proof. by intros w e. Qed.

Lemma fails_with_weaken {A} (P Q : error -> Prop) (m : M A) :
  (forall e, P e -> Q e) -> fails_with P m -> fails_with Q m.
Proof. intros HPQ Hm w e He. eapply HPQ, Hm, He. Qed.

Lemma low_level_EOS x : low_level (EOS x).
Proof. right. eauto. Qed.

Lemma low_level_EMarshal : low_level EMarshal.
Proof. by left. Qed.

End install_facts.

Ltac fails_leaf :=
  first [ apply fails_with_ret
        | apply fails_with_check; intros ?; apply low_level_EOS
        | apply fails_with_sys_read | apply fails_with_sys_write
        | apply fails_with_fail; apply low_level_EMarshal ].

Ltac fails_walk leaf :=
  first [ leaf
        | apply fails_with_bind; [fails_walk leaf | intros ?; fails_walk leaf]
        | idtac ].

Section error_facts.

Context `{JSON}.

Lemma fails_with_atomic_write p data :
  fails_with low_level (atomic_write p data).
Proof. unfold atomic_write. fails_walk fails_leaf. Qed.

Lemma fails_with_LoadState p : fails_with low_level (LoadState p).
Proof.
  intros w e. rewrite LoadState_res. unfold load_result.
  repeat case_match; intros; simplify_eq; apply low_level_EOS.
Qed.

Lemma fails_with_SaveState s p :
  fails_with low_level (State_SaveState s p).
Proof.
  rewrite SaveState_unfold.
  fails_walk ltac:(first [fails_leaf | apply fails_with_atomic_write]).
  destruct (marshalIndentState s).
  - apply fails_with_atomic_write.
  - apply fails_with_fail, low_level_EMarshal.
Qed.

Lemma fails_with_install a p : fails_with low_level (install a p).
Proof.
  unfold install.
  fails_walk ltac:(first [fails_leaf | apply fails_with_atomic_write]).
Qed.

(** The errors of [GetContext]. *)
Lemma fails_with_GetContext m name :
  fails_with
    (fun e => (exists why, e = InvalidName why) \/ e = NotFound name
              \/ e = InvalidContent name \/ low_level e)
    (GetContext m name).
Proof.
  intros w e.
  destruct (validate_cases name) as [Hv|[why Hv]].
  - destruct (files w !! json_path m name) as [n|] eqn:Hj.
    { rewrite (GetContext_json _ _ _ _ Hv Hj). cbn. unfold read_context.
      repeat case_match; intros; simplify_eq; auto using low_level_EOS. }
    destruct (files w !! jsonc_path m name) as [n|] eqn:Hc.
    { rewrite (GetContext_jsonc _ _ _ _ Hv Hj Hc). cbn. unfold read_context.
      repeat case_match; intros; simplify_eq; auto using low_level_EOS. }
    rewrite (GetContext_absent _ _ _ Hv Hj Hc). cbn. intros; simplify_eq.
    auto.
  - rewrite (GetContext_invalid _ _ _ _ Hv). cbn. intros; simplify_eq. eauto.
Qed.

(** [SwitchToContext] in three steps: resolve the context, install it as the
    active configuration, record it in the state. *)
Lemma SwitchToContext_unfold m name w :
  SwitchToContext m name w
  = (let! context := GetContext m name in
     let! _ := install (config.GetActiveConfigPath (paths m) (useProject m))
                       (FilePath context) in
     let stateFilePath := config.GetStateFilePath (paths m) (useProject m) in
     let! state := LoadState stateFilePath in
     State_SaveState (State_SetCurrent state name) stateFilePath) w.
Proof.
  unfold SwitchToContext, install, atomic_write. cbn.
  destruct (GetContext m name w) as [[ctx|e] w1 c1]; cbn; [|done].
  destruct (os.mkdir_all _ _); cbn; [done|].
  destruct (os.read_file _ _); cbn; [done|].
  destruct (os.write_file _ _); cbn; [done|].
  destruct (os.rename _ _); cbn; [done|].
  destruct (LoadState _ _) as [[st|e] w2 c2]; cbn; [|done].
  destruct (State_SaveState _ _ _) as [r w3 c3]; cbn. done.
Qed.

End error_facts.

(** * The context manager: switching *)

Section switch_facts.

Context `{JSON}.

Implicit Types m : Manager.
Implicit Types w : World.

Lemma low_level_not_previous e : low_level e -> not_previous_error e.
Proof. intros [->|[x ->]]; by split. Qed.

Lemma fails_with_SwitchToContext m name :
  fails_with not_previous_error (SwitchToContext m name).
Proof.
  intros w e. rewrite SwitchToContext_unfold. revert w e.
  fails_walk ltac:(
    first [ apply (fails_with_weaken _ _ _ low_level_not_previous);
            first [ apply fails_with_install | apply fails_with_LoadState
                  | apply fails_with_SaveState ]
          | eapply fails_with_weaken; [|apply fails_with_GetContext];
            intros e [[why ->]|[->|[->|He]]];
            [by split|by split|by split|by apply low_level_not_previous] ]).
Qed.

Lemma LoadState_reads p w : forallb reads (calls (LoadState p w)) = true.
Proof.
  unfold LoadState. cbn. destruct (IsNotExist _); cbn; [done|].
  destruct (os.read_file _ _); cbn; [done|].
  destruct (unmarshalState _); done.
Qed.

Lemma GetContext_reads m name w :
  forallb reads (calls (GetContext m name w)) = true.
Proof.
  destruct (validate_cases name) as [Hv|[why Hv]].
  - destruct (files w !! json_path m name) as [n|] eqn:Hj.
    { by rewrite (GetContext_json _ _ _ _ Hv Hj). }
    destruct (files w !! jsonc_path m name) as [n|] eqn:Hc.
    { by rewrite (GetContext_jsonc _ _ _ _ Hv Hj Hc). }
    by rewrite (GetContext_absent _ _ _ Hv Hj Hc).
  - by rewrite (GetContext_invalid _ _ _ _ Hv).
Qed.

(** C2, as the code has it.  When [SwitchToPrevious] fails with
    [StalePrevious] nothing was written: the world, and with it the state
    file, is exactly as before the call, and every filesystem call made was
    a read.  The exchange of current and previous happened on the loaded
    copy of the state only; the reported name is the previous context of the
    state on disk. *)
Theorem stale_previous_writes_nothing m w name :
  res (SwitchToPrevious m w) = Err (StalePrevious name) ->
  world (SwitchToPrevious m w) = w
  /\ forallb reads (calls (SwitchToPrevious m w)) = true
  /\ exists state,
       res (LoadState (config.GetStateFilePath (paths m) (useProject m))
              (world (SwitchToPrevious m w))) = Ok state
       /\ Previous state = name.
Proof.
  unfold SwitchToPrevious. cbn.
  pose proof (LoadState_world
    (config.GetStateFilePath (paths m) (useProject m)) w) as Hw.
  pose proof (LoadState_reads
    (config.GetStateFilePath (paths m) (useProject m)) w) as Hr.
  pose proof (fails_with_LoadState
    (config.GetStateFilePath (paths m) (useProject m)) w) as He.
  destruct (LoadState _ w) as [[st|e] w1 c1] eqn:EL; cbn in *; subst w1.
  2:{ intros [= ->]. by destruct (He _ eq_refl) as [?|[? ?]]. }
  unfold State_SwitchToPrevious.
  destruct (String.eqb (Previous st) EmptyString); cbn; [done|].
  unfold or_fail.
  pose proof (GetContext_world m (Previous st) w) as Hw2.
  pose proof (GetContext_reads m (Previous st) w) as Hr2.
  destruct (GetContext m (Previous st) w) as [[ctx|e] w2 c2]; cbn in *;
    subst w2.
  - out_simpl. intros Hs.
    by destruct (fails_with_SwitchToContext _ _ _ _ Hs).
  - intros [= <-]. rewrite EL. cbn.
    split_and!; [done| |by eauto].
    rewrite forallb_app. by rewrite Hr, Hr2.
Qed.

End switch_facts.

Lemma stale_previous_writes_nothing_witness :
  world (SwitchToPrevious (H:=Sample.json) Example.mgr Example.stale)
  = Example.stale.
Proof.
  apply (stale_previous_writes_nothing (H:=Sample.json) Example.mgr
           Example.stale "home").
  reflexivity.
Defined.

(** C2 as stated fails: in the world [Example.stale] the state file says
    current [work], previous [home], and [home] has no context file.
    [SwitchToPrevious] fails with [StalePrevious], and the state file still
    says current [work], previous [home]: not the exchanged values. *)
Lemma stale_previous_state_not_swapped :
  let o := SwitchToPrevious (H:=Sample.json) Example.mgr Example.stale in
  res (LoadState (H:=Sample.json) Example.state_file Example.stale)
  = Ok (mkState "work" "home")
  /\ res o = Err (StalePrevious "home")
  /\ res (LoadState (H:=Sample.json) Example.state_file (world o))
     = Ok (mkState "work" "home")
  /\ res (LoadState (H:=Sample.json) Example.state_file (world o))
     ≠ Ok (mkState "home" "work").
Proof.
  cbv zeta. split_and!; [reflexivity..|].
  intros Heq. vm_compute in Heq. discriminate Heq.
Qed.

Section previous_switch.

Context `{JSON}.

Implicit Types m : Manager.
Implicit Types w : World.

(** The footprint of [SwitchToContext]: the active configuration, the state
    file, their temporary files, and directories above the contexts. *)
Lemma keeps_SwitchToContext m name k :
  separated m ->
  k ≠ config.GetActiveConfigPath (paths m) (useProject m) ->
  k ≠ config.GetActiveConfigPath (paths m) (useProject m) +:+ ".tmp" ->
  k ≠ config.GetStateFilePath (paths m) (useProject m) ->
  k ≠ config.GetStateFilePath (paths m) (useProject m) +:+ ".tmp" ->
  String.length (config.GetContextsDir (paths m) (useProject m))
  < String.length k ->
  keeps k (SwitchToContext m name).
Proof.
  intros Hsep Ha Hat Hs Hst Hlen w. rewrite SwitchToContext_unfold. revert w.
  pose proof (sep_active_dir m Hsep) as Hdir.
  assert (filepath.Dir (config.GetStateFilePath (paths m) (useProject m))
          = config.GetContextsDir (paths m) (useProject m)) as HdirT.
  { rewrite (sep_state m Hsep). apply Dir_Join; [apply Hsep|done]. }
  keeps_walk ltac:(first [ keeps_leaf
                         | apply keeps_install; [done|done|lia]
                         | apply keeps_SaveState; [done|done|] ]).
  cbn. rewrite HdirT. done.
Qed.

(** What a successful [SwitchToContext] leaves in the state file. *)
Lemma SwitchToContext_state m name w :
  separated m ->
  res (SwitchToContext m name w) = Ok tt ->
  exists state data,
    res (LoadState (config.GetStateFilePath (paths m) (useProject m)) w)
    = Ok state
    /\ marshalIndentState (State_SetCurrent state name) = Some data
    /\ files (world (SwitchToContext m name w))
         !! config.GetStateFilePath (paths m) (useProject m)
       = Some (os.File data).
Proof.
  intros Hsep. rewrite SwitchToContext_unfold.
  intros (ctx & Hg & Hok & -> & _)%bind_ok_inv.
  rewrite GetContext_world in *.
  apply bind_ok_inv in Hok as ([] & Hi & Hok & -> & _).
  cbn zeta in *.
  apply bind_ok_inv in Hok as (state & Hl & Hok & -> & _).
  rewrite LoadState_world in *.
  destruct (SaveState_ok _ _ _ Hok) as (data & Hm & Hp & _).
  exists state, data. split_and!; [|done..].
  rewrite <- Hl. symmetry.
  set (T := config.GetStateFilePath (paths m) (useProject m)).
  apply LoadState_keeps.
  - apply keeps_install.
    + subst T. rewrite (sep_state m Hsep). apply Hsep.
    + subst T. rewrite (sep_state m Hsep). apply Hsep.
    + subst T. rewrite (sep_state m Hsep), Join_length.
      pose proof (sep_active_dir m Hsep). lia.
  - intros a Ha. apply keeps_file_install.
    + rewrite <- (app_nil_r (config.GetActiveConfigPath _ _)).
      apply above_state_ne_active; [done|by left|done].
    + apply above_state_ne_active; [done|by right|done].
Qed.

(** A successful [SwitchToPrevious] is a [SwitchToContext] to the previous
    context of the state on disk, which is not empty and resolves. *)
Lemma SwitchToPrevious_ok m w :
  res (SwitchToPrevious m w) = Ok tt ->
  exists state ctx,
    res (LoadState (config.GetStateFilePath (paths m) (useProject m)) w)
    = Ok state
    /\ Previous state ≠ EmptyString
    /\ res (GetContext m (Previous state) w) = Ok ctx
    /\ res (SwitchToContext m (Previous state) w) = Ok tt
    /\ world (SwitchToPrevious m w)
       = world (SwitchToContext m (Previous state) w).
Proof.
  unfold SwitchToPrevious. cbn.
  pose proof (LoadState_world
    (config.GetStateFilePath (paths m) (useProject m)) w) as Hw.
  destruct (LoadState _ w) as [[st|e] w1 c1] eqn:EL; cbn in *; [|done].
  subst w1. unfold State_SwitchToPrevious.
  destruct (String.eqb_spec (Previous st) EmptyString) as [|Hne]; cbn;
    [done|].
  unfold or_fail.
  pose proof (GetContext_world m (Previous st) w) as Hw2.
  destruct (GetContext m (Previous st) w) as [[ctx|e] w2 c2] eqn:EG;
    cbn in *.
  2:{ intros [=]. }
  subst w2. out_simpl. intros Hok. exists st, ctx. rewrite EG, Hok. done.
Qed.

Lemma State_SwitchToPrevious_swaps s :
  Previous s ≠ EmptyString ->
  State_SwitchToPrevious s = (true, mkState (Previous s) (Current s)).
Proof.
  intros Hp. unfold State_SwitchToPrevious.
  by destruct (String.eqb_spec (Previous s) EmptyString).
Qed.

(** One successful previous-switch exchanges the two names on disk. *)
Lemma SwitchToPrevious_exchanges m w a b :
  separated m ->
  res (LoadState (config.GetStateFilePath (paths m) (useProject m)) w)
  = Ok (mkState a b) ->
  (forall data, marshalIndentState (mkState b a) = Some data ->
                unmarshalState data = Some (mkState b a)) ->
  res (SwitchToPrevious m w) = Ok tt ->
  res (LoadState (config.GetStateFilePath (paths m) (useProject m))
         (world (SwitchToPrevious m w)))
  = Ok (mkState b a).
Proof.
  intros Hsep Hl Hrt
    (st & ctx & Hl' & Hne & Hg & Hok & ->)%SwitchToPrevious_ok.
  rewrite Hl in Hl'. simplify_eq. cbn in *.
  destruct (SwitchToContext_state _ _ _ Hsep Hok)
    as (st & data' & Hl' & Hm' & Hp).
  rewrite Hl in Hl'. simplify_eq. unfold State_SetCurrent in Hm'. cbn in Hm'.
  rewrite LoadState_res, Hp. cbn. by rewrite (Hrt _ Hm').
Qed.

(** C1, with the pure part restricted to states whose current name is not
    empty.  Manager level: from a state file that says current [a],
    previous [b], two successful calls of [SwitchToPrevious] leave a state
    file that says current [a], previous [b] again, having said current
    [b], previous [a] in between; that both calls succeed entails that [a]
    and [b] are not empty and resolve to contexts.  The states involved are
    assumed to survive [json.MarshalIndent] followed by [json.Unmarshal].
    State level: exchanging twice is the identity on every state with both
    names non-empty. *)
Theorem previous_switch_involution
    (homeDir currentDir : string) (project : bool) (w : World)
    (a b : string) :
  let m := NewManager homeDir currentDir project in
  let stateFilePath := config.GetStateFilePath (paths m) (useProject m) in
  let o1 := SwitchToPrevious m w in
  let o2 := SwitchToPrevious m (world o1) in
  (forall s data,
     s = mkState a b \/ s = mkState b a ->
     marshalIndentState s = Some data -> unmarshalState data = Some s) ->
  (res (LoadState stateFilePath w) = Ok (mkState a b) ->
   res o1 = Ok tt -> res o2 = Ok tt ->
   res (LoadState stateFilePath (world o1)) = Ok (mkState b a)
   /\ res (LoadState stateFilePath (world o2)) = Ok (mkState a b)
   /\ a ≠ EmptyString /\ b ≠ EmptyString
   /\ (exists ctx, res (GetContext m b w) = Ok ctx)
   /\ (exists ctx, res (GetContext m a (world o1)) = Ok ctx))
  /\ (forall s : State,
        Current s ≠ EmptyString -> Previous s ≠ EmptyString ->
        State_SwitchToPrevious (State_SwitchToPrevious s).2 = (true, s)).
Proof.
  intros m T o1 o2 Hrt. split.
  - intros Hl Hok1 Hok2. subst o1 o2 T.
    pose proof (NewManager_separated homeDir currentDir project) as Hsep.
    fold m in Hsep. clearbody m.
    assert (res (LoadState
                   (config.GetStateFilePath (paths m) (useProject m))
                   (world (SwitchToPrevious m w))) = Ok (mkState b a)) as H1.
    { apply SwitchToPrevious_exchanges; auto. }
    destruct (SwitchToPrevious_ok m w Hok1)
      as (st & ctx1 & Hl1 & Hne1 & Hg1 & _ & _).
    rewrite Hl in Hl1. simplify_eq. cbn in *.
    destruct (SwitchToPrevious_ok m _ Hok2)
      as (st & ctx2 & Hl2 & Hne2 & Hg2 & _ & _).
    rewrite H1 in Hl2. simplify_eq. cbn in *.
    split_and!; eauto.
    apply SwitchToPrevious_exchanges; auto.
  - intros s Hc Hp.
    rewrite (State_SwitchToPrevious_swaps s Hp). cbn.
    rewrite State_SwitchToPrevious_swaps by done. cbn. by destruct s.
Qed.

End previous_switch.

Lemma previous_switch_involution_witness :
  let o1 := SwitchToPrevious (H:=Sample.json) Example.mgr Example.two in
  let o2 := SwitchToPrevious (H:=Sample.json) Example.mgr (world o1) in
  res (LoadState (H:=Sample.json) Example.state_file (world o1))
  = Ok (mkState "home" "work")
  /\ res (LoadState (H:=Sample.json) Example.state_file (world o2))
     = Ok (mkState "work" "home").
Proof.
  pose proof (previous_switch_involution (H:=Sample.json)
                "/home/u" "/work" false Example.two "work" "home") as Hinv.
  cbv zeta in Hinv. destruct Hinv as [Hinv _].
  - intros s data [->| ->] Hm; vm_compute in Hm; injection Hm as <-;
      reflexivity.
  - destruct Hinv as (H1 & H2 & _); [reflexivity..|].
    split; [exact H1|exact H2].
Defined.

(** C1 as stated fails at the state level: with an empty current name and
    previous [b], the first exchange leaves previous empty, so the second
    does nothing and the state is not the one started from. *)
Lemma swap_twice_not_identity :
  let s := mkState EmptyString "b" in
  Previous s ≠ EmptyString
  /\ State_SwitchToPrevious s = (true, mkState "b" EmptyString)
  /\ State_SwitchToPrevious (State_SwitchToPrevious s).2
     = (false, mkState "b" EmptyString)
  /\ (State_SwitchToPrevious (State_SwitchToPrevious s).2).2 ≠ s.
Proof.
  cbv zeta. split_and!; [discriminate|reflexivity|reflexivity|].
  intros Heq. vm_compute in Heq. discriminate Heq.
Qed.

(** * The context manager: deleting *)

Section delete_claims.

Context `{JSON}.

Implicit Types m : Manager.
Implicit Types w : World.

(** The errors of [GetContext]: of the name, of the lookup, of the
    content, or of reading what is at the context's path. *)
Lemma GetContext_errors m name w e :
  res (GetContext m name w) = Err e ->
  (exists why, e = InvalidName why) \/ e = NotFound name
  \/ e = InvalidContent name \/ exists x, e = EOS x.
Proof.
  destruct (validate_cases name) as [Hv|[why Hv]].
  - destruct (files w !! json_path m name) as [n|] eqn:Hj.
    { rewrite (GetContext_json _ _ _ _ Hv Hj). cbn. unfold read_context.
      repeat case_match; intros; simplify_eq; eauto 10. }
    destruct (files w !! jsonc_path m name) as [n|] eqn:Hc.
    { rewrite (GetContext_jsonc _ _ _ _ Hv Hj Hc). cbn. unfold read_context.
      repeat case_match; intros; simplify_eq; eauto 10. }
    rewrite (GetContext_absent _ _ _ Hv Hj Hc). cbn. intros; simplify_eq.
    auto.
  - rewrite (GetContext_invalid _ _ _ _ Hv). cbn. intros; simplify_eq. eauto.
Qed.

(** C5.  [DeleteContext] validates and resolves the name, loads the state,
    and only then consults the guard.  For a name that resolves, with a
    state that loads: it fails with [CurrentContextProtected], leaving the
    world as it was, exactly when the name is the current context of the
    state; for any other name, the previous context included, it succeeds
    and the world it leaves is the old one without the resolved context
    file.  For a name that [GetContext] does not resolve it fails with the
    error of [GetContext], whether or not the name is the current one:
    [InvalidName], [NotFound], [InvalidContent], or the filesystem error
    of reading what is at the context's path; nothing is changed.  When
    the state does not load it fails with that error, and nothing is
    changed. *)
Theorem deletion_guard m name w :
  let o := DeleteContext m name w in
  let stateFilePath := config.GetStateFilePath (paths m) (useProject m) in
  (forall ctx state,
     res (GetContext m name w) = Ok ctx ->
     res (LoadState stateFilePath w) = Ok state ->
     (name = Current state ->
      res o = Err (CurrentContextProtected name) /\ world o = w)
     /\ (name ≠ Current state ->
         res o = Ok tt
         /\ files (world o) = delete (FilePath ctx) (files w)
         /\ (FilePath ctx = json_path m name
             \/ FilePath ctx = jsonc_path m name))
     /\ ((exists e, res o = Err e /\ kind_of e = KCurrentContextProtected)
         <-> name = Current state))
  /\ (forall e,
        res (GetContext m name w) = Err e ->
        res o = Err e /\ world o = w
        /\ ((exists why, e = InvalidName why) \/ e = NotFound name
            \/ e = InvalidContent name \/ exists x, e = EOS x))
  /\ (forall ctx e,
        res (GetContext m name w) = Ok ctx ->
        res (LoadState stateFilePath w) = Err e ->
        res o = Err e /\ world o = w).
Proof.
  intros o T.
  pose proof (GetContext_world m name w) as Hgw.
  pose proof (LoadState_world T w) as Hlw.
  split_and!.
  - intros ctx state Hg Hl.
    destruct (GetContext_ok _ _ _ _ Hg) as (Hv & Hn & Hpath & data & Hdata).
    assert (name = Current state ->
            res o = Err (CurrentContextProtected name) /\ world o = w)
      as Hcur.
    { intros ->. subst o T. unfold DeleteContext. rewrite Hv. cbn.
      destruct (GetContext m (Current state) w) as [[ctx'|e] w1 c1];
        cbn in *; simplify_eq.
      destruct (LoadState _ w) as [[st|e] w2 c2]; cbn in *; simplify_eq.
      by rewrite String.eqb_refl. }
    assert (name ≠ Current state ->
            res o = Ok tt
            /\ files (world o) = delete (FilePath ctx) (files w)) as Hother.
    { intros Hne. subst o T. unfold DeleteContext. rewrite Hv. cbn.
      destruct (GetContext m name w) as [[ctx'|e] w1 c1];
        cbn in *; simplify_eq.
      destruct (LoadState _ w) as [[st|e] w2 c2]; cbn in *; simplify_eq.
      rewrite eqb_false_ne by done. cbn.
      unfold os.remove. rewrite Hdata. done. }
    split; [done|]. split.
    { intros Hne. destruct (Hother Hne) as [Hok Hfs]. done. }
    split.
    + intros (e & He & Hk).
      destruct (decide (name = Current state)) as [|Hne]; [done|].
      destruct (Hother Hne) as [Hok _]. congruence.
    + intros Heq. destruct (Hcur Heq) as [He _]. eauto.
  - intros e Hg. split_and!; [..|by eapply GetContext_errors].
    + subst o. unfold DeleteContext.
      destruct (validate_cases name) as [Hv|[why Hv]]; rewrite Hv; cbn.
      * destruct (GetContext m name w) as [[ctx'|e'] w1 c1];
          cbn in *; by simplify_eq.
      * rewrite (GetContext_invalid _ _ _ _ Hv) in Hg. cbn in Hg.
        by simplify_eq.
    + subst o. unfold DeleteContext.
      destruct (validate_cases name) as [Hv|[why Hv]]; rewrite Hv; cbn;
        [|done].
      destruct (GetContext m name w) as [[ctx'|e'] w1 c1];
        cbn in *; by simplify_eq.
  - intros ctx e Hg Hl.
    destruct (GetContext_ok _ _ _ _ Hg) as (Hv & _).
    subst o T. unfold DeleteContext. rewrite Hv. cbn.
    destruct (GetContext m name w) as [[ctx'|e'] w1 c1];
      cbn in *; simplify_eq.
    destruct (LoadState _ w) as [[st|e'] w2 c2]; cbn in *; by simplify_eq.
Qed.

End delete_claims.

Lemma deletion_guard_witness :
  res (DeleteContext (H:=Sample.json) Example.mgr "work" Example.two)
  = Err (CurrentContextProtected "work")
  /\ res (DeleteContext (H:=Sample.json) Example.mgr "home" Example.two)
     = Ok tt
  /\ res (DeleteContext (H:=Sample.json) Example.mgr "work"
            Cases.dir_context)
     = Err (EOS os.EISDIR).
Proof.
  split_and!.
  - apply (proj1 (proj1 (deletion_guard (H:=Sample.json) Example.mgr "work"
             Example.two)
             (mkContext (H:=Sample.json) "work" Example.dark
                (json_path Example.mgr "work"))
             (mkState "work" "home") eq_refl eq_refl)).
    reflexivity.
  - apply (proj1 (proj2 (proj1 (deletion_guard (H:=Sample.json) Example.mgr
             "home" Example.two)
             (mkContext (H:=Sample.json) "home" Example.light
                (json_path Example.mgr "home"))
             (mkState "work" "home") eq_refl eq_refl))).
    intros Heq. discriminate Heq.
  - apply (proj1 (proj2 (deletion_guard (H:=Sample.json) Example.mgr "work"
             Cases.dir_context))).
    reflexivity.
Defined.

(** C5 as stated fails for a name that does not resolve.  In
    [Example.lost] the state says current [home] and no context file of
    that name is left: deleting [home] is not refused as the current
    context, it fails with [NotFound].  In [Example.stale] the name [home]
    is the previous context, not the current one, yet deleting it does not
    succeed. *)
Lemma delete_unresolved_name :
  res (LoadState (H:=Sample.json) Example.state_file Example.lost)
  = Ok (mkState "home" "work")
  /\ res (DeleteContext (H:=Sample.json) Example.mgr "home" Example.lost)
     = Err (NotFound "home")
  /\ res (LoadState (H:=Sample.json) Example.state_file Example.stale)
     = Ok (mkState "work" "home")
  /\ res (DeleteContext (H:=Sample.json) Example.mgr "home" Example.stale)
     = Err (NotFound "home").
Proof. split_and!; reflexivity. Qed.

(** * The context repository: listing *)

Section listing_claims.

Context `{JSON}.

Implicit Types m : Manager.
Implicit Types w : World.

Lemma strip_prefix_Some pre s r :
  os.strip_prefix pre s = Some r -> s = pre +:+ r.
Proof.
  revert s. induction pre as [|a pre IH]; intros [|b s]; cbn;
    intros Hs; simplify_eq; try done.
  destruct (Ascii.eqb_spec a b) as [->|]; [|done].
  rewrite app_cons. f_equal. by apply IH.
Qed.

(** A directory entry is one path element of something in the directory. *)
Lemma entries_spec fs d e :
  e ∈ os.entries fs d ->
  exists n, fs !! filepath.Join d (os.Name e) = Some n
    /\ os.IsDir e = os.is_directory n
    /\ os.is_element (os.Name e) = true.
Proof.
  unfold os.entries. rewrite merge_sort_Permutation.
  intros ([k n] & Hkn & He)%list_elem_of_omap.
  apply elem_of_map_to_list in Hkn.
  unfold os.entry_of in He. cbn in He.
  destruct (os.strip_prefix _ k) as [name|] eqn:Es; [|done].
  destruct (os.is_element name) eqn:Ee; [|done].
  simplify_eq. cbn. apply strip_prefix_Some in Es. subst k.
  exists n. unfold filepath.Join. by rewrite <- app_assoc.
Qed.

Lemma is_element_no_sep n :
  os.is_element n = true -> strings.Contains n "/" = false.
Proof.
  unfold os.is_element.
  intros [[[_ Hc]%andb_true_iff _]%andb_true_iff _]%andb_true_iff.
  by apply negb_true_iff in Hc.
Qed.

(** Where a listed context comes from. *)
Lemma list_entries_spec d es c :
  c ∈ list_entries d es ->
  exists e ext,
    e ∈ es
    /\ os.IsDir e = false
    /\ os.Name e ≠ config.StateFileName
    /\ (ext = ".json" \/ ext = ".jsonc")
    /\ os.Name e = Name c +:+ ext
    /\ Name c = strings.TrimSuffix (os.Name e) ext
    /\ FilePath c = filepath.Join d (os.Name e).
Proof.
  induction es as [|e es IH]; cbn; [by intros ?%elem_of_nil|].
  assert (c ∈ list_entries d es ->
          exists e0 ext, e0 ∈ e :: es /\ os.IsDir e0 = false
            /\ os.Name e0 ≠ config.StateFileName
            /\ (ext = ".json" \/ ext = ".jsonc")
            /\ os.Name e0 = Name c +:+ ext
            /\ Name c = strings.TrimSuffix (os.Name e0) ext
            /\ FilePath c = filepath.Join d (os.Name e0)) as IH'.
  { intros (e0 & ext & He0 & Hrest)%IH. exists e0, ext.
    split; [by right|done]. }
  destruct (os.IsDir e) eqn:Edir; [done|].
  destruct (String.eqb_spec (os.Name e) config.StateFileName) as [|Hst];
    [done|].
  destruct (strings.HasSuffix (os.Name e) ".json") eqn:Ej.
  { intros [->|Hc]%elem_of_cons; [|by apply IH'].
    apply HasSuffix_inv in Ej as [p Hp].
    exists e, ".json". cbn. rewrite Hp, TrimSuffix_app.
    split_and!; auto; [by left|congruence]. }
  destruct (strings.HasSuffix (os.Name e) ".jsonc") eqn:Ec; [|done].
  intros [->|Hc]%elem_of_cons; [|by apply IH'].
  apply HasSuffix_inv in Ec as [p Hp].
  exists e, ".jsonc". cbn. rewrite Hp, TrimSuffix_app.
  split_and!; auto; [by left|congruence].
Qed.

(** C6, as the code has it.  Every context [ListContexts] returns comes
    from a regular file of the contexts directory whose name is the
    context's name followed by [.json] or [.jsonc] and is not the state
    file's name; the context's name contains no [/], and its path is not the
    state file's path.  Nothing more is checked of the name: it may be
    empty, start with [.], or contain [\].  Listing writes nothing. *)
Theorem listing_names m w contexts c :
  res (ListContexts m w) = Ok contexts ->
  c ∈ contexts ->
  let contextsDir := config.GetContextsDir (paths m) (useProject m) in
  strings.Contains (Name c) "/" = false
  /\ FilePath c ≠ filepath.Join contextsDir config.StateFileName
  /\ (exists ext data,
        (ext = ".json" \/ ext = ".jsonc")
        /\ FilePath c = filepath.Join contextsDir (Name c +:+ ext)
        /\ Name c +:+ ext ≠ config.StateFileName
        /\ files w !! FilePath c = Some (os.File data))
  /\ world (ListContexts m w) = w.
Proof.
  intros Hok Hc contextsDir. revert Hok. unfold ListContexts. cbn.
  fold contextsDir.
  destruct (IsNotExist _); cbn.
  { intros [= <-]. by apply elem_of_nil in Hc. }
  unfold os.read_dir.
  destruct (os.dir_exists _ _); cbn; [|by repeat case_match].
  intros [= <-].
  apply list_entries_spec in Hc
    as (e & ext & He & Hdir & Hst & Hext & Hname & Htrim & Hpath).
  apply entries_spec in He as (n & Hn & Hisdir & Helem).
  split_and!; [| | |done].
  - rewrite Htrim, Contains_byte. apply has_byte_TrimSuffix.
    rewrite <- Contains_byte. by apply is_element_no_sep.
  - rewrite Hpath. intros Heq%Join_inj. done.
  - exists ext. destruct n as [data|]; [|by rewrite Hdir in Hisdir].
    exists data. rewrite Hpath, <- Hname. done.
Qed.

End listing_claims.

Lemma listing_names_witness :
  strings.Contains "work" "/" = false
  /\ filepath.Join Example.settings "work.json" ≠ Example.state_file.
Proof.
  destruct (listing_names (H:=Sample.json) Example.mgr Example.two
              [mkContext (H:=Sample.json) "home" ∅
                 (filepath.Join Example.settings "home.json");
               mkContext (H:=Sample.json) "work" ∅
                 (filepath.Join Example.settings "work.json")]
              (mkContext (H:=Sample.json) "work" ∅
                 (filepath.Join Example.settings "work.json")))
    as (Hname & Hpath & _).
  - reflexivity.
  - apply elem_of_cons. right. apply elem_of_cons. left. reflexivity.
  - split; [exact Hname|exact Hpath].
Defined.

(** C6 as stated fails: in [Example.hidden] the contexts directory holds
    the files [.json] and [.secret.json] next to [work.json] and the state
    file.  [ListContexts] returns three contexts, named with the empty
    string, [.secret] and [work]: the first is empty, the second starts
    with [.], and [validateContextName] rejects both.  The state file is not
    among them. *)
Lemma listing_surfaces_hidden_files :
  match res (ListContexts (H:=Sample.json) Example.mgr Example.hidden) with
  | Ok contexts => map Name contexts = [EmptyString; ".secret"; "work"]
  | Err _ => False
  end
  /\ rejected_name EmptyString = true
  /\ rejected_name ".secret" = true.
Proof. split_and!; reflexivity. Qed.

(** * The context manager: renaming *)

Section rename_claims.

Context `{JSON}.

Implicit Types m : Manager.
Implicit Types w : World.

Lemma HasPrefix_inv s pre :
  strings.HasPrefix s pre = true -> exists rest, s = pre +:+ rest.
Proof.
  unfold strings.HasPrefix. revert s.
  induction pre as [|a pre IH]; intros s Hs; [by exists s|].
  destruct s as [|b s]; [done|]. cbn in Hs.
  destruct (ascii_dec a b) as [->|]; [|done].
  destruct (IH _ Hs) as [rest ->]. by exists rest.
Qed.

Lemma valid_name_no_sep name ext :
  validateContextName name = Ok tt ->
  has_byte filepath.sep ext = false ->
  has_byte filepath.sep (name +:+ ext) = false.
Proof.
  intros Hv Hext. rewrite has_byte_app, Hext, orb_false_r.
  rewrite <- Contains_byte. unfold validateContextName in Hv.
  change (String filepath.sep EmptyString) with "/".
  destruct (strings.Contains name "/"); [|done].
  by repeat case_match.
Qed.

(** The state update of [RenameContext] does not touch context files. *)
Lemma keeps_context_SaveState m name ext s :
  separated m ->
  validateContextName name = Ok tt ->
  keeps (filepath.Join (config.GetContextsDir (paths m) (useProject m))
                       (name +:+ ext))
        (State_SaveState s
           (config.GetStateFilePath (paths m) (useProject m))).
Proof.
  intros Hsep Hv. rewrite (sep_state m Hsep).
  destruct (context_ne_state
              (config.GetContextsDir (paths m) (useProject m)) name ext Hv)
    as [Hne Hnet].
  apply keeps_SaveState; [done|done|].
  rewrite Dir_Join by (apply Hsep || done). rewrite Join_length. lia.
Qed.

(** C10.  Take a context stored as [oldName.jsonc] only, which
    [GetContext] reads, a valid new name with nothing at [newName.json], and
    an existing contexts directory.  [RenameContext] renames the file to
    [newName.json]: whatever it returns, afterwards the old content is at
    [newName.json] and nothing is at [oldName.jsonc].  Since encoding/json
    rejects input that starts with [//], if the content starts with comment
    lines [GetContext] of the new name then fails with [InvalidContent]:
    the file is now read as plain JSON, without comment removal. *)
Theorem rename_targets_json
    (homeDir currentDir : string) (project : bool) (w : World)
    (oldName newName data : string) (ctx : Context) :
  let m := NewManager homeDir currentDir project in
  let o := RenameContext m oldName newName w in
  (forall rest, unmarshalDoc ("//" +:+ rest) = None) ->
  validateContextName newName = Ok tt ->
  files w !! json_path m oldName = None ->
  files w !! jsonc_path m oldName = Some (os.File data) ->
  res (GetContext m oldName w) = Ok ctx ->
  files w !! json_path m newName = None ->
  files w !! config.GetContextsDir (paths m) (useProject m)
  = Some os.Directory ->
  os.SysRename (jsonc_path m oldName) (json_path m newName) ∈ calls o
  /\ files (world o) !! json_path m newName = Some (os.File data)
  /\ files (world o) !! jsonc_path m oldName = None
  /\ (strings.HasPrefix data "//" = true ->
      res (GetContext m newName (world o))
      = Err (InvalidContent newName)).
Proof.
  intros m o Hjson Hvn Hoj Hoc Hg Hnj Hdir.
  pose proof (NewManager_separated homeDir currentDir project) as Hsep.
  fold m in Hsep. clearbody m.
  destruct (GetContext_ok _ _ _ _ Hg) as (Hvo & _ & _ & _).
  assert (FilePath ctx = jsonc_path m oldName) as Hpath.
  { rewrite (GetContext_jsonc _ _ _ _ Hvo Hoj Hoc) in Hg. cbn in Hg.
    destruct (unmarshalDoc _); by simplify_eq. }
  assert (json_path m newName ≠ jsonc_path m oldName) as Hne
    by apply json_ne_jsonc_path.
  assert (os.rename (files w) (jsonc_path m oldName) (json_path m newName)
          = inr (<[json_path m newName := os.File data]>
                   (delete (jsonc_path m oldName) (files w)))) as Hren.
  { unfold os.rename. rewrite Hoc, Hnj. unfold json_path at 1.
    rewrite Dir_Join;
      [|apply Hsep|by apply valid_name_no_sep].
    unfold os.dir_exists. by rewrite Hdir, orb_true_r. }
  assert (os.SysRename (jsonc_path m oldName) (json_path m newName) ∈ calls o
          /\ files (world o) !! json_path m newName = Some (os.File data)
          /\ files (world o) !! jsonc_path m oldName = None)
    as (Hcall & Hnew & Hold).
  { subst o. unfold RenameContext. rewrite Hvo, Hvn. cbn.
    pose proof (GetContext_world m oldName w) as Hgw.
    destruct (GetContext m oldName w) as [[ctx'|e] w1 c1]; cbn in *;
      simplify_eq.
    fold (json_path m newName). unfold os.stat. rewrite Hnj. cbn.
    rewrite Hpath, Hren. cbn.
    set (w1 := with_files w _).
    pose proof (LoadState_world
      (config.GetStateFilePath (paths m) (useProject m)) w1) as Hlw.
    destruct (LoadState _ w1) as [[st|e] w2 c2]; cbn in *; subst w2.
    2:{ subst w1. cbn. split_and!.
        - set_solver.
        - apply lookup_insert_eq.
        - by rewrite lookup_insert_ne, lookup_delete_eq. }
    destruct (_ || _); cbn; out_simpl.
    - unfold json_path, jsonc_path.
      rewrite !(keeps_context_SaveState m _ _ _ Hsep) by done.
      fold (json_path m newName) (jsonc_path m oldName). subst w1. cbn.
      split_and!.
      + set_solver.
      + apply lookup_insert_eq.
      + by rewrite lookup_insert_ne, lookup_delete_eq.
    - subst w1. cbn. split_and!.
      + set_solver.
      + apply lookup_insert_eq.
      + by rewrite lookup_insert_ne, lookup_delete_eq. }
  split_and!; [done..|].
  intros [rest ->]%HasPrefix_inv.
  rewrite (GetContext_json _ _ _ _ Hvn Hnew). cbn. by rewrite Hjson.
Qed.

End rename_claims.

Lemma rename_targets_json_witness :
  let o := RenameContext (H:=Sample.json) Example.mgr "old" "new"
             Example.commented in
  files (world o) !! filepath.Join Example.settings "new.json"
  = Some (os.File (header "old" FormatJSONC Example.t0 +:+ "{}"))
  /\ res (GetContext (H:=Sample.json) Example.mgr "new" (world o))
     = Err (InvalidContent "new").
Proof.
  destruct (rename_targets_json (H:=Sample.json) "/home/u" "/work" false
              Example.commented "old" "new"
              (header "old" FormatJSONC Example.t0 +:+ "{}")
              (mkContext (H:=Sample.json) "old" ∅
                 (filepath.Join Example.settings "old.jsonc")))
    as (_ & Hnew & _ & Hget).
  - intros rest. reflexivity.
  - reflexivity.
  - reflexivity.
  - reflexivity.
  - reflexivity.
  - reflexivity.
  - reflexivity.
  - split; [exact Hnew|]. apply Hget. reflexivity.
Defined.

(** * JSONC contexts: the comment header *)

Section header_facts.

Implicit Types s line body : string.

Lemma Split_cons c s :
  strings.Split (String c s) strings.nl
  = if Ascii.eqb c strings.nl then EmptyString :: strings.Split s strings.nl
    else match strings.Split s strings.nl with
         | l :: ls => String c l :: ls
         | [] => [String c EmptyString]
         end.
Proof. reflexivity. Qed.

(** The text before the first line feed is the first line. *)
Lemma Split_line line s :
  has_byte strings.nl line = false ->
  strings.Split (line +:+ String strings.nl s) strings.nl
  = line :: strings.Split s strings.nl.
Proof.
  induction line as [|c line IH]; intros Hl.
  - rewrite app_nil_l, Split_cons. by rewrite Ascii.eqb_refl.
  - cbn [has_byte] in Hl. apply orb_false_iff in Hl as [Hc Hl].
    rewrite app_cons, Split_cons, (IH Hl).
    rewrite Ascii.eqb_sym in Hc. by rewrite Hc.
Qed.

Lemma Join_cons_cons a b l sep :
  strings.Join (a :: b :: l) sep = a +:+ sep +:+ strings.Join (b :: l) sep.
Proof. reflexivity. Qed.

(** Joining the lines of a text gives the text back. *)
Lemma Join_Split s : strings.Join (strings.Split s strings.nl) strings.LF = s.
Proof.
  induction s as [|c s IH]; [done|].
  rewrite Split_cons.
  destruct (Ascii.eqb_spec c strings.nl) as [->|Hc].
  - destruct (strings.Split s strings.nl) as [|l ls] eqn:E.
    + by destruct s; cbn in E; repeat case_match.
    + rewrite Join_cons_cons, IH. reflexivity.
  - destruct (strings.Split s strings.nl) as [|l ls] eqn:E.
    + by destruct s; cbn in E; repeat case_match.
    + destruct ls as [|l' ls].
      * unfold strings.Join in *. cbn in *. by subst.
      * rewrite Join_cons_cons in *. rewrite app_cons. by rewrite IH.
Qed.

Lemma TrimLeftSpace_slash s :
  strings.TrimLeftSpace (String "/" s) = String "/" s.
Proof. by destruct s as [|c2 [|c3 s]]. Qed.

(** A line that starts with [//] is a comment line for [GetContext]. *)
Lemma comment_line s :
  strings.HasPrefix (strings.TrimSpace ("//" +:+ s)) "//" = true.
Proof.
  unfold strings.TrimSpace.
  rewrite !app_cons, app_nil_l, TrimLeftSpace_slash.
  unfold strings.TrimRightSpace; fold strings.TrimRightSpace.
  unfold strings.all_space. rewrite !TrimLeftSpace_slash.
  unfold strings.HasPrefix. cbn. apply prefix_nil.
Qed.

Lemma digit_not_nl n : Ascii.eqb strings.nl (time.digit n) = false.
Proof.
  unfold time.digit.
  assert (n mod 10 < 10) as Hlt by (apply Nat.mod_upper_bound; lia).
  destruct (n mod 10) as [|[|[|[|[|[|[|[|[|[|k]]]]]]]]]]; (done || lia).
Qed.

Lemma pad2_no_nl n : has_byte strings.nl (time.pad2 n) = false.
Proof. unfold time.pad2. cbn [has_byte]. by rewrite !digit_not_nl. Qed.

Lemma Format_no_nl t : has_byte strings.nl (time.Format t) = false.
Proof.
  unfold time.Format, time.pad4.
  repeat (rewrite ?has_byte_app, ?app_cons, ?app_nil_l; cbn [has_byte];
          rewrite ?digit_not_nl, ?pad2_no_nl; cbn [orb]).
  reflexivity.
Qed.

Lemma filter_all_true {A} (f : A -> bool) l :
  forallb f l = true -> List.filter f l = l.
Proof.
  induction l as [|x l IH]; cbn; [done|].
  intros [-> Hl]%andb_true_iff. by rewrite IH.
Qed.

(** Reading strips the header [CreateContextWithFormat] wrote, when the
    name has no line feed in it and no line of the body is a comment
    line. *)
Lemma strip_comments_header name format t body :
  has_byte strings.nl name = false ->
  format = FormatJSON \/ format = FormatJSONC ->
  forallb (fun line => negb (strings.HasPrefix (strings.TrimSpace line) "//"))
          (strings.Split body strings.nl) = true ->
  strip_comments (header name format t +:+ body) = body.
Proof.
  intros Hname Hformat Hbody. unfold strip_comments, header, strings.LF.
  rewrite !app_assoc.
  change (String strings.nl EmptyString +:+ body) with (String strings.nl body).
  repeat match goal with
  | |- context [String strings.nl EmptyString +:+ ?s] =>
      change (String strings.nl EmptyString +:+ s) with (String strings.nl s)
  end.
  rewrite <- (app_assoc "// opencode context: " name).
  rewrite Split_line by (rewrite has_byte_app, Hname; done).
  rewrite <- (app_assoc "// Format: " (DisplayName format)).
  rewrite Split_line by (by destruct Hformat as [-> | ->]).
  rewrite <- (app_assoc "// Created: " (time.Format t)).
  rewrite Split_line by (rewrite has_byte_app, Format_no_nl; done).
  cbn [List.filter].
  change ("// opencode context: " +:+ name)
    with ("//" +:+ (" opencode context: " +:+ name)).
  change ("// Format: " +:+ DisplayName format)
    with ("//" +:+ (" Format: " +:+ DisplayName format)).
  change ("// Created: " +:+ time.Format t)
    with ("//" +:+ (" Created: " +:+ time.Format t)).
  rewrite !comment_line. cbn [negb].
  rewrite filter_all_true by done. apply Join_Split.
Qed.

End header_facts.

Section jsonc_round_trip.

Context `{JSON}.

Implicit Types m : Manager.
Implicit Types w : World.

(** A successful create leaves nothing under the name in the other
    format. *)
Lemma Create_other_format m name format w f :
  res (CreateContextWithFormat m name format w) = Ok tt ->
  f ∈ GetAllFormats -> f ≠ format ->
  files (world (CreateContextWithFormat m name format w))
    !! context_path m name f = None.
Proof.
  intros Hok Hf Hne.
  destruct (Create_ok m name format w Hok)
    as (_ & _ & _ & _ & Hv & Hformat & _).
  revert Hok. rewrite Create_unfold. rewrite Hv. cbn.
  unfold config.EnsureDirectories.
  destruct (config.mkdir_each _ w) as [[[]|e] w1 c1]; [|done]. cbn.
  pose proof (check_free_world
    (config.GetContextsDir (paths m) (useProject m)) name GetAllFormats w1)
    as Hfw.
  pose proof (check_free_ok
    (config.GetContextsDir (paths m) (useProject m)) name GetAllFormats w1)
    as Hfree.
  destruct (check_free _ _ _ w1) as [[[]|e] w2 c2]; [|done].
  cbn in Hfw, Hfree. subst w2. cbn.
  specialize (Hfree f eq_refl Hf). fold (context_path m name f) in Hfree.
  assert (context_path m name f ≠ context_path m name format) as Hp.
  { unfold context_path. intros Heq%Join_inj%String.app_inj.
    apply elem_of_cons in Hf as [->|Hf].
    - destruct Hformat as [->| ->]; done.
    - apply list_elem_of_singleton in Hf as ->.
      destruct Hformat as [->| ->]; done. }
  assert (context_path m name f ≠ context_path m name format +:+ ".tmp")
    as Ht.
  { unfold context_path. intros Heq. apply (f_equal String.length) in Heq.
    rewrite !length_app, !Join_length, !length_app in Heq.
    apply elem_of_cons in Hf as [->|Hf].
    - destruct Hformat as [->| ->]; cbn in Heq; lia.
    - apply list_elem_of_singleton in Hf as ->.
      destruct Hformat as [->| ->]; cbn in Heq; lia. }
  unfold os.stat.
  destruct (files w1 !! config.GetActiveConfigPath _ _) as [n|] eqn:Ea;
    cbn.
  2:{ unfold os.missing. destruct (os.blocked _ _); cbn; [|done].
      unfold os.read_file. rewrite Ea. done. }
  unfold os.read_file. rewrite Ea.
  destruct n as [src|]; cbn; [|done].
  destruct (unmarshalDoc src) as [jsonData|] eqn:Eu; cbn; [|done].
  destruct format as [|[p|p|]|p]; cbn; try done;
    (destruct (marshalIndentDoc jsonData) as [formattedJSON|] eqn:Em;
     cbn; [|done]);
    out_simpl; intros _;
    by rewrite atomic_write_frame.
Qed.

(** The round trip of a JSONC context, for a name without a line feed.
    After a successful [CreateContextWithFormat] in the JSONC format,
    [GetContext] returns the document the active configuration decoded to,
    provided the encoder's output has no comment line and decodes back to
    the document.  The header is removed by the reader. *)
Lemma jsonc_round_trip m name w :
  has_byte strings.nl name = false ->
  res (CreateContextWithFormat m name FormatJSONC w) = Ok tt ->
  exists src jsonData formattedJSON,
    files w !! config.GetActiveConfigPath (paths m) (useProject m)
    = Some (os.File src)
    /\ unmarshalDoc src = Some jsonData
    /\ marshalIndentDoc jsonData = Some formattedJSON
    /\ (forallb
          (fun line =>
             negb (strings.HasPrefix (strings.TrimSpace line) "//"))
          (strings.Split formattedJSON strings.nl) = true ->
        unmarshalDoc formattedJSON = Some jsonData ->
        res (GetContext m name
               (world (CreateContextWithFormat m name FormatJSONC w)))
        = Ok (mkContext name jsonData (jsonc_path m name))).
Proof.
  intros Hname Hok.
  destruct (Create_ok m name FormatJSONC w Hok)
    as (src & jsonData & formattedJSON & pre & Hv & _ & _ & _
        & Ha & Hu & Hm & _ & _ & Hp).
  exists src, jsonData, formattedJSON. split_and!; [done..|].
  intros Hlines Hrt.
  pose proof (Create_other_format m name FormatJSONC w FormatJSON Hok)
    as Hjson.
  rewrite context_path_json in Hjson. rewrite context_path_jsonc in Hp.
  assert (files (world (CreateContextWithFormat m name FormatJSONC w))
            !! json_path m name = None) as Hj.
  { apply Hjson; [set_solver|done]. }
  rewrite (GetContext_jsonc m name _ _ Hv Hj Hp). cbn.
  unfold formatted. cbn.
  rewrite strip_comments_header by auto. by rewrite Hrt.
Qed.

End jsonc_round_trip.

(** C7 fails on the code for a name with a line feed in it, which
    [validateContextName] accepts.  In [Example.fresh] the active
    configuration decodes to the document [Example.dark]; creating the
    JSONC context named [a], line feed, [b] succeeds, and the header written
    has four lines, the second being [b].  Reading drops the three lines
    that start with [//] and keeps [b] in front of the JSON text:
    [GetContext] then fails with [InvalidContent] instead of returning the
    document. *)
Theorem jsonc_header_broken_by_line_feed :
  let name := Example.two_lines in
  let o := CreateContextWithFormat (H:=Sample.json) Example.mgr name
             FormatJSONC Example.fresh in
  validateContextName name = Ok tt
  /\ unmarshalDoc (JSON:=Sample.json)
       (default EmptyString (Sample.of_doc Example.dark))
     = Some Example.dark
  /\ res o = Ok tt
  /\ (exists data,
        files (world o) !! jsonc_path Example.mgr name = Some (os.File data)
        /\ strip_comments data
           = "b" +:+ strings.LF
             +:+ default EmptyString (Sample.of_doc Example.dark))
  /\ res (GetContext (H:=Sample.json) Example.mgr name (world o))
     = Err (InvalidContent name).
Proof.
  cbv zeta. split_and!; try reflexivity.
  exists (header Example.two_lines FormatJSONC Example.t0
          +:+ default EmptyString (Sample.of_doc Example.dark)).
  split; reflexivity.
Qed.

(** The same create and read with the name [work] returns the document. *)
Example jsonc_round_trip_work :
  let o := CreateContextWithFormat (H:=Sample.json) Example.mgr "work"
             FormatJSONC Example.fresh in
  res (GetContext (H:=Sample.json) Example.mgr "work" (world o))
  = Ok (mkContext (H:=Sample.json) "work" Example.dark
          (jsonc_path Example.mgr "work")).
Proof.
  destruct (jsonc_round_trip (H:=Sample.json) Example.mgr "work"
              Example.fresh)
    as (src & jsonData & formattedJSON & Ha & Hu & Hm & Hget);
    [reflexivity|reflexivity|].
  vm_compute in Ha. injection Ha as <-.
  assert (jsonData = Example.dark) as ->.
  { assert (Some jsonData = Some Example.dark) as Heq
      by (rewrite <- Hu; reflexivity).
    by injection Heq. }
  assert (Some formattedJSON = Sample.of_doc Example.dark) as Hf
    by (rewrite <- Hm; reflexivity).
  vm_compute in Hf. injection Hf as ->.
  apply Hget; reflexivity.
Defined.

(** * Paths of a manager: what [MkdirAll] cannot reach *)

Section paths_more.

(** A path is off the chain of [d] when it is neither [d] nor one of its
    parents: [MkdirAll d] leaves it alone. *)
Lemma keeps_MkdirAll_off k d :
  k ≠ d -> k ∉ filepath.parents d -> keeps k (MkdirAll d).
Proof.
  intros Hd Hp w. unfold MkdirAll, sys_write. cbn.
  destruct (os.mkdir_all _ _) as [e|fs'] eqn:EM; cbn; [done|].
  unfold os.mkdir_all in EM. eapply mkdir_chain_frame; [done|].
  rewrite elem_of_cons. tauto.
Qed.

End paths_more.

(** * The state store: round trip and failure *)

Section state_store_more.

Context `{JSON}.

Implicit Types w : World.

(** A failed commit leaves what was at the path. *)
Lemma atomic_write_err p data w e :
  res (atomic_write p data w) = Err e ->
  files (world (atomic_write p data w)) !! p = files w !! p.
Proof.
  unfold atomic_write, WriteFile, Rename, sys_write. cbn.
  destruct (os.write_file _ _ _) as [e1|fs1] eqn:EW; cbn; [done|].
  destruct (os.rename _ _ _) as [e2|fs2] eqn:ER; cbn; [|done].
  intros _. unfold os.write_file in EW.
  assert (fs1 = <[p +:+ ".tmp" := os.File data]> (files w)) as ->.
  { destruct (files w !! (p +:+ ".tmp")) as [[]|]; try discriminate EW;
      destruct (os.dir_exists _ _); congruence. }
  apply lookup_insert_ne. apply app_ne_self.
Qed.

(** X1. What [State_SaveState] wrote, [LoadState] reads back. *)
Theorem SaveState_then_LoadState (s : State) (stateFilePath : string) w :
  (forall data,
     marshalIndentState s = Some data -> unmarshalState data = Some s) ->
  res (State_SaveState s stateFilePath w) = Ok tt ->
  res (LoadState stateFilePath (world (State_SaveState s stateFilePath w)))
  = Ok s.
Proof.
  intros Hrt Hok. destruct (SaveState_ok _ _ _ Hok) as (data & Hm & Hp & _).
  rewrite LoadState_res, Hp. cbn. rewrite (Hrt _ Hm). done.
Qed.

(** X2. A save that fails leaves the state file as it was. *)
Theorem SaveState_failure_keeps_state_file
    (homeDir currentDir : string) (project : bool) (s : State) w e :
  let m := NewManager homeDir currentDir project in
  let stateFilePath := config.GetStateFilePath (paths m) (useProject m) in
  res (State_SaveState s stateFilePath w) = Err e ->
  files (world (State_SaveState s stateFilePath w)) !! stateFilePath
  = files w !! stateFilePath.
Proof.
  intros m T. pose proof (NewManager_separated homeDir currentDir project)
    as Hsep. fold m in Hsep.
  assert (String.length (filepath.Dir T) < String.length T) as Hlen.
  { subst T. rewrite (sep_state m Hsep), Dir_Join, Join_length;
      [lia|apply Hsep|done]. }
  clearbody T. clear Hsep. rewrite SaveState_unfold.
  intros Herr. apply bind_err_inv in Herr as [[Herr ->]|(r & Hr & Herr & ->)].
  { by apply keeps_MkdirAll. }
  apply bind_err_inv in Herr as [[Herr ->]|([] & Hc & Herr & ->)].
  { rewrite (keeps_check T r). by apply keeps_MkdirAll. }
  rewrite <- (keeps_MkdirAll T (filepath.Dir T) Hlen w).
  rewrite <- (keeps_check T r (world (MkdirAll (filepath.Dir T) w))).
  destruct (marshalIndentState s) as [data|]; [|done].
  by eapply atomic_write_err.
Qed.

End state_store_more.

(** * Switching: what a switch installs and records *)

Section switch_more.

Context `{JSON}.

Implicit Types m : Manager.
Implicit Types w : World.

Lemma keeps_SaveState_off k s p :
  k ≠ p -> k ≠ p +:+ ".tmp" ->
  k ≠ filepath.Dir p -> k ∉ filepath.parents (filepath.Dir p) ->
  keeps k (State_SaveState s p).
Proof.
  intros Hp Ht Hd Hpar w. rewrite SaveState_unfold. revert w.
  keeps_walk ltac:(first [ keeps_leaf | by apply keeps_MkdirAll_off ]).
  destruct (marshalIndentState s); keeps_leaf.
Qed.

(** The copy of a context file over the active configuration. *)
Lemma install_ok a p w :
  res (install a p w) = Ok tt ->
  exists data,
    files w !! p = Some (os.File data)
    /\ files (world (install a p w)) !! a = Some (os.File data)
    /\ files (world (install a p w)) !! (a +:+ ".tmp") = None.
Proof.
  unfold install. cbn.
  destruct (os.mkdir_all (files w) _) as [e|fs1] eqn:EM; cbn; [done|].
  destruct (os.read_file fs1 p) as [e|data] eqn:ER; cbn; [done|].
  out_simpl. intros Hok. exists data.
  destruct (atomic_write_ok _ _ _ Hok) as (Ha & Ht & _). split_and!; [|done..].
  unfold os.read_file in ER.
  destruct (fs1 !! p) as [[d|]|] eqn:E1; try discriminate ER.
  injection ER as ->. unfold os.mkdir_all in EM.
  by eapply mkdir_chain_file.
Qed.

(** [State_SaveState] keeps what exists off its two paths. *)
Lemma SaveState_mono s p w k x :
  k ≠ p -> k ≠ p +:+ ".tmp" ->
  files w !! k = Some x ->
  files (world (State_SaveState s p w)) !! k = Some x.
Proof.
  intros Hp Ht Hk. rewrite SaveState_unfold. cbn.
  destruct (os.mkdir_all (files w) _) as [e|fs1] eqn:EM; cbn; [done|].
  pose proof (mkdir_all_mono _ _ _ _ _ EM Hk) as Hk1.
  destruct (marshalIndentState s) as [data|]; out_simpl; [|done].
  by rewrite atomic_write_frame.
Qed.

(** The active configuration after a successful switch. *)
Lemma SwitchToContext_active m name w :
  separated m ->
  res (SwitchToContext m name w) = Ok tt ->
  exists ctx data,
    res (GetContext m name w) = Ok ctx
    /\ files w !! FilePath ctx = Some (os.File data)
    /\ files (world (SwitchToContext m name w))
         !! config.GetActiveConfigPath (paths m) (useProject m)
       = Some (os.File data).
Proof.
  intros Hsep. rewrite SwitchToContext_unfold.
  intros (ctx & Hg & Hok & -> & _)%bind_ok_inv.
  rewrite GetContext_world in *.
  apply bind_ok_inv in Hok as ([] & Hi & Hok & -> & _).
  cbn zeta in *.
  apply bind_ok_inv in Hok as (state & Hl & Hok & -> & _).
  rewrite LoadState_world in *.
  destruct (install_ok _ _ _ Hi) as (data & Hp & Hact & _).
  exists ctx, data. split_and!; [done..|].
  apply SaveState_mono; [..|done]; rewrite (sep_state m Hsep).
  - symmetry. apply Hsep.
  - unfold filepath.Join. rewrite !app_assoc. symmetry.
    apply (sep_active m Hsep (config.StateFileName +:+ ".tmp")).
Qed.

(** X3. A successful switch copies the bytes of the context file over the
    active configuration, leaves no temporary file, and touches no context
    file. *)
Theorem SwitchToContext_installs
    (homeDir currentDir : string) (project : bool) (name : string) w :
  let m := NewManager homeDir currentDir project in
  let o := SwitchToContext m name w in
  let activeConfigPath :=
    config.GetActiveConfigPath (paths m) (useProject m) in
  let contextsDir := config.GetContextsDir (paths m) (useProject m) in
  res o = Ok tt ->
  (exists ctx data,
     res (GetContext m name w) = Ok ctx
     /\ files w !! FilePath ctx = Some (os.File data)
     /\ files (world o) !! activeConfigPath = Some (os.File data)
     /\ files (world o) !! (activeConfigPath +:+ ".tmp") = None)
  /\ forall other ext,
       validateContextName other = Ok tt ->
       files (world o) !! filepath.Join contextsDir (other +:+ ext)
       = files w !! filepath.Join contextsDir (other +:+ ext).
Proof.
  intros m o A D Hok.
  pose proof (NewManager_separated homeDir currentDir project) as Hsep.
  fold m in Hsep.
  pose proof (sep_active_off m Hsep EmptyString (or_introl eq_refl))
    as [Ha1 Ha2]%not_elem_of_cons.
  pose proof (sep_active_off m Hsep ".tmp" (or_intror eq_refl))
    as [Ht1 Ht2]%not_elem_of_cons.
  rewrite app_nil_r in Ha1, Ha2.
  fold A in Ha1, Ha2, Ht1, Ht2. fold D in Ha1, Ha2, Ht1, Ht2.
  set (T := config.GetStateFilePath (paths m) (useProject m)).
  assert (T = filepath.Join D config.StateFileName) as HT
    by apply (sep_state m Hsep).
  assert (filepath.Dir T = D) as HdirT.
  { rewrite HT. apply Dir_Join; [apply Hsep|done]. }
  assert (T +:+ ".tmp" = filepath.Join D (config.StateFileName +:+ ".tmp"))
    as HTt.
  { rewrite HT. unfold filepath.Join. by rewrite !app_assoc. }
  split.
  - subst o. revert Hok. rewrite SwitchToContext_unfold.
    intros (ctx & Hg & Hok & -> & _)%bind_ok_inv.
    rewrite GetContext_world in *.
    apply bind_ok_inv in Hok as ([] & Hi & Hok & -> & _).
    cbn zeta in *.
    apply bind_ok_inv in Hok as (state & Hl & Hok & -> & _).
    rewrite LoadState_world in *.
    destruct (install_ok _ _ _ Hi) as (data & Hp & Hact & Htmp).
    exists ctx, data. fold m A T. split_and!; [done|done|..].
    + rewrite <- Hact. apply keeps_SaveState_off; rewrite ?HdirT, ?HTt; try done.
      * rewrite HT. symmetry. apply Hsep.
      * symmetry. apply Hsep.
    + rewrite <- Htmp.
      apply keeps_SaveState_off; rewrite ?HdirT, ?HTt; try done.
      * rewrite HT. symmetry. apply Hsep.
      * symmetry. apply Hsep.
  - intros other ext Hv. apply keeps_SwitchToContext; fold A D T; try done.
    + apply Hsep.
    + apply Hsep.
    + rewrite HT. by apply context_ne_state.
    + rewrite HT. by apply context_ne_state.
    + rewrite Join_length. lia.
Qed.

(** X4. A switch to a name that does not resolve fails with the error of
    [GetContext] and changes nothing. *)
Theorem SwitchToContext_unresolved m (name : string) w e :
  res (GetContext m name w) = Err e ->
  res (SwitchToContext m name w) = Err e
  /\ world (SwitchToContext m name w) = w
  /\ calls (SwitchToContext m name w) = calls (GetContext m name w).
Proof.
  intros Hg. rewrite SwitchToContext_unfold. cbn.
  pose proof (GetContext_world m name w) as Hw.
  destruct (GetContext m name w) as [[ctx|e'] w1 c1]; cbn in *; [done|].
  by injection Hg as ->.
Qed.


End switch_more.

(** * Previous-switch: what is installed *)

Section previous_more.

Context `{JSON}.

Implicit Types m : Manager.
Implicit Types w : World.

(** X6. A successful previous-switch installs the previous context: the
    active configuration holds the bytes of the file the previous name
    resolves to. *)
Theorem SwitchToPrevious_installs
    (homeDir currentDir : string) (project : bool) w (a b : string) :
  let m := NewManager homeDir currentDir project in
  let o := SwitchToPrevious m w in
  let stateFilePath := config.GetStateFilePath (paths m) (useProject m) in
  let activeConfigPath :=
    config.GetActiveConfigPath (paths m) (useProject m) in
  res (LoadState stateFilePath w) = Ok (mkState a b) ->
  res o = Ok tt ->
  exists ctx data,
    res (GetContext m b w) = Ok ctx
    /\ files w !! FilePath ctx = Some (os.File data)
    /\ files (world o) !! activeConfigPath = Some (os.File data).
Proof.
  intros m o T A Hl Hok.
  pose proof (NewManager_separated homeDir currentDir project) as Hsep.
  fold m in Hsep. clearbody m.
  destruct (SwitchToPrevious_ok m w Hok)
    as (st & ctx0 & Hst & _ & _ & Hsw & Hw).
  fold T in Hst. rewrite Hl in Hst. injection Hst as <-. cbn in *.
  destruct (SwitchToContext_active m b w Hsep Hsw)
    as (ctx & data & Hg & Hp & Hact).
  exists ctx, data. fold o in Hw. by rewrite Hw.
Qed.

End previous_more.

(** * Listing: every context that resolves is listed *)

Section listing_more.

Context `{JSON}.

Implicit Types m : Manager.
Implicit Types w : World.

Lemma strip_prefix_app pre r : os.strip_prefix pre (pre +:+ r) = Some r.
Proof.
  induction pre as [|a pre IH]; [by destruct r|].
  rewrite app_cons. cbn. by rewrite Ascii.eqb_refl.
Qed.

Lemma entries_complete fs d name n :
  fs !! filepath.Join d name = Some n ->
  os.is_element name = true ->
  os.mkDirEntry name (os.is_directory n) ∈ os.entries fs d.
Proof.
  intros Hn He. unfold os.entries. rewrite merge_sort_Permutation.
  apply list_elem_of_omap. exists (filepath.Join d name, n). split.
  - by apply elem_of_map_to_list.
  - unfold os.entry_of. cbn. unfold filepath.Join.
    rewrite <- app_assoc, strip_prefix_app, He. done.
Qed.

Lemma HasSuffix_jsonc_json p :
  strings.HasSuffix (p +:+ ".jsonc") ".json" = false.
Proof.
  destruct (strings.HasSuffix _ _) eqn:E; [|done].
  apply HasSuffix_inv in E as [q Hq]. symmetry in Hq.
  by apply json_ne_jsonc in Hq.
Qed.

Lemma valid_name_element name ext :
  validateContextName name = Ok tt ->
  has_byte filepath.sep ext = false ->
  os.is_element (name +:+ ext) = true.
Proof.
  intros Hv Hext. pose proof (valid_name_no_sep name ext Hv Hext) as Hs.
  destruct (valid_name_cons name Hv) as (c & rest & -> & Hc).
  unfold os.is_element.
  change "/" with (String filepath.sep EmptyString).
  rewrite Contains_byte, Hs, app_cons. cbn.
  rewrite !andb_true_r.
  assert (forall t, String.eqb (String c (rest +:+ ext)) (String "." t)
                    = false) as Hne.
  { intros t. apply eqb_false_ne. congruence. }
  rewrite !Hne.
  by rewrite (eqb_false_ne (String c (rest +:+ ext)) EmptyString).
Qed.

Lemma list_entries_member d es e ext :
  e ∈ es -> os.IsDir e = false -> os.Name e ≠ config.StateFileName ->
  (ext = ".json" /\ strings.HasSuffix (os.Name e) ".json" = true)
  \/ (ext = ".jsonc" /\ strings.HasSuffix (os.Name e) ".json" = false
      /\ strings.HasSuffix (os.Name e) ".jsonc" = true) ->
  mkContext (strings.TrimSuffix (os.Name e) ext) nilDoc
    (filepath.Join d (os.Name e)) ∈ list_entries d es.
Proof.
  intros Hin Hd Hs Hx. induction es as [|e' es IH]; [by inversion Hin|].
  apply elem_of_cons in Hin as [<-|Hin].
  - cbn. rewrite Hd, (eqb_false_ne _ _ Hs).
    destruct Hx as [[-> ->]|(-> & -> & ->)]; by left.
  - cbn. specialize (IH Hin).
    destruct (os.IsDir e'); [done|].
    destruct (String.eqb _ config.StateFileName); [done|].
    destruct (strings.HasSuffix (os.Name e') ".json"); [by right|].
    destruct (strings.HasSuffix (os.Name e') ".jsonc"); [by right|done].
Qed.

(** X18. In an existing contexts directory, every name [GetContext]
    resolves is in the listing, with the file it resolved to; when the
    stat of the directory reports that it does not exist the listing is
    empty and no error. *)
Theorem GetContext_listed m (name : string) w :
  let contextsDir := config.GetContextsDir (paths m) (useProject m) in
  (files w !! contextsDir = None ->
   os.blocked (files w) contextsDir = false ->
   ListContexts m w = out (Ok []) w [os.SysStat contextsDir])
  /\ (forall ctx,
        files w !! contextsDir = Some os.Directory ->
        res (GetContext m name w) = Ok ctx ->
        exists contexts c,
          res (ListContexts m w) = Ok contexts
          /\ c ∈ contexts
          /\ Name c = name
          /\ FilePath c = FilePath ctx).
Proof.
  intros D. split.
  { intros Hd Hb. unfold ListContexts. fold D. cbn.
    unfold os.stat, os.missing. by rewrite Hd, Hb. }
  intros ctx Hd Hg.
  destruct (GetContext_ok _ _ _ _ Hg) as (Hv & _ & Hpath & data & Hdata).
  unfold ListContexts. fold D. cbn. unfold os.stat. rewrite Hd. cbn.
  unfold os.read_dir, os.dir_exists. rewrite Hd, orb_true_r. cbn.
  assert (exists ext,
            FilePath ctx = filepath.Join D (name +:+ ext)
            /\ has_byte filepath.sep ext = false
            /\ ((ext = ".json"
                 /\ strings.HasSuffix (name +:+ ext) ".json" = true)
                \/ (ext = ".jsonc"
                    /\ strings.HasSuffix (name +:+ ext) ".json" = false
                    /\ strings.HasSuffix (name +:+ ext) ".jsonc" = true)))
    as (ext & Hp & Hsep & Hext).
  { destruct Hpath as [Hp|Hp].
    - exists ".json". split_and!; [done|done|]. left.
      split; [done|]. apply HasSuffix_app.
    - exists ".jsonc". split_and!; [done|done|]. right.
      split_and!; [done|apply HasSuffix_jsonc_json|apply HasSuffix_app]. }
  rewrite Hp in Hdata.
  pose proof (entries_complete _ _ _ _ Hdata
                (valid_name_element name ext Hv Hsep)) as Hin.
  cbn in Hin.
  exists (list_entries D (os.entries (files w) D)),
    (mkContext (strings.TrimSuffix (name +:+ ext) ext) nilDoc
       (filepath.Join D (name +:+ ext))).
  split_and!; [done|..].
  - apply (list_entries_member D _ (os.mkDirEntry (name +:+ ext) false) ext);
      cbn; try done.
    destruct (valid_name_cons name Hv) as (c & rest & -> & Hc).
    rewrite app_cons. unfold config.StateFileName. congruence.
  - cbn. apply TrimSuffix_app.
  - by rewrite Hp.
Qed.

End listing_more.

(** * Comment removal *)

Section strip_more.

Lemma Split_ne_nil s : strings.Split s strings.nl ≠ [].
Proof.
  destruct s as [|c s]; [done|]. rewrite Split_cons.
  destruct (Ascii.eqb c strings.nl); [done|].
  by destruct (strings.Split s strings.nl).
Qed.

Lemma Split_lines_no_nl s :
  Forall (fun line => has_byte strings.nl line = false)
         (strings.Split s strings.nl).
Proof.
  induction s as [|c s IH]; [by repeat constructor|].
  rewrite Split_cons. destruct (Ascii.eqb_spec c strings.nl) as [->|Hc].
  - by constructor.
  - destruct (strings.Split s strings.nl) as [|l ls].
    + repeat constructor. cbn [has_byte]. rewrite orb_false_r.
      apply Ascii.eqb_neq. congruence.
    + inversion IH as [|? ? Hl Hls]; subst. constructor; [|done].
      cbn [has_byte]. rewrite Hl, orb_false_r. apply Ascii.eqb_neq.
      congruence.
Qed.

Lemma Split_no_nl line :
  has_byte strings.nl line = false ->
  strings.Split line strings.nl = [line].
Proof.
  induction line as [|c line IH]; [done|].
  cbn [has_byte]. intros [Hc Hl]%orb_false_iff.
  rewrite Split_cons, (IH Hl). rewrite Ascii.eqb_sym in Hc. by rewrite Hc.
Qed.

(** Splitting what was joined gives the lines back. *)
Lemma Split_Join lines :
  lines ≠ [] ->
  Forall (fun line => has_byte strings.nl line = false) lines ->
  strings.Split (strings.Join lines strings.LF) strings.nl = lines.
Proof.
  intros Hne Hl. induction Hl as [|a l Ha Hl IH]; [done|].
  destruct l as [|b l].
  - unfold strings.Join. cbn. by apply Split_no_nl.
  - rewrite Join_cons_cons. unfold strings.LF at 1.
    rewrite app_cons, app_nil_l, Split_line by done.
    by rewrite IH.
Qed.

Lemma filter_filter_same {A} (f : A -> bool) l :
  List.filter f (List.filter f l) = List.filter f l.
Proof.
  induction l as [|a l IH]; [done|]. cbn.
  destruct (f a) eqn:E; [|done]. cbn. by rewrite E, IH.
Qed.

(** X19. The comment removal of [GetContext] leaves a text with no
    comment line as it is, and removing twice is removing once. *)
Theorem strip_comments_idempotent (data : string) :
  strip_comments (strip_comments data) = strip_comments data
  /\ (forallb
        (fun line => negb (strings.HasPrefix (strings.TrimSpace line) "//"))
        (strings.Split data strings.nl) = true ->
      strip_comments data = data).
Proof.
  unfold strip_comments. split.
  - set (f := fun line => negb (strings.HasPrefix (strings.TrimSpace line)
                                  "//")).
    pose proof (Split_lines_no_nl data) as Hl.
    set (l := strings.Split data strings.nl) in *.
    destruct (List.filter f l) as [|a l'] eqn:E.
    { reflexivity. }
    rewrite Split_Join.
    + rewrite <- E. apply f_equal2; [|done]. apply filter_filter_same.
    + done.
    + rewrite <- E. rewrite Forall_forall in Hl |- *.
      intros x Hx%list_elem_of_In%filter_In. apply Hl.
      apply list_elem_of_In. tauto.
  - intros Hall. rewrite filter_all_true by done. apply Join_Split.
Qed.

End strip_more.

(** * Unsetting the current context *)

#[global] Arguments clear_active : simpl never.

Section unset_more.

Context `{JSON}.

Implicit Types m : Manager.
Implicit Types w : World.

Lemma Unset_unfold m w :
  UnsetCurrentContext m w
  = (let! _ := clear_active
                 (config.GetActiveConfigPath (paths m) (useProject m)) in
     let stateFilePath := config.GetStateFilePath (paths m) (useProject m) in
     let! state := LoadState stateFilePath in
     State_SaveState (State_Unset state) stateFilePath) w.
Proof.
  unfold UnsetCurrentContext, clear_active. by rewrite bind_assoc.
Qed.

Lemma clear_active_ok a w :
  res (clear_active a w) = Ok tt ->
  files (world (clear_active a w)) = delete a (files w).
Proof.
  unfold clear_active, Stat, Remove, sys_read, sys_write. cbn.
  unfold os.stat. destruct (files w !! a) as [n|] eqn:Ea; cbn.
  - destruct (os.remove (files w) a) as [e|fs'] eqn:ER; cbn; [done|].
    intros _. unfold os.remove in ER. rewrite Ea in ER.
    destruct n; [congruence|]. destruct (os.entries _ _); congruence.
  - intros _. by rewrite delete_id.
Qed.

Lemma keeps_clear_active k a : k ≠ a -> keeps k (clear_active a).
Proof.
  intros Hk w. unfold clear_active, Stat, Remove, sys_read, sys_write. cbn.
  unfold os.stat. destruct (files w !! a) as [n|] eqn:Ea; cbn; [|done].
  destruct (os.remove (files w) a) as [e|fs'] eqn:ER; cbn; [done|].
  unfold os.remove in ER. rewrite Ea in ER.
  assert (fs' = delete a (files w)) as ->.
  { destruct n; [congruence|]. destruct (os.entries _ _); congruence. }
  by apply lookup_delete_ne.
Qed.

(** What a successful [UnsetCurrentContext] leaves. *)
Lemma Unset_inv homeDir currentDir project w :
  let m := NewManager homeDir currentDir project in
  let o := UnsetCurrentContext m w in
  let activeConfigPath :=
    config.GetActiveConfigPath (paths m) (useProject m) in
  let stateFilePath := config.GetStateFilePath (paths m) (useProject m) in
  res o = Ok tt ->
  files (world o) !! activeConfigPath = None
  /\ exists state data,
       res (LoadState stateFilePath w) = Ok state
       /\ marshalIndentState (State_Unset state) = Some data
       /\ files (world o) !! stateFilePath = Some (os.File data).
Proof.
  intros m o A T Hok.
  pose proof (NewManager_separated homeDir currentDir project) as Hsep.
  fold m in Hsep.
  pose proof (sep_active_off m Hsep EmptyString (or_introl eq_refl))
    as [Ha1 Ha2]%not_elem_of_cons.
  rewrite app_nil_r in Ha1, Ha2. fold A in Ha1, Ha2.
  set (D := config.GetContextsDir (paths m) (useProject m)) in *.
  assert (T = filepath.Join D config.StateFileName) as HT
    by apply (sep_state m Hsep).
  assert (filepath.Dir T = D) as HdirT.
  { rewrite HT. apply Dir_Join; [apply Hsep|done]. }
  assert (T +:+ ".tmp" = filepath.Join D (config.StateFileName +:+ ".tmp"))
    as HTt.
  { rewrite HT. unfold filepath.Join. by rewrite !app_assoc. }
  assert (A ≠ T) as HAT. { rewrite HT. symmetry. apply Hsep. }
  subst o. revert Hok. rewrite Unset_unfold. fold A T.
  intros ([] & Hc & Hok & -> & _)%bind_ok_inv. cbn zeta in *.
  apply bind_ok_inv in Hok as (state & Hl & Hok & -> & _).
  rewrite LoadState_world in *.
  destruct (SaveState_ok _ _ _ Hok) as (data & Hm & Hp & _).
  split.
  - rewrite keeps_SaveState_off; rewrite ?HdirT, ?HTt; try done.
    + rewrite (clear_active_ok _ _ Hc). apply lookup_delete_eq.
    + symmetry. apply Hsep.
  - exists state, data. split_and!; [|done..].
    rewrite <- Hl. symmetry. apply LoadState_keeps.
    + by apply keeps_clear_active.
    + intros a Ha. apply keeps_keeps_file, keeps_clear_active.
      rewrite <- (app_nil_r A).
      apply above_state_ne_active; [done|by left|done].
Qed.

(** X8. A successful unset removes the active configuration and records
    an empty current name, with what was current as previous; it touches no
    context file. *)
Theorem UnsetCurrentContext_clears
    (homeDir currentDir : string) (project : bool) w (state : State) :
  let m := NewManager homeDir currentDir project in
  let o := UnsetCurrentContext m w in
  let activeConfigPath :=
    config.GetActiveConfigPath (paths m) (useProject m) in
  let stateFilePath := config.GetStateFilePath (paths m) (useProject m) in
  let contextsDir := config.GetContextsDir (paths m) (useProject m) in
  (forall data,
     marshalIndentState (mkState EmptyString (Current state)) = Some data ->
     unmarshalState data = Some (mkState EmptyString (Current state))) ->
  res (LoadState stateFilePath w) = Ok state ->
  res o = Ok tt ->
  files (world o) !! activeConfigPath = None
  /\ res (LoadState stateFilePath (world o))
     = Ok (mkState EmptyString (Current state))
  /\ forall other ext,
       validateContextName other = Ok tt ->
       files (world o) !! filepath.Join contextsDir (other +:+ ext)
       = files w !! filepath.Join contextsDir (other +:+ ext).
Proof.
  intros m o A T D Hrt Hl Hok.
  destruct (Unset_inv homeDir currentDir project w Hok)
    as (Ha & state' & data & Hl' & Hm & Hf).
  fold m A T o in Ha, Hl', Hf. rewrite Hl in Hl'. injection Hl' as <-.
  split_and!; [done|..].
  - rewrite LoadState_res, Hf. cbn. by rewrite (Hrt _ Hm).
  - intros other ext Hv.
    pose proof (NewManager_separated homeDir currentDir project) as Hsep.
    fold m in Hsep. subst o. rewrite Unset_unfold. fold A T.
    assert (keeps (filepath.Join D (other +:+ ext))
              (let! _ := clear_active A in
               let! state := LoadState T in
               State_SaveState (State_Unset state) T)) as Hk;
      [|by apply Hk].
    keeps_walk ltac:(first
      [ keeps_leaf
      | apply keeps_clear_active; apply Hsep
      | by apply keeps_context_SaveState ]).
Qed.

(** X7. With no previous context on record, a previous-switch fails with
    [NoPreviousContext] after reading the state file, and changes
    nothing. *)
Theorem SwitchToPrevious_without_previous m w (state : State) :
  let stateFilePath := config.GetStateFilePath (paths m) (useProject m) in
  res (LoadState stateFilePath w) = Ok state ->
  Previous state = EmptyString ->
  res (SwitchToPrevious m w) = Err NoPreviousContext
  /\ world (SwitchToPrevious m w) = w
  /\ calls (SwitchToPrevious m w) = calls (LoadState stateFilePath w).
Proof.
  intros T Hl Hp. unfold SwitchToPrevious. fold T. cbn.
  pose proof (LoadState_world T w) as Hw.
  destruct (LoadState T w) as [[st|e] w1 c1]; cbn in *; [|done].
  injection Hl as ->. subst w1. unfold State_SwitchToPrevious.
  rewrite Hp, String.eqb_refl. cbn. by rewrite List.app_nil_r.
Qed.

(** X9. Unset, then switch to previous: the context that was current is
    current again, and nothing is on record as previous. *)
Theorem unset_then_previous
    (homeDir currentDir : string) (project : bool) w (a b : string) :
  let m := NewManager homeDir currentDir project in
  let stateFilePath := config.GetStateFilePath (paths m) (useProject m) in
  let o1 := UnsetCurrentContext m w in
  let o2 := SwitchToPrevious m (world o1) in
  (forall s data,
     s = mkState EmptyString a \/ s = mkState a EmptyString ->
     marshalIndentState s = Some data -> unmarshalState data = Some s) ->
  res (LoadState stateFilePath w) = Ok (mkState a b) ->
  res o1 = Ok tt ->
  res o2 = Ok tt ->
  res (LoadState stateFilePath (world o2)) = Ok (mkState a EmptyString)
  /\ res (GetCurrentContext m (world o2)) = Ok a
  /\ a ≠ EmptyString.
Proof.
  intros m T o1 o2 Hrt Hl Hok1 Hok2.
  pose proof (NewManager_separated homeDir currentDir project) as Hsep.
  fold m in Hsep.
  destruct (Unset_inv homeDir currentDir project w Hok1)
    as (_ & state' & data & Hl' & Hm & Hf).
  fold m T o1 in Hl', Hf. rewrite Hl in Hl'. injection Hl' as <-.
  assert (res (LoadState T (world o1)) = Ok (mkState EmptyString a)) as Hl1.
  { rewrite LoadState_res, Hf. cbn.
    rewrite (Hrt (mkState EmptyString a) data); [done|by left|done]. }
  assert (res (LoadState T (world o2)) = Ok (mkState a EmptyString)) as Hl2.
  { apply (SwitchToPrevious_exchanges m (world o1) EmptyString a);
      try done.
    intros d Hd. apply Hrt; [by right|done]. }
  split_and!; [done|..].
  - unfold GetCurrentContext. fold T. cbn.
    destruct (LoadState T (world o2)) as [[s|e] w1 c1]; cbn in *; [|done].
    by injection Hl2 as ->.
  - destruct (SwitchToPrevious_ok m (world o1) Hok2)
      as (st & ctx & Hst & Hne & _).
    fold T in Hst. rewrite Hl1 in Hst. by injection Hst as <-.
Qed.

End unset_more.

(** * Renaming: what a rename moves and records *)

Section rename_more.

Context `{JSON}.

Implicit Types m : Manager.
Implicit Types w : World.

Lemma app_inv_tail a b s : a +:+ s = b +:+ s -> a = b.
Proof.
  intros Heq. rewrite <- (TrimSuffix_app a s), <- (TrimSuffix_app b s).
  by rewrite Heq.
Qed.

(** The steps of a successful [RenameContext]. *)
Lemma Rename_inv m oldName newName w :
  let o := RenameContext m oldName newName w in
  let stateFilePath := config.GetStateFilePath (paths m) (useProject m) in
  res o = Ok tt ->
  exists ctx data state,
    validateContextName oldName = Ok tt
    /\ validateContextName newName = Ok tt
    /\ res (GetContext m oldName w) = Ok ctx
    /\ files w !! FilePath ctx = Some (os.File data)
    /\ files w !! json_path m newName = None
    /\ let w1 := with_files w (<[json_path m newName := os.File data]>
                                 (delete (FilePath ctx) (files w))) in
       res (LoadState stateFilePath w1) = Ok state
       /\ let s' := mkState
                      (if String.eqb (Current state) oldName
                       then newName else Current state)
                      (if String.eqb (Previous state) oldName
                       then newName else Previous state) in
          if String.eqb (Current state) oldName
             || String.eqb (Previous state) oldName
          then res (State_SaveState s' stateFilePath w1) = Ok tt
               /\ world o = world (State_SaveState s' stateFilePath w1)
          else world o = w1.
Proof.
  intros o T. subst o. unfold RenameContext.
  destruct (validateContextName oldName) as [[]|eo] eqn:Hvo; cbn.
  2:{ destruct eo; cbn; intros [=]. }
  destruct (validateContextName newName) as [[]|en] eqn:Hvn; cbn.
  2:{ destruct en; cbn; intros [=]. }
  pose proof (GetContext_world m oldName w) as Hgw.
  pose proof (GetContext_ok m oldName w) as Hgok.
  destruct (GetContext m oldName w) as [[ctx|e] w1 c1]; cbn in *; [|done].
  subst w1. destruct (Hgok ctx eq_refl) as (_ & _ & Hpath & data & Hdata).
  fold (json_path m newName). unfold os.stat.
  destruct (files w !! json_path m newName) as [n|] eqn:Hnj; cbn; [done|].
  unfold os.rename. rewrite Hdata, Hnj.
  destruct (os.dir_exists _ _); cbn; [|done].
  fold T. set (w1 := with_files w _).
  pose proof (LoadState_world T w1) as Hlw.
  destruct (LoadState T w1) as [[st|e] w2 c2] eqn:EL; cbn in *; [|done].
  subst w2. intros Hok. exists ctx, data, st.
  split_and!; try done.
  { fold w1. by rewrite EL. }
  fold w1. revert Hok. destruct (_ || _); out_simpl; done.
Qed.


(** X11. A rename onto a name that has a [.json] file is refused, and
    nothing is changed. *)
Theorem RenameContext_target_exists m (oldName newName : string) w
    (ctx : Context) (n : os.node) :
  validateContextName newName = Ok tt ->
  res (GetContext m oldName w) = Ok ctx ->
  files w !! json_path m newName = Some n ->
  let o := RenameContext m oldName newName w in
  res o = Err (RenameTargetExists newName)
  /\ world o = w
  /\ forallb reads (calls o) = true.
Proof.
  intros Hvn Hg Hn o.
  destruct (GetContext_ok _ _ _ _ Hg) as (Hvo & _).
  pose proof (GetContext_world m oldName w) as Hgw.
  pose proof (GetContext_reads m oldName w) as Hgr.
  subst o. unfold RenameContext. rewrite Hvo, Hvn. cbn.
  destruct (GetContext m oldName w) as [[ctx'|e] w1 c1]; cbn in *; [|done].
  subst w1. fold (json_path m newName). unfold os.stat. rewrite Hn. cbn.
  split_and!; [done..|]. rewrite forallb_app, Hgr. done.
Qed.

(** X12. The target check of a rename looks at [newName.json] only.  With
    a context stored as [newName.jsonc], when a rename to [newName]
    succeeds both files are there afterwards, and the name resolves to the
    renamed one. *)
Theorem RenameContext_ignores_jsonc_target
    (homeDir currentDir : string) (project : bool) w
    (oldName newName : string) (n : os.node) :
  let m := NewManager homeDir currentDir project in
  let o := RenameContext m oldName newName w in
  oldName ≠ newName ->
  files w !! jsonc_path m newName = Some n ->
  res o = Ok tt ->
  files (world o) !! jsonc_path m newName = Some n
  /\ exists data,
       files (world o) !! json_path m newName = Some (os.File data)
       /\ GetContext m newName (world o)
          = out (read_context newName (json_path m newName) false
                   (os.File data))
                (world o)
                [os.SysStat (json_path m newName);
                 os.SysReadFile (json_path m newName)].
Proof.
  intros m o Hne Hn Hok.
  pose proof (NewManager_separated homeDir currentDir project) as Hsep.
  fold m in Hsep. clearbody m.
  destruct (Rename_inv m oldName newName w Hok)
    as (ctx & data & st & Hvo & Hvn & Hg & Hdata & Hnj & Hl1 & Hrest).
  cbv zeta in Hrest.
  destruct (GetContext_ok _ _ _ _ Hg) as (_ & _ & Hpath & _).
  set (w1 := with_files w (<[json_path m newName := os.File data]>
                             (delete (FilePath ctx) (files w)))) in *.
  assert (FilePath ctx ≠ jsonc_path m newName) as Hoc.
  { destruct Hpath as [-> | ->].
    - apply json_ne_jsonc_path.
    - unfold jsonc_path. intros Heq%Join_inj%app_inv_tail. done. }
  assert (files w1 !! jsonc_path m newName = Some n) as Hc1.
  { subst w1. cbn. rewrite lookup_insert_ne, lookup_delete_ne; try done.
    apply json_ne_jsonc_path. }
  assert (files w1 !! json_path m newName = Some (os.File data)) as Hn1.
  { subst w1. cbn. apply lookup_insert_eq. }
  assert (files (world o) !! jsonc_path m newName = Some n
          /\ files (world o) !! json_path m newName = Some (os.File data))
    as [Hc Hj].
  { fold o in Hrest. destruct (_ || _).
    - destruct Hrest as [_ ->]. rewrite <- Hc1, <- Hn1.
      unfold json_path, jsonc_path.
      split; by apply keeps_context_SaveState.
    - by rewrite Hrest. }
  split; [done|]. exists data. split; [done|].
  by apply GetContext_json.
Qed.

End rename_more.

(** * Creating: collisions, the round trip, and what is left alone *)

Section create_more.

Context `{JSON}.

Implicit Types m : Manager.
Implicit Types w : World.

Lemma keeps_mkdir_each k dirs :
  Forall (fun d => String.length d < String.length k) dirs ->
  keeps k (config.mkdir_each dirs).
Proof. intros Hd w. by apply mkdir_each_frame. Qed.

Lemma keeps_check_free k d name fs : keeps k (check_free d name fs).
Proof. intros w. by rewrite check_free_world. Qed.

Lemma keeps_Now k : keeps k Now.
Proof. done. Qed.

(** Paths below the contexts directory are out of reach of
    [EnsureDirectories]. *)
Lemma keeps_EnsureDirectories homeDir currentDir project k :
  let m := NewManager homeDir currentDir project in
  String.length (config.GetContextsDir (paths m) (useProject m))
  < String.length k ->
  keeps k (config.EnsureDirectories (paths m) (useProject m)).
Proof.
  intros m Hlen. unfold config.EnsureDirectories. apply keeps_mkdir_each.
  subst m. unfold config.GetContextsDir in Hlen.
  destruct project; cbn in *; rewrite !Join_length in *;
    repeat constructor; rewrite ?Join_length; lia.
Qed.

(** The footprint of [CreateContextWithFormat] below the contexts
    directory: the context file and its temporary file. *)
Lemma keeps_Create homeDir currentDir project name format k :
  let m := NewManager homeDir currentDir project in
  String.length (config.GetContextsDir (paths m) (useProject m))
  < String.length k ->
  k ≠ context_path m name format ->
  k ≠ context_path m name format +:+ ".tmp" ->
  keeps k (CreateContextWithFormat m name format).
Proof.
  intros m Hlen Hp Ht. rewrite Create_unfold.
  keeps_walk ltac:(first
    [ keeps_leaf | by apply keeps_EnsureDirectories
    | apply keeps_check_free | apply keeps_Now ]).
  - destruct (validateContextName name); [apply keeps_ret|apply keeps_fail].
  - cbv zeta. keeps_walk ltac:(first
      [ keeps_leaf | by apply keeps_EnsureDirectories
      | apply keeps_check_free | apply keeps_Now ]).
    destruct (IsNotExist _); [apply keeps_fail|].
    keeps_walk ltac:(first
      [ keeps_leaf | by apply keeps_EnsureDirectories
      | apply keeps_check_free | apply keeps_Now ]).
    destruct (unmarshalDoc _); [|apply keeps_fail].
    keeps_walk ltac:(first
      [ keeps_leaf | by apply keeps_EnsureDirectories
      | apply keeps_check_free | apply keeps_Now ]).
    destruct format as [|[p|p|]|p]; try apply keeps_fail;
      (destruct (marshalIndentDoc _); [|apply keeps_fail]);
      keeps_walk ltac:(first [ keeps_leaf | apply keeps_Now ]).
Qed.

Lemma mkdir_each_err dirs w e :
  res (config.mkdir_each dirs w) = Err e -> exists x, e = EOS x.
Proof.
  revert w. induction dirs as [|d dirs IH]; intros w; [done|].
  cbn. destruct (os.mkdir_all (files w) d) as [x|fs']; cbn.
  - intros [= <-]. by exists x.
  - rewrite !res_after. apply IH.
Qed.

(** The collision check, on the two formats. *)
Lemma check_free_taken d name w :
  check_free d name GetAllFormats w
  = match files w !! filepath.Join d (name +:+ ".json") with
    | Some _ =>
        out (Err (AlreadyExists name FormatJSON)) w
            [os.SysStat (filepath.Join d (name +:+ ".json"))]
    | None =>
        match files w !! filepath.Join d (name +:+ ".jsonc") with
        | Some _ =>
            out (Err (AlreadyExists name FormatJSONC)) w
                [os.SysStat (filepath.Join d (name +:+ ".json"));
                 os.SysStat (filepath.Join d (name +:+ ".jsonc"))]
        | None =>
            out (Ok tt) w
                [os.SysStat (filepath.Join d (name +:+ ".json"));
                 os.SysStat (filepath.Join d (name +:+ ".jsonc"))]
        end
    end.
Proof.
  unfold check_free, GetAllFormats, Stat, sys_read. cbn. unfold os.stat.
  destruct (files w !! filepath.Join d (name +:+ ".json")); cbn; [done|].
  by destruct (files w !! filepath.Join d (name +:+ ".jsonc")).
Qed.

(** X13. A name that has a context file in either format cannot be
    created again, whatever the format asked for: the error names the
    format found, JSON first, unless creating the directories failed, and
    no file is written, changed or removed. *)
Theorem CreateContext_refuses_taken_name
    (homeDir currentDir : string) (project : bool) (name : string)
    (format : ContextFormat) w :
  let m := NewManager homeDir currentDir project in
  let o := CreateContextWithFormat m name format w in
  let found :=
    match files w !! json_path m name with
    | Some _ => FormatJSON
    | None => FormatJSONC
    end in
  validateContextName name = Ok tt ->
  files w !! json_path m name ≠ None \/ files w !! jsonc_path m name ≠ None ->
  (res o = Err (AlreadyExists name found) \/ exists x, res o = Err (EOS x))
  /\ (forall k x, files w !! k = Some x -> files (world o) !! k = Some x)
  /\ (forall k data, files (world o) !! k = Some (os.File data) ->
                     files w !! k = Some (os.File data)).
Proof.
  intros m o found Hv Hex.
  assert (forall k, String.length
                      (config.GetContextsDir (paths m) (useProject m))
                    < String.length k ->
                    files (world (config.EnsureDirectories (paths m)
                                    (useProject m) w)) !! k = files w !! k)
    as Hframe.
  { intros k Hk. by apply keeps_EnsureDirectories. }
  assert (forall n ext, String.length
            (config.GetContextsDir (paths m) (useProject m))
            < String.length
                (filepath.Join (config.GetContextsDir (paths m) (useProject m))
                   (n +:+ ext))) as Hlen.
  { intros n ext. rewrite Join_length. lia. }
  pose proof (Hframe _ (Hlen name ".json")) as Hj.
  pose proof (Hframe _ (Hlen name ".jsonc")) as Hc.
  fold (json_path m name) in Hj. fold (jsonc_path m name) in Hc.
  clear Hframe Hlen. clearbody m.
  subst o. rewrite Create_unfold, Hv. cbn.
  revert Hj Hc. unfold config.EnsureDirectories.
  set (dirs := if useProject m then _ else _).
  pose proof (mkdir_each_file dirs w) as Hfile.
  pose proof (fun k x => mkdir_each_mono dirs w k x) as Hmono.
  pose proof (mkdir_each_err dirs w) as Herr.
  destruct (config.mkdir_each dirs w) as [[[]|e] w1 c1]; cbn in *.
  2:{ intros _ _. split_and!; [|done..].
      right. destruct (Herr e eq_refl) as [x ->]. by exists x. }
  intros Hj Hc. rewrite check_free_taken.
  fold (json_path m name) (jsonc_path m name). rewrite Hj, Hc.
  subst found.
  destruct (files w !! json_path m name) as [nj|] eqn:Ej; cbn.
  { split_and!; [by left|done..]. }
  destruct (files w !! jsonc_path m name) as [nc|] eqn:Ec; cbn.
  { split_and!; [by left|done..]. }
  by destruct Hex.
Qed.

(** X14. [CreateContext] then [GetContext]: when the encoded document
    decodes to itself, the new context is the document of the active
    configuration, stored as [name.json]; the state file is as it was, so
    the new context is not made current. *)
Theorem CreateContext_then_GetContext
    (homeDir currentDir : string) (project : bool) (name src : string)
    (jsonData : Doc) w :
  let m := NewManager homeDir currentDir project in
  let o := CreateContext m name w in
  let stateFilePath := config.GetStateFilePath (paths m) (useProject m) in
  let activeConfigPath :=
    config.GetActiveConfigPath (paths m) (useProject m) in
  files w !! activeConfigPath = Some (os.File src) ->
  unmarshalDoc src = Some jsonData ->
  (forall text, marshalIndentDoc jsonData = Some text ->
                unmarshalDoc text = Some jsonData) ->
  res o = Ok tt ->
  res (GetContext m name (world o))
  = Ok (mkContext name jsonData (json_path m name))
  /\ files (world o) !! stateFilePath = files w !! stateFilePath.
Proof.
  intros m o T A Hsrc Hdoc Hrt Hok.
  pose proof (NewManager_separated homeDir currentDir project) as Hsep.
  fold m in Hsep.
  destruct (Create_ok m name FormatJSON w Hok)
    as (src' & jsonData' & formattedJSON & pre & Hv & _ & _ & _ & Ha & Hu
        & Hm & _ & _ & Hfile).
  fold A in Ha. rewrite Hsrc in Ha. injection Ha as <-.
  rewrite Hdoc in Hu. injection Hu as <-.
  fold o in Hfile. rewrite context_path_json in Hfile.
  split.
  - rewrite (GetContext_json m name _ _ Hv Hfile). cbn.
    by rewrite (Hrt _ Hm).
  - assert (T = filepath.Join
                  (config.GetContextsDir (paths m) (useProject m))
                  config.StateFileName) as HT by apply (sep_state m Hsep).
    apply keeps_Create.
    + fold m T. rewrite HT, Join_length. lia.
    + fold m T. rewrite HT. symmetry. by apply context_ne_state.
    + fold m T. rewrite HT. unfold context_path, filepath.Join.
      rewrite !app_assoc. symmetry.
      apply (context_ne_state _ name (FileExtension FormatJSON +:+ ".tmp")).
      done.
Qed.

End create_more.

(** * Deleting: what is left of the name *)

Section delete_more.

Context `{JSON}.

Implicit Types m : Manager.
Implicit Types w : World.

(** The steps of a successful [DeleteContext]. *)
Lemma Delete_inv m name w :
  res (DeleteContext m name w) = Ok tt ->
  exists ctx state,
    res (GetContext m name w) = Ok ctx
    /\ res (LoadState (config.GetStateFilePath (paths m) (useProject m)) w)
       = Ok state
    /\ Current state ≠ name
    /\ world (DeleteContext m name w)
       = with_files w (delete (FilePath ctx) (files w)).
Proof.
  unfold DeleteContext.
  destruct (validateContextName name) as [[]|e] eqn:Hv; cbn; [|done].
  pose proof (GetContext_world m name w) as Hgw.
  pose proof (GetContext_ok m name w) as Hgok.
  destruct (GetContext m name w) as [[ctx|e] w1 c1]; cbn in *; [|done].
  subst w1. destruct (Hgok ctx eq_refl) as (_ & _ & _ & data & Hdata).
  pose proof (LoadState_world
    (config.GetStateFilePath (paths m) (useProject m)) w) as Hlw.
  destruct (LoadState _ w) as [[st|e] w2 c2]; cbn in *; [|done].
  subst w2. destruct (String.eqb_spec (Current st) name) as [|Hne]; cbn;
    [done|].
  unfold os.remove. rewrite Hdata. cbn. intros _. by exists ctx, st.
Qed.

(** X16. After a successful delete the name resolves to nothing, unless
    the context was stored in both formats: then only the [.json] file is
    removed and the name resolves to the [.jsonc] file. *)
Theorem DeleteContext_then_GetContext m (name : string) w :
  let o := DeleteContext m name w in
  res o = Ok tt ->
  files (world o) !! json_path m name = None
  /\ (files w !! json_path m name = None
      \/ files w !! jsonc_path m name = None ->
      GetContext m name (world o)
      = out (Err (NotFound name)) (world o)
            [os.SysStat (json_path m name); os.SysStat (jsonc_path m name)])
  /\ (forall n,
        files w !! json_path m name ≠ None ->
        files w !! jsonc_path m name = Some n ->
        GetContext m name (world o)
        = out (read_context name (jsonc_path m name) true n) (world o)
              [os.SysStat (json_path m name); os.SysStat (jsonc_path m name);
               os.SysReadFile (jsonc_path m name)]).
Proof.
  intros o Hok.
  destruct (Delete_inv m name w Hok) as (ctx & st & Hg & _ & _ & Hw).
  fold o in Hw.
  destruct (GetContext_ok _ _ _ _ Hg) as (Hv & _ & _ & _).
  pose proof (json_ne_jsonc_path m name name) as Hne.
  destruct (files w !! json_path m name) as [nj|] eqn:Ej.
  - rewrite (GetContext_json m name nj w Hv Ej) in Hg. cbn in Hg.
    assert (FilePath ctx = json_path m name) as Hp.
    { destruct nj; cbn in Hg; [|done].
      destruct (unmarshalDoc _); by simplify_eq. }
    rewrite Hp in Hw.
    assert (files (world o) !! json_path m name = None) as Hj'.
    { rewrite Hw. cbn. apply lookup_delete_eq. }
    assert (files (world o) !! jsonc_path m name
            = files w !! jsonc_path m name) as Hc'.
    { rewrite Hw. cbn. by apply lookup_delete_ne. }
    split_and!; [done|..].
    + intros [|Hc]; [done|]. apply GetContext_absent; [done..|].
      by rewrite Hc'.
    + intros n _ Hc. apply GetContext_jsonc; [done..|]. by rewrite Hc'.
  - destruct (files w !! jsonc_path m name) as [nc|] eqn:Ec.
    2:{ by rewrite (GetContext_absent m name w Hv Ej Ec) in Hg. }
    rewrite (GetContext_jsonc m name nc w Hv Ej Ec) in Hg. cbn in Hg.
    assert (FilePath ctx = jsonc_path m name) as Hp.
    { destruct nc; cbn in Hg; [|done].
      destruct (unmarshalDoc _); by simplify_eq. }
    rewrite Hp in Hw.
    assert (files (world o) !! json_path m name = None) as Hj'.
    { rewrite Hw. cbn. by rewrite lookup_delete_ne. }
    assert (files (world o) !! jsonc_path m name = None) as Hc'.
    { rewrite Hw. cbn. apply lookup_delete_eq. }
    split_and!; [done|..].
    + intros _. by apply GetContext_absent.
    + intros n Hcontra. done.
Qed.

(** X17. Deleting the previous context leaves its name in the state, so
    the next previous-switch fails with [StalePrevious]. *)
Theorem delete_previous_then_switch
    (homeDir currentDir : string) (project : bool) w (a b : string) :
  let m := NewManager homeDir currentDir project in
  let stateFilePath := config.GetStateFilePath (paths m) (useProject m) in
  let o := DeleteContext m b w in
  res (LoadState stateFilePath w) = Ok (mkState a b) ->
  files w !! json_path m b = None \/ files w !! jsonc_path m b = None ->
  res o = Ok tt ->
  res (LoadState stateFilePath (world o)) = Ok (mkState a b)
  /\ res (SwitchToPrevious m (world o)) = Err (StalePrevious b)
  /\ world (SwitchToPrevious m (world o)) = world o.
Proof.
  intros m T o Hl Hone Hok.
  pose proof (NewManager_separated homeDir currentDir project) as Hsep.
  fold m in Hsep. clearbody m.
  destruct (Delete_inv m b w Hok) as (ctx & st & Hg & _ & _ & Hw).
  fold o in Hw.
  destruct (GetContext_ok _ _ _ _ Hg) as (Hv & _ & Hpath & _).
  assert (T = filepath.Join (config.GetContextsDir (paths m) (useProject m))
                config.StateFileName) as HT by apply (sep_state m Hsep).
  assert (FilePath ctx ≠ T) as HoT.
  { rewrite HT. destruct Hpath as [-> | ->]; by apply context_ne_state. }
  assert (res (LoadState T (world o)) = Ok (mkState a b)) as Hl'.
  { rewrite <- Hl. apply LoadState_ext; rewrite Hw; cbn.
    - by rewrite lookup_delete_ne.
    - intros x Hx. rewrite lookup_delete_ne; [done|].
      destruct Hpath as [-> | ->]; symmetry;
        by apply above_state_ne_context. }
  assert (b ≠ EmptyString) as Hb.
  { destruct (valid_name_cons b Hv) as (c & rest & -> & _). done. }
  assert (GetContext m b (world o)
          = out (Err (NotFound b)) (world o)
              [os.SysStat (json_path m b); os.SysStat (jsonc_path m b)])
    as Hgone.
  { pose proof (json_ne_jsonc_path m b b) as Hne.
    destruct (files w !! json_path m b) as [nj|] eqn:Ej.
    - destruct Hone as [|Ec]; [done|].
      rewrite (GetContext_json m b nj w Hv Ej) in Hg. cbn in Hg.
      assert (FilePath ctx = json_path m b) as Hp.
      { destruct nj; cbn in Hg; [|done].
        destruct (unmarshalDoc _); by simplify_eq. }
      apply GetContext_absent; [done|..]; rewrite Hw, Hp; cbn.
      + apply lookup_delete_eq.
      + by rewrite lookup_delete_ne.
    - destruct (files w !! jsonc_path m b) as [nc|] eqn:Ec.
      2:{ by rewrite (GetContext_absent m b w Hv Ej Ec) in Hg. }
      rewrite (GetContext_jsonc m b nc w Hv Ej Ec) in Hg. cbn in Hg.
      assert (FilePath ctx = jsonc_path m b) as Hp.
      { destruct nc; cbn in Hg; [|done].
        destruct (unmarshalDoc _); by simplify_eq. }
      apply GetContext_absent; [done|..]; rewrite Hw, Hp; cbn.
      + by rewrite lookup_delete_ne.
      + apply lookup_delete_eq. }
  split; [done|].
  unfold SwitchToPrevious. fold T. cbn.
  pose proof (LoadState_world T (world o)) as Hlw.
  destruct (LoadState T (world o)) as [[s|e] w1 c1]; cbn in *; [|done].
  injection Hl' as ->. subst w1. unfold State_SwitchToPrevious. cbn.
  rewrite (eqb_false_ne b EmptyString Hb). cbn.
  unfold or_fail. rewrite Hgone. cbn. done.
Qed.

(** X15. The active configuration after a switch to a JSONC context that
    [CreateContextWithFormat] wrote begins with the comment header, which
    encoding/json does not read: until the active configuration is
    replaced, no context can be created from it. *)
Theorem jsonc_switch_blocks_create
    (homeDir currentDir : string) (project : bool) (name other : string)
    (format : ContextFormat) w :
  let m := NewManager homeDir currentDir project in
  let o1 := CreateContextWithFormat m name FormatJSONC w in
  let o2 := SwitchToContext m name (world o1) in
  (forall rest, unmarshalDoc ("//" +:+ rest) = None) ->
  res o1 = Ok tt ->
  res o2 = Ok tt ->
  res (CreateContextWithFormat m other format (world o2)) ≠ Ok tt.
Proof.
  intros m o1 o2 Hlib Hok1 Hok2 Hok3.
  pose proof (NewManager_separated homeDir currentDir project) as Hsep.
  fold m in Hsep. clearbody m.
  destruct (Create_ok m name FormatJSONC w Hok1)
    as (src & jsonData & formattedJSON & pre & Hv & _ & _ & _ & _ & _
        & _ & _ & _ & Hfile).
  fold o1 in Hfile. rewrite context_path_jsonc in Hfile.
  assert (files (world o1) !! json_path m name = None) as Hj.
  { rewrite <- context_path_json.
    apply (Create_other_format m name FormatJSONC w FormatJSON);
      [done|set_solver|done]. }
  destruct (Create_ok m other format (world o2) Hok3)
    as (src3 & d3 & f3 & pre3 & _ & _ & _ & _ & Ha3 & Hu3 & _).
  destruct (SwitchToContext_active m name (world o1) Hsep Hok2)
    as (ctx & data & Hg & Hp & Hact).
  fold o2 in Hact. rewrite Hact in Ha3. injection Ha3 as <-.
  rewrite (GetContext_jsonc m name _ _ Hv Hj Hfile) in Hg. cbn in Hg.
  assert (FilePath ctx = jsonc_path m name) as Hpath.
  { destruct (unmarshalDoc (strip_comments _)); by simplify_eq. }
  rewrite Hpath, Hfile in Hp. injection Hp as <-.
  unfold formatted in Hu3. cbn in Hu3. unfold header in Hu3.
  rewrite !app_assoc in Hu3.
  change ("// opencode context: " +:+ ?x) with ("//" +:+ (" opencode context: " +:+ x))
    in Hu3.
  by rewrite Hlib in Hu3.
Qed.

End delete_more.

(** * Formats, names and directories *)

Section format_more.

(** X20. [ParseFormat] accepts exactly the names [String] gives the two
    formats, and returns the format whose name it was given; the file
    extension of that format is the name after a dot. *)
Theorem ParseFormat_String (s : string) (f : ContextFormat) :
  (ParseFormat s = (f, None)
   <-> (f = FormatJSON \/ f = FormatJSONC) /\ ContextFormat_String f = s)
  /\ (ParseFormat s = (f, None) -> FileExtension f = "." +:+ s).
Proof.
  unfold ParseFormat.
  destruct (String.eqb_spec s "json") as [->|Hj].
  { split.
    - split; [intros [= <-]; by split; [left|]|].
      intros [[-> | ->] Hs]; [done|]. by vm_compute in Hs.
    - by intros [= <-]. }
  destruct (String.eqb_spec s "jsonc") as [->|Hc].
  { split.
    - split; [intros [= <-]; by split; [right|]|].
      intros [[-> | ->] Hs]; [|done]. by vm_compute in Hs.
    - by intros [= <-]. }
  split; [|done]. split; [done|].
  intros [[-> | ->] Hs]; vm_compute in Hs; by subst s.
Qed.

End format_more.

Section name_more.

Context `{JSON}.

(** X21. The file of a context with a valid name lies directly in the
    contexts directory, and is none of the files the engine keeps for
    itself: the state file, the active configuration, their temporary
    files. *)
Theorem valid_name_stays_in_directory
    (homeDir currentDir : string) (project : bool) (name : string)
    (format : ContextFormat) :
  let m := NewManager homeDir currentDir project in
  let contextsDir := config.GetContextsDir (paths m) (useProject m) in
  let stateFilePath := config.GetStateFilePath (paths m) (useProject m) in
  let activeConfigPath :=
    config.GetActiveConfigPath (paths m) (useProject m) in
  validateContextName name = Ok tt ->
  filepath.Dir (context_path m name format) = contextsDir
  /\ context_path m name format ≠ stateFilePath
  /\ context_path m name format ≠ stateFilePath +:+ ".tmp"
  /\ context_path m name format ≠ activeConfigPath
  /\ context_path m name format ≠ activeConfigPath +:+ ".tmp".
Proof.
  intros m D T A Hv.
  pose proof (NewManager_separated homeDir currentDir project) as Hsep.
  fold m in Hsep. clearbody m.
  assert (T = filepath.Join D config.StateFileName) as HT
    by apply (sep_state m Hsep).
  unfold context_path. fold D. rewrite HT. split_and!.
  - apply Dir_Join; [apply Hsep|]. apply valid_name_no_sep; [done|].
    by destruct format as [|[p|p|]|p].
  - by apply context_ne_state.
  - by apply context_ne_state.
  - apply Hsep.
  - apply Hsep.
Qed.

End name_more.

Section directories_more.

Implicit Types w : World.

Lemma with_files_id w : with_files w (files w) = w.
Proof. by destruct w. Qed.

Lemma mkdir_all_present fs d :
  fs !! d = Some os.Directory -> os.mkdir_all fs d = inr fs.
Proof. intros Hd. unfold os.mkdir_all. cbn. by rewrite Hd. Qed.

Lemma mkdir_each_present dirs w :
  Forall (fun d => files w !! d = Some os.Directory) dirs ->
  res (config.mkdir_each dirs w) = Ok tt
  /\ world (config.mkdir_each dirs w) = w.
Proof.
  induction 1 as [|d dirs Hd _ IH]; [done|].
  cbn. rewrite (mkdir_all_present _ _ Hd). cbn.
  rewrite with_files_id, !res_after, !world_after. done.
Qed.

Lemma mkdir_each_dirs dirs w :
  res (config.mkdir_each dirs w) = Ok tt ->
  Forall (fun d => files (world (config.mkdir_each dirs w)) !! d
                   = Some os.Directory) dirs.
Proof.
  revert w. induction dirs as [|d dirs IH]; intros w; [done|].
  cbn. destruct (os.mkdir_all (files w) d) as [x|fs'] eqn:EM; cbn; [done|].
  rewrite !res_after, !world_after. intros Hok. constructor.
  - apply mkdir_each_mono. cbn. by eapply mkdir_all_dir.
  - by apply IH.
Qed.

(** X22. When [EnsureDirectories] succeeds the contexts directory is a
    directory, everything that was there is still there, no file was
    written, and a second call changes nothing. *)
Theorem EnsureDirectories_idempotent (p : config.Paths) (project : bool) w :
  let o := config.EnsureDirectories p project w in
  res o = Ok tt ->
  files (world o) !! config.GetContextsDir p project = Some os.Directory
  /\ (forall k x, files w !! k = Some x -> files (world o) !! k = Some x)
  /\ (forall k data, files (world o) !! k = Some (os.File data) ->
                     files w !! k = Some (os.File data))
  /\ res (config.EnsureDirectories p project (world o)) = Ok tt
  /\ world (config.EnsureDirectories p project (world o)) = world o.
Proof.
  intros o Hok. subst o. unfold config.EnsureDirectories in *.
  set (dirs := if project then _ else _) in *.
  pose proof (mkdir_each_dirs dirs w Hok) as Hd.
  split_and!.
  - assert (config.GetContextsDir p project ∈ dirs) as Hin.
    { subst dirs. unfold config.GetContextsDir.
      destruct project; set_solver. }
    rewrite Forall_forall in Hd. by apply Hd.
  - intros k x. apply mkdir_each_mono.
  - intros k data. apply mkdir_each_file.
  - by apply mkdir_each_present.
  - by apply mkdir_each_present.
Qed.

End directories_more.

(** * The commands *)

Section dispatch_more.

(** X23. [runRoot] switches to a context by name only when no flag is set
    and the single argument is not a dash; a context named [-], which
    [validateContextName] accepts, is never switched to by name. *)
Theorem runRoot_switch_by_name (flags : Flags) (args : list string)
    (name : string) :
  (runRoot flags args = SwitchToNamed name
   <-> args = [name] /\ name ≠ "-"
       /\ flag_interactive flags = false /\ flag_current flags = false
       /\ flag_unset flags = false /\ flag_new flags = EmptyString
       /\ flag_delete flags = EmptyString /\ flag_edit flags = EmptyString
       /\ flag_show flags = EmptyString /\ flag_export flags = EmptyString
       /\ flag_import flags = EmptyString /\ flag_rename flags = false)
  /\ validateContextName "-" = Ok tt
  /\ runRoot flags args ≠ SwitchToNamed "-".
Proof.
  assert (forall n,
    runRoot flags args = SwitchToNamed n
    <-> args = [n] /\ n ≠ "-"
        /\ flag_interactive flags = false /\ flag_current flags = false
        /\ flag_unset flags = false /\ flag_new flags = EmptyString
        /\ flag_delete flags = EmptyString /\ flag_edit flags = EmptyString
        /\ flag_show flags = EmptyString /\ flag_export flags = EmptyString
        /\ flag_import flags = EmptyString /\ flag_rename flags = false)
    as Hiff.
  { intros n. unfold runRoot, nonempty.
    destruct flags as [fi fc fu fn ff fd fe fs fx fm fr]. cbn.
    destruct fi, fc, fu; try (split; [done|]; intros (?&?&?&?&?&?); done).
    destruct (String.eqb_spec fn EmptyString) as [->|?]; cbn;
      [|split; [done|]; intros (?&?&?&?&?&?&?); done].
    destruct (String.eqb_spec fd EmptyString) as [->|?]; cbn;
      [|split; [done|]; intros (?&?&?&?&?&?&?&?); done].
    destruct (String.eqb_spec fe EmptyString) as [->|?]; cbn;
      [|split; [done|]; intros (?&?&?&?&?&?&?&?&?); done].
    destruct (String.eqb_spec fs EmptyString) as [->|?]; cbn;
      [|split; [done|]; intros (?&?&?&?&?&?&?&?&?&?); done].
    destruct (String.eqb_spec fx EmptyString) as [->|?]; cbn;
      [|split; [done|]; intros (?&?&?&?&?&?&?&?&?&?&?); done].
    destruct (String.eqb_spec fm EmptyString) as [->|?]; cbn;
      [|split; [done|]; intros (?&?&?&?&?&?&?&?&?&?&?&?); done].
    destruct fr.
    { split; [|intros (?&?&?&?&?&?&?&?&?&?&?&?); done].
      destruct args as [|? [|? [|? ?]]]; done. }
    destruct args as [|arg [|? ?]].
    - split; [done|]. by intros [? _].
    - destruct (String.eqb_spec arg "-") as [->|Hd].
      + split; [done|]. intros ([= <-] & ? & _). done.
      + split.
        * intros [= <-]. done.
        * intros ([= <-] & _). done.
    - split; [done|]. by intros [? _]. }
  split_and!; [apply Hiff|done|].
  intros Heq%Hiff. by destruct Heq as (_ & ? & _).
Qed.

End dispatch_more.

Section import_more.

Context `{JSON}.

Implicit Types m : Manager.
Implicit Types w : World.

Lemma collect_nil lines : collect lines = EmptyString <-> lines = [].
Proof.
  split; [|by intros ->]. destruct lines as [|l ls]; [done|].
  cbn. intros Heq. apply (f_equal String.length) in Heq.
  rewrite !length_app in Heq. cbn in Heq. lia.
Qed.

(** [importContext] once the input is read and decoded. *)
Lemma import_unfold m name stdin data w :
  scan_failed stdin = false ->
  scan_lines stdin ≠ [] ->
  unmarshalDoc (collect (scan_lines stdin)) = Some data ->
  importContext m name stdin w
  = (let! _ := config.EnsureDirectories (paths m) (useProject m) in
     let! st := Stat (json_path m name) in
     if is_nil st then ret (inl (ImportExists name))
     else match marshalIndentDoc data with
          | None => fail EMarshal
          | Some formattedData =>
              let! _ := atomic_write (json_path m name) formattedData in
              ret (inr tt)
          end) w.
Proof.
  intros Hs Hl Hu. unfold importContext. rewrite Hs.
  destruct (String.eqb_spec (collect (scan_lines stdin)) EmptyString)
    as [Hc%collect_nil|_]; [done|].
  rewrite Hu. unfold atomic_write, json_path. cbn.
  destruct (config.EnsureDirectories _ _ w) as [[[]|e] w1 c1]; cbn; [|done].
  f_equal. destruct (is_nil _); [done|].
  destruct (marshalIndentDoc data); [|done].
  cbn. f_equal. destruct (os.write_file _ _ _); cbn; [done|].
  f_equal. by destruct (os.rename _ _ _).
Qed.

(** X24. [importContext] reads and decodes its input before it touches
    the filesystem: a failed read, no line at all, or text that is not JSON
    end the command with no call made.  A single empty line is input. *)
Theorem importContext_checks_input_first m (name : string)
    (stdin : Scanned) w :
  let o := importContext m name stdin w in
  (scan_failed stdin = true -> o = out (Ok (inl StdinFailed)) w [])
  /\ (scan_failed stdin = false -> scan_lines stdin = [] ->
      o = out (Ok (inl NoInputProvided)) w [])
  /\ (scan_failed stdin = false -> scan_lines stdin ≠ [] ->
      unmarshalDoc (collect (scan_lines stdin)) = None ->
      o = out (Ok (inl ImportInvalidJSON)) w []).
Proof.
  intros o. subst o. unfold importContext. split_and!.
  - by intros ->.
  - by intros -> ->.
  - intros -> Hl Hu.
    destruct (String.eqb_spec (collect (scan_lines stdin)) EmptyString)
      as [Hc%collect_nil|_]; [done|].
    by rewrite Hu.
Qed.

(** The steps of a successful [importContext]. *)
Lemma import_inv m name stdin w :
  let o := importContext m name stdin w in
  res o = Ok (inr tt) ->
  exists data text,
    scan_failed stdin = false
    /\ scan_lines stdin ≠ []
    /\ unmarshalDoc (collect (scan_lines stdin)) = Some data
    /\ marshalIndentDoc data = Some text
    /\ files w !! json_path m name = None
    /\ let w1 := world (config.EnsureDirectories (paths m) (useProject m) w)
       in res (atomic_write (json_path m name) text w1) = Ok tt
          /\ world o = world (atomic_write (json_path m name) text w1).
Proof.
  intros o. subst o.
  destruct (scan_failed stdin) eqn:Hs.
  { unfold importContext. rewrite Hs. done. }
  destruct (scan_lines stdin) as [|l ls] eqn:Hl.
  { unfold importContext. rewrite Hs, Hl. done. }
  destruct (unmarshalDoc (collect (l :: ls))) as [data|] eqn:Hu.
  2:{ unfold importContext. rewrite Hs, Hl.
      destruct (String.eqb_spec (collect (l :: ls)) EmptyString)
        as [Hc%collect_nil|_]; [done|].
      by rewrite Hu. }
  rewrite (import_unfold m name stdin data w); [|done|by rewrite Hl|
    by rewrite Hl]. cbn.
  pose proof (fun k x => mkdir_each_mono
    (if useProject m
     then [config.ProjectConfigDir_ (paths m);
           config.ProjectSettingsDir (paths m)]
     else [config.GlobalConfigDir (paths m);
           config.GlobalSettingsDir (paths m)]) w k x) as Hmono.
  unfold config.EnsureDirectories.
  destruct (config.mkdir_each _ w) as [[[]|e] w1 c1]; cbn in *; [|done].
  unfold os.stat.
  destruct (files w1 !! json_path m name) as [n|] eqn:Ej; cbn; [done|].
  destruct (marshalIndentDoc data) as [text|] eqn:Hm; cbn; [|done].
  out_simpl.
  destruct (atomic_write (json_path m name) text w1) as [[[]|e] w2 c2] eqn:EA;
    cbn; [|done].
  intros _. exists data, text. rewrite EA. split_and!; try done.
  destruct (files w !! json_path m name) as [x|] eqn:E0; [|done].
  apply Hmono in E0. congruence.
Qed.

(** X25. [importContext] does not validate the name.  For any name that
    is one path element, a successful import leaves the encoded document at
    [name.json]; when the name is one that [validateContextName] rejects,
    [GetContext] refuses to read what was imported. *)
Theorem importContext_skips_name_validation m (name : string)
    (stdin : Scanned) w :
  let o := importContext m name stdin w in
  strings.Contains name "/" = false ->
  res o = Ok (inr tt) ->
  (exists data text,
     unmarshalDoc (collect (scan_lines stdin)) = Some data
     /\ marshalIndentDoc data = Some text
     /\ files (world o) !! json_path m name = Some (os.File text)
     /\ files (world o) !! (json_path m name +:+ ".tmp") = None)
  /\ forall e, validateContextName name = Err e ->
               GetContext m name (world o) = out (Err e) (world o) [].
Proof.
  intros o _ Hok.
  destruct (import_inv m name stdin w Hok)
    as (data & text & _ & _ & Hu & Hm & _ & Ha & Hw).
  fold o in Hw. split.
  - exists data, text. rewrite Hw.
    destruct (atomic_write_ok _ _ _ Ha) as (Hp & Ht & _). done.
  - intros e He. by apply GetContext_invalid.
Qed.

(** X26. A name that has a [.json] file cannot be imported over: the
    command reports that the context exists, unless creating the
    directories failed, and no file is written, changed or removed. *)
Theorem importContext_existing_json m (name : string) (stdin : Scanned) w
    (data : Doc) (n : os.node) :
  let o := importContext m name stdin w in
  scan_failed stdin = false ->
  scan_lines stdin ≠ [] ->
  unmarshalDoc (collect (scan_lines stdin)) = Some data ->
  files w !! json_path m name = Some n ->
  (res o = Ok (inl (ImportExists name)) \/ exists x, res o = Err (EOS x))
  /\ (forall k x, files w !! k = Some x -> files (world o) !! k = Some x)
  /\ (forall k d, files (world o) !! k = Some (os.File d) ->
                  files w !! k = Some (os.File d)).
Proof.
  intros o Hs Hl Hu Hn. subst o.
  rewrite (import_unfold m name stdin data w Hs Hl Hu). cbn.
  unfold config.EnsureDirectories.
  set (dirs := if useProject m then _ else _).
  pose proof (mkdir_each_file dirs w) as Hfile.
  pose proof (fun k x => mkdir_each_mono dirs w k x) as Hmono.
  pose proof (mkdir_each_err dirs w) as Herr.
  destruct (config.mkdir_each dirs w) as [[[]|e] w1 c1]; cbn in *.
  2:{ split_and!; [|done..].
      right. destruct (Herr e eq_refl) as [x ->]. by exists x. }
  unfold os.stat. rewrite (Hmono _ _ Hn). cbn.
  split_and!; [by left|done..].
Qed.

End import_more.

Section import_export_more.

Context `{JSON}.

Implicit Types m : Manager.
Implicit Types w : World.

(** X27. Import, then [GetContext]: under a valid name, when the
    encoded document decodes to itself, the imported document is what the
    name resolves to, from [name.json]; a [name.jsonc] that was there is
    kept and no longer read. *)
Theorem importContext_then_GetContext
    (homeDir currentDir : string) (project : bool) (name : string)
    (stdin : Scanned) (data : Doc) w :
  let m := NewManager homeDir currentDir project in
  let o := importContext m name stdin w in
  unmarshalDoc (collect (scan_lines stdin)) = Some data ->
  (forall text, marshalIndentDoc data = Some text ->
                unmarshalDoc text = Some data) ->
  validateContextName name = Ok tt ->
  res o = Ok (inr tt) ->
  res (GetContext m name (world o))
  = Ok (mkContext name data (json_path m name))
  /\ files (world o) !! jsonc_path m name = files w !! jsonc_path m name.
Proof.
  intros m o Hdoc Hrt Hv Hok.
  destruct (import_inv m name stdin w Hok)
    as (data' & text & _ & _ & Hu & Hm & _ & Ha & Hw).
  rewrite Hdoc in Hu. injection Hu as <-.
  fold o in Hw. split.
  - destruct (atomic_write_ok _ _ _ Ha) as (Hp & _).
    rewrite <- Hw in Hp.
    rewrite (GetContext_json m name _ _ Hv Hp). cbn.
    by rewrite (Hrt _ Hm).
  - rewrite Hw, atomic_write_frame.
    + apply keeps_EnsureDirectories. fold m. unfold jsonc_path.
      rewrite Join_length. lia.
    + intros Heq. by apply (json_ne_jsonc_path m name name).
    + unfold jsonc_path, json_path, filepath.Join. rewrite !app_assoc.
      intros Heq%String.app_inj%String.app_inj%String.app_inj.
      discriminate Heq.
Qed.

(** X28. [exportContext] prints the bytes of the file the name resolves
    to, comments included, after [GetContext] has read and decoded it; it
    fails exactly when [GetContext] does, and [showContext] does the
    same. *)
Theorem exportContext_raw m (name : string) w :
  (forall e, res (GetContext m name w) = Err e ->
             res (exportContext m name w) = Err e)
  /\ (forall ctx, res (GetContext m name w) = Ok ctx ->
        exists data,
          files w !! FilePath ctx = Some (os.File data)
          /\ res (exportContext m name w) = Ok data)
  /\ world (exportContext m name w) = w
  /\ showContext m name w = exportContext m name w.
Proof.
  unfold exportContext, showContext. cbn.
  pose proof (GetContext_world m name w) as Hgw.
  pose proof (GetContext_ok m name w) as Hgok.
  destruct (GetContext m name w) as [[ctx|e] w1 c1]; cbn in *; subst w1.
  - destruct (Hgok ctx eq_refl) as (_ & _ & _ & data & Hdata).
    unfold os.read_file. rewrite Hdata. cbn. split_and!; try done.
    intros ? [= <-]. by exists data.
  - split_and!; try done. by intros ? [= <-].
Qed.

End import_export_more.

(** * The probe for project contexts *)

Section probe_more.

Context `{JSON}.

Implicit Types w : World.

Lemma Ext_cons c rest :
  filepath_Ext (String c rest)
  = if has_byte "/" rest then filepath_Ext rest
    else if has_byte "." rest then filepath_Ext rest
    else if Ascii.eqb c "." then String c rest
    else EmptyString.
Proof. reflexivity. Qed.

(** The extension is a suffix of the path. *)
Lemma Ext_suffix s : exists p, s = p +:+ filepath_Ext s.
Proof.
  induction s as [|c rest [p IH]]; [by exists EmptyString|].
  rewrite Ext_cons.
  destruct (has_byte "/" rest); [|destruct (has_byte "." rest)].
  - exists (String c p). by rewrite app_cons, <- IH.
  - exists (String c p). by rewrite app_cons, <- IH.
  - destruct (Ascii.eqb c "."); [by exists EmptyString|].
    exists (String c rest). by rewrite app_nil_r.
Qed.

Lemma Ext_app_json p : filepath_Ext (p +:+ ".json") = ".json".
Proof.
  induction p as [|c p IH]; [done|].
  rewrite app_cons, Ext_cons, IH, has_byte_app.
  destruct (has_byte "/" p); cbn; [done|].
  rewrite has_byte_app. cbn. by rewrite orb_true_r.
Qed.

Lemma any_json_entry_true es :
  any_json_entry es = true
  <-> exists e, e ∈ es /\ os.IsDir e = false
        /\ filepath_Ext (os.Name e) = ".json"
        /\ os.Name e ≠ config.StateFileName.
Proof.
  induction es as [|e es IH]; cbn.
  { split; [done|]. by intros (? & ?%elem_of_nil & _). }
  destruct (os.IsDir e) eqn:Ed; cbn.
  { rewrite IH. split; intros (e' & Hin & Hrest); exists e'.
    - split; [by right|done].
    - apply elem_of_cons in Hin as [->|Hin]; [|done].
      destruct Hrest as [Hd _]. congruence. }
  destruct (String.eqb_spec (filepath_Ext (os.Name e)) ".json") as [Hx|Hx];
    cbn.
  2:{ rewrite IH. split; intros (e' & Hin & Hrest); exists e'.
      - split; [by right|done].
      - apply elem_of_cons in Hin as [->|Hin]; [|done].
        destruct Hrest as (_ & ? & _). done. }
  destruct (String.eqb_spec (os.Name e) config.StateFileName) as [Hs|Hs];
    cbn.
  { rewrite IH. split; intros (e' & Hin & Hrest); exists e'.
    - split; [by right|done].
    - apply elem_of_cons in Hin as [->|Hin]; [|done].
      destruct Hrest as (_ & _ & ?). done. }
  split; [|done]. intros _. exists e. split; [by left|done].
Qed.

Lemma list_entries_json d es e :
  e ∈ es -> os.IsDir e = false -> os.Name e ≠ config.StateFileName ->
  strings.HasSuffix (os.Name e) ".json" = true ->
  mkContext (strings.TrimSuffix (os.Name e) ".json") nilDoc
    (filepath.Join d (os.Name e)) ∈ list_entries d es.
Proof.
  intros Hin Hd Hs Hj. induction es as [|e' es IH]; [by inversion Hin|].
  apply elem_of_cons in Hin as [<-|Hin].
  - cbn. rewrite Hd, (eqb_false_ne _ _ Hs), Hj. by left.
  - cbn. specialize (IH Hin).
    destruct (os.IsDir e'); [done|].
    destruct (String.eqb _ config.StateFileName); [done|].
    destruct (strings.HasSuffix (os.Name e') ".json"); [by right|].
    destruct (strings.HasSuffix (os.Name e') ".jsonc"); [by right|done].
Qed.

(** X29. [ProjectContextsExist] answers yes exactly when the project
    listing has a context stored as [.json]; contexts stored as [.jsonc]
    do not count.  It never fails and changes nothing. *)
Theorem ProjectContextsExist_json_only (p : config.Paths) w :
  let m := mkManager p true in
  (res (ProjectContextsExist p w) = Ok true
   <-> exists contexts c,
         res (ListContexts m w) = Ok contexts
         /\ c ∈ contexts
         /\ FilePath c = json_path m (Name c))
  /\ (exists b, res (ProjectContextsExist p w) = Ok b)
  /\ world (ProjectContextsExist p w) = w.
Proof.
  intros m. unfold ProjectContextsExist, ListContexts. subst m. cbn.
  change (config.GetContextsDir p true) with (config.ProjectSettingsDir p).
  set (D := config.ProjectSettingsDir p).
  destruct (IsNotExist (os.stat (files w) D)); cbn.
  { split_and!; [|by exists false|done].
    split; [done|]. intros (cs & c & [= <-] & Hc & _). by inversion Hc. }
  destruct (os.read_dir (files w) D) as [x|es]; cbn.
  { split_and!; [|by exists false|done].
    split; [done|]. by intros (cs & c & ? & _). }
  split_and!; [|by eexists|done].
  split.
  - intros [= Ht]. apply any_json_entry_true in Ht
      as (e & Hin & Hd & Hx & Hs).
    destruct (Ext_suffix (os.Name e)) as [q Hq]. rewrite Hx in Hq.
    exists (list_entries D es),
      (mkContext (strings.TrimSuffix (os.Name e) ".json") nilDoc
         (filepath.Join D (os.Name e))).
    split_and!; [done|..].
    + apply list_entries_json; try done. rewrite Hq. apply HasSuffix_app.
    + cbn. unfold json_path. cbn.
      change (config.GetContextsDir p true) with D.
      by rewrite Hq at 2; rewrite TrimSuffix_app, <- Hq.
  - intros (cs & c & [= <-] & Hc & Hp). f_equal.
    apply list_entries_spec in Hc
      as (e & ext & Hin & Hd & Hs & Hext & Hn & _ & Hf).
    apply any_json_entry_true. exists e. split_and!; try done.
    rewrite Hp in Hf. unfold json_path in Hf. cbn in Hf.
    apply Join_inj in Hf. rewrite <- Hf. apply Ext_app_json.
Qed.

End probe_more.

(** * The properties on concrete worlds *)

Lemma SaveState_then_LoadState_witness :
  res (LoadState (H:=Sample.json) Example.state_file
         (world (State_SaveState (H:=Sample.json) (mkState "work" "home")
                   Example.state_file Example.fresh)))
  = Ok (mkState "work" "home").
Proof.
  apply (SaveState_then_LoadState (H:=Sample.json)).
  - intros data Hm. vm_compute in Hm. injection Hm as <-. reflexivity.
  - reflexivity.
Defined.

Lemma SaveState_failure_keeps_state_file_witness :
  res (State_SaveState (H:=Sample.json) (mkState "work" "home")
         Example.state_file Cases.state_dir)
  = Err (EOS os.EISDIR)
  /\ files (world (State_SaveState (H:=Sample.json) (mkState "work" "home")
                     Example.state_file Cases.state_dir))
       !! Example.state_file
     = files Cases.state_dir !! Example.state_file.
Proof.
  split; [reflexivity|].
  apply (SaveState_failure_keeps_state_file (H:=Sample.json)
           "/home/u" "/work" false (mkState "work" "home") Cases.state_dir
           (EOS os.EISDIR)).
  reflexivity.
Defined.

Lemma SwitchToContext_installs_witness :
  let o := SwitchToContext (H:=Sample.json) Example.mgr "home" Example.two in
  res o = Ok tt
  /\ files (world o) !! Example.active
     = Some (Example.doc_file Example.light)
  /\ files (world o) !! (Example.active +:+ ".tmp") = None
  /\ files (world o) !! filepath.Join Example.settings "work.json"
     = files Example.two !! filepath.Join Example.settings "work.json".
Proof.
  cbv zeta.
  destruct (SwitchToContext_installs (H:=Sample.json) "/home/u" "/work"
              false "home" Example.two)
    as [(ctx & data & _ & _ & _ & Ht) Hkeep].
  - reflexivity.
  - split; [reflexivity|]. split; [reflexivity|]. split; [exact Ht|].
    apply (Hkeep "work" ".json"). reflexivity.
Defined.

Lemma SwitchToContext_unresolved_witness :
  res (SwitchToContext (H:=Sample.json) Example.mgr "nowhere" Example.two)
  = Err (NotFound "nowhere")
  /\ world (SwitchToContext (H:=Sample.json) Example.mgr "nowhere"
              Example.two)
     = Example.two.
Proof.
  destruct (SwitchToContext_unresolved (H:=Sample.json) Example.mgr
              "nowhere" Example.two (NotFound "nowhere"))
    as (Hr & Hw & _).
  - reflexivity.
  - split; [exact Hr|exact Hw].
Defined.


Lemma SwitchToPrevious_installs_witness :
  let o := SwitchToPrevious (H:=Sample.json) Example.mgr Example.two in
  res o = Ok tt
  /\ files (world o) !! Example.active
     = Some (Example.doc_file Example.light)
  /\ exists ctx data,
       res (GetContext (H:=Sample.json) Example.mgr "home" Example.two)
       = Ok ctx
       /\ files Example.two !! FilePath ctx = Some (os.File data)
       /\ files (world o) !! Example.active = Some (os.File data).
Proof.
  cbv zeta. split; [reflexivity|]. split; [reflexivity|].
  apply (SwitchToPrevious_installs (H:=Sample.json) "/home/u" "/work"
           false Example.two "work" "home"); reflexivity.
Defined.

Lemma SwitchToPrevious_without_previous_witness :
  res (SwitchToPrevious (H:=Sample.json) Example.mgr Example.corrupt)
  = Err NoPreviousContext
  /\ world (SwitchToPrevious (H:=Sample.json) Example.mgr Example.corrupt)
     = Example.corrupt.
Proof.
  destruct (SwitchToPrevious_without_previous (H:=Sample.json) Example.mgr
              Example.corrupt emptyState)
    as (Hr & Hw & _).
  - reflexivity.
  - reflexivity.
  - split; [exact Hr|exact Hw].
Defined.

Lemma UnsetCurrentContext_clears_witness :
  let o := UnsetCurrentContext (H:=Sample.json) Example.mgr Example.two in
  files (world o) !! Example.active = None
  /\ res (LoadState (H:=Sample.json) Example.state_file (world o))
     = Ok (mkState EmptyString "work").
Proof.
  cbv zeta.
  destruct (UnsetCurrentContext_clears (H:=Sample.json) "/home/u" "/work"
              false Example.two (mkState "work" "home"))
    as (Ha & Hs & _).
  - intros data Hm. vm_compute in Hm. injection Hm as <-. reflexivity.
  - reflexivity.
  - reflexivity.
  - split; [exact Ha|exact Hs].
Defined.

Lemma unset_then_previous_witness :
  let o1 := UnsetCurrentContext (H:=Sample.json) Example.mgr Example.two in
  let o2 := SwitchToPrevious (H:=Sample.json) Example.mgr (world o1) in
  res (LoadState (H:=Sample.json) Example.state_file (world o2))
  = Ok (mkState "work" EmptyString)
  /\ res (GetCurrentContext (H:=Sample.json) Example.mgr (world o2))
     = Ok "work".
Proof.
  cbv zeta.
  destruct (unset_then_previous (H:=Sample.json) "/home/u" "/work" false
              Example.two "work" "home")
    as (Hs & Hc & _).
  - intros s data [->| ->] Hm; vm_compute in Hm; injection Hm as <-;
      reflexivity.
  - reflexivity.
  - reflexivity.
  - reflexivity.
  - split; [exact Hs|exact Hc].
Defined.


Lemma RenameContext_target_exists_witness :
  res (RenameContext (H:=Sample.json) Example.mgr "home" "work" Example.two)
  = Err (RenameTargetExists "work")
  /\ world (RenameContext (H:=Sample.json) Example.mgr "home" "work"
              Example.two)
     = Example.two.
Proof.
  destruct (RenameContext_target_exists (H:=Sample.json) Example.mgr
              "home" "work" Example.two
              (mkContext (H:=Sample.json) "home" Example.light
                 (json_path Example.mgr "home"))
              (Example.doc_file Example.dark))
    as (Hr & Hw & _).
  - reflexivity.
  - reflexivity.
  - reflexivity.
  - split; [exact Hr|exact Hw].
Defined.

Lemma RenameContext_ignores_jsonc_target_witness :
  let o := RenameContext (H:=Sample.json) Example.mgr "old" "new"
             Cases.mixed in
  res o = Ok tt
  /\ files (world o) !! jsonc_path Example.mgr "new"
     = Some (Example.doc_file Example.light)
  /\ res (GetContext (H:=Sample.json) Example.mgr "new" (world o))
     = Ok (mkContext (H:=Sample.json) "new" Example.dark
             (json_path Example.mgr "new")).
Proof.
  cbv zeta.
  destruct (RenameContext_ignores_jsonc_target (H:=Sample.json) "/home/u"
              "/work" false Cases.mixed "old" "new"
              (Example.doc_file Example.light))
    as [Hc _].
  - discriminate.
  - reflexivity.
  - reflexivity.
  - split; [reflexivity|]. split; [exact Hc|reflexivity].
Defined.

Lemma CreateContext_refuses_taken_name_witness :
  let o := CreateContextWithFormat (H:=Sample.json) Example.mgr "work"
             FormatJSONC Example.two in
  res o = Err (AlreadyExists "work" FormatJSON)
  /\ forall k x, files Example.two !! k = Some x ->
                 files (world o) !! k = Some x.
Proof.
  cbv zeta.
  destruct (CreateContext_refuses_taken_name (H:=Sample.json) "/home/u"
              "/work" false "work" FormatJSONC Example.two)
    as (_ & Hk & _).
  - reflexivity.
  - left. discriminate.
  - split; [reflexivity|exact Hk].
Defined.

Lemma CreateContext_then_GetContext_witness :
  let o := CreateContext (H:=Sample.json) Example.mgr "work"
             Example.fresh in
  res (GetContext (H:=Sample.json) Example.mgr "work" (world o))
  = Ok (mkContext (H:=Sample.json) "work" Example.dark
          (json_path Example.mgr "work"))
  /\ files (world o) !! Example.state_file = None.
Proof.
  cbv zeta.
  destruct (CreateContext_then_GetContext (H:=Sample.json) "/home/u"
              "/work" false "work"
              (default "{}" (Sample.of_doc Example.dark)) Example.dark
              Example.fresh)
    as [Hg Hs].
  - reflexivity.
  - reflexivity.
  - intros text Hm. vm_compute in Hm. injection Hm as <-. reflexivity.
  - reflexivity.
  - split; [exact Hg|]. etransitivity; [exact Hs|reflexivity].
Defined.

Lemma jsonc_switch_blocks_create_witness :
  let o1 := CreateContextWithFormat (H:=Sample.json) Example.mgr "work"
              FormatJSONC Example.fresh in
  let o2 := SwitchToContext (H:=Sample.json) Example.mgr "work" (world o1) in
  res o1 = Ok tt /\ res o2 = Ok tt
  /\ res (CreateContextWithFormat (H:=Sample.json) Example.mgr "other"
            FormatJSON (world o2))
     ≠ Ok tt.
Proof.
  cbv zeta. split; [reflexivity|]. split; [reflexivity|].
  apply (jsonc_switch_blocks_create (H:=Sample.json) "/home/u" "/work"
           false "work" "other" FormatJSON Example.fresh).
  - intros rest. reflexivity.
  - reflexivity.
  - reflexivity.
Defined.

Lemma DeleteContext_then_GetContext_witness :
  let o := DeleteContext (H:=Sample.json) Example.mgr "home" Example.two in
  GetContext (H:=Sample.json) Example.mgr "home" (world o)
  = out (Err (NotFound "home")) (world o)
        [os.SysStat (json_path Example.mgr "home");
         os.SysStat (jsonc_path Example.mgr "home")].
Proof.
  cbv zeta.
  destruct (DeleteContext_then_GetContext (H:=Sample.json) Example.mgr
              "home" Example.two)
    as (_ & Hgone & _).
  - reflexivity.
  - apply Hgone. right. reflexivity.
Defined.

Lemma delete_previous_then_switch_witness :
  let o := DeleteContext (H:=Sample.json) Example.mgr "home" Example.two in
  res (LoadState (H:=Sample.json) Example.state_file (world o))
  = Ok (mkState "work" "home")
  /\ res (SwitchToPrevious (H:=Sample.json) Example.mgr (world o))
     = Err (StalePrevious "home").
Proof.
  cbv zeta.
  destruct (delete_previous_then_switch (H:=Sample.json) "/home/u" "/work"
              false Example.two "work" "home")
    as (Hs & Hp & _).
  - reflexivity.
  - right. reflexivity.
  - reflexivity.
  - split; [exact Hs|exact Hp].
Defined.

Lemma valid_name_stays_in_directory_witness :
  filepath.Dir (context_path Example.mgr "work" FormatJSONC)
  = Example.settings
  /\ context_path Example.mgr "work" FormatJSONC ≠ Example.state_file.
Proof.
  destruct (valid_name_stays_in_directory "/home/u" "/work" false "work"
              FormatJSONC)
    as (Hd & Hs & _).
  - reflexivity.
  - split; [exact Hd|exact Hs].
Defined.

Lemma EnsureDirectories_idempotent_witness :
  let o := config.EnsureDirectories (paths Example.mgr) false Cases.empty in
  files (world o) !! Example.settings = Some os.Directory
  /\ world (config.EnsureDirectories (paths Example.mgr) false (world o))
     = world o.
Proof.
  cbv zeta.
  destruct (EnsureDirectories_idempotent (paths Example.mgr) false
              Cases.empty)
    as (Hd & _ & _ & _ & Hw).
  - reflexivity.
  - split; [exact Hd|exact Hw].
Defined.

Lemma importContext_skips_name_validation_witness :
  let o := importContext (H:=Sample.json) Example.mgr ".secret"
             Cases.one_line Example.fresh in
  validateContextName ".secret" = Err (InvalidName NameHidden)
  /\ res o = Ok (inr tt)
  /\ (exists text,
        files (world o) !! json_path Example.mgr ".secret"
        = Some (os.File text))
  /\ GetContext (H:=Sample.json) Example.mgr ".secret" (world o)
     = out (Err (InvalidName NameHidden)) (world o) [].
Proof.
  cbv zeta.
  destruct (importContext_skips_name_validation (H:=Sample.json)
              Example.mgr ".secret" Cases.one_line Example.fresh)
    as [(data & text & _ & _ & Hf & _) Hget].
  - reflexivity.
  - reflexivity.
  - split; [reflexivity|]. split; [reflexivity|].
    split; [by exists text|]. apply Hget. reflexivity.
Defined.

Lemma importContext_existing_json_witness :
  res (importContext (H:=Sample.json) Example.mgr "work" Cases.one_line
         Example.two)
  = Ok (inl (ImportExists "work")).
Proof.
  destruct (importContext_existing_json (H:=Sample.json) Example.mgr "work"
              Cases.one_line Example.two ∅ (Example.doc_file Example.dark))
    as ([Hr|[x Hx]] & _).
  - reflexivity.
  - discriminate.
  - reflexivity.
  - reflexivity.
  - exact Hr.
  - reflexivity.
Defined.

Lemma importContext_then_GetContext_witness :
  let o := importContext (H:=Sample.json) Example.mgr "new" Cases.one_line
             Cases.mixed in
  res (GetContext (H:=Sample.json) Example.mgr "new" (world o))
  = Ok (mkContext (H:=Sample.json) "new" ∅ (json_path Example.mgr "new"))
  /\ files (world o) !! jsonc_path Example.mgr "new"
     = Some (Example.doc_file Example.light).
Proof.
  cbv zeta.
  destruct (importContext_then_GetContext (H:=Sample.json) "/home/u"
              "/work" false "new" Cases.one_line ∅ Cases.mixed)
    as [Hg Hc].
  - reflexivity.
  - intros text Hm. vm_compute in Hm. injection Hm as <-. reflexivity.
  - reflexivity.
  - reflexivity.
  - split; [exact Hg|]. etransitivity; [exact Hc|reflexivity].
Defined.
